(** * MemeMarket: market simulation and wager resolution engine

    A shallow embedding of the TypeScript services of the repository
    (MarketEngine, PredictionEngine, StakingService, TournamentService,
    AnalyticsService and the bet placement handlers of the Market view),
    with the properties of the specification stated over it.

    Conventions of the embedding
    - a JavaScript [number] that carries an amount, a price, a score or a
      ratio is an exact rational [Q]; timestamps ([Date.now()], in
      milliseconds) and counters are [Z].  Rounding of IEEE doubles and the
      infinities are outside the model, and so is NaN except where a table
      is read at a free key (below); [Infinity] in the staking table is
      [None];
    - [Date.now()] and [new Date().getHours()] are parameters [now] and
      [hour] of the operation that reads them;
    - [Math.random()] reads the head of a stream that is threaded through
      the operation ([Rand]);
    - a service object is a record of its fields, and a method that mutates
      it returns the new record next to its result;
    - a configuration table ([SUBREDDIT_MULTIPLIERS], [PREDICTION_TYPES],
      [PREDICTION_TIMEFRAMES]) and the quote table of the market engine are
      plain objects; they are modelled by their own properties.  Reading
      such an object at a key that names a member of [Object.prototype]
      ([Js.prototypeKeys]) finds that member, which is no number and no
      quote, and the arithmetic that follows yields NaN.  The records of
      the model hold numbers, not NaN: the methods are embedded as they run
      on keys outside [Js.prototypeKeys], where the own properties are all
      there is, and the properties that read a table at a free key are
      stated for such keys.  The two computations that read a table at a
      free key, the odds and the initial price, are embedded a second time
      with the inherited members and NaN ([Prototype]);
    - [Array.prototype.sort] is stable ([Js.sort]);
    - a string is its UTF-8 bytes; [s.length] counts UTF-16 code units
      ([Js.length]). *)

From Stdlib Require Import ZArith QArith Qround Qabs Qminmax Lqa Ascii String.
From stdpp Require Import base decidable option list sorting strings gmap fin_maps.

Local Open Scope Q_scope.

(* ================================================================= *)
(** ** JavaScript arithmetic on rationals *)

Module Js.

(** [a < b], [a <= b], [a > b], [a >= b] as booleans. *)
Definition ltb (a b : Q) : bool := negb (Qle_bool b a).
Definition leb (a b : Q) : bool := Qle_bool a b.
Definition gtb (a b : Q) : bool := ltb b a.
Definition geb (a b : Q) : bool := leb b a.

(** [Math.floor] and [Math.round] (round half up), as integers. *)
Definition floor (x : Q) : Z := Qfloor x.
Definition round (x : Q) : Z := Qfloor (x + (1 # 2)).

(** [x || d] on numbers: [0] is falsy. *)
Definition or_default (x d : Q) : Q := if Qeq_bool x 0 then d else x.

(** The names of the members of [Object.prototype], which every plain
    object inherits: [table[key]] at such a key is the inherited member (a
    function, or the prototype itself for [__proto__]), not [undefined]. *)
Definition prototypeKeys : list string :=
  [ "constructor"; "hasOwnProperty"; "isPrototypeOf"; "propertyIsEnumerable";
    "toLocaleString"; "toString"; "valueOf"; "__proto__";
    "__defineGetter__"; "__defineSetter__"; "__lookupGetter__"; "__lookupSetter__" ].

Definition inherited (key : string) : bool := existsb (String.eqb key) prototypeKeys.

(** What [table[key]] is, for a table given by its own properties: the own
    property, a member inherited from [Object.prototype], or [undefined]. *)
Inductive property (A : Type) :=
  | own (a : A)
  | inheritedMember
  | undefined.
Arguments own {A} a.
Arguments inheritedMember {A}.
Arguments undefined {A}.

Definition get {A} (table : string -> option A) (key : string) : property A :=
  match table key with
  | Some a => own a
  | None => if inherited key then inheritedMember else undefined
  end.

(** A number, or NaN. *)
Inductive number :=
  | num (q : Q)
  | NaN.

(** [a * b], [Math.max(a, b)], [Math.min(a, b)] and a function of one
    argument such as [Math.round]: NaN in, NaN out. *)
Definition mul (a b : number) : number :=
  match a, b with num x, num y => num (x * y) | _, _ => NaN end.
Definition max (a b : number) : number :=
  match a, b with num x, num y => num (Qmax x y) | _, _ => NaN end.
Definition min (a b : number) : number :=
  match a, b with num x, num y => num (Qmin x y) | _, _ => NaN end.
Definition apply (f : Q -> Q) (a : number) : number :=
  match a with num x => num (f x) | NaN => NaN end.

(** [table[key] || d] where a number is expected: an own number (or [d] in
    place of 0), [d] for [undefined], and for an inherited member, which is
    truthy, the member itself, a function or an object, whose value as a
    number is NaN. *)
Definition numberOr (d : Q) (p : property Q) : number :=
  match p with
  | own m => num (or_default m d)
  | inheritedMember => NaN
  | undefined => num d
  end.

(** The number of UTF-16 code units that the character starting at a byte
    of a UTF-8 string takes: none for a continuation byte, two (a surrogate
    pair) for the first byte of a four-byte sequence, one otherwise. *)
Definition codeUnits (byte : ascii) : nat :=
  let n := nat_of_ascii byte in
  if (n <? 128)%nat then 1%nat
  else if (n <? 192)%nat then 0%nat
  else if (n <? 240)%nat then 1%nat
  else 2%nat.

(** [s.length] *)
Fixpoint length (s : string) : nat :=
  match s with
  | EmptyString => 0%nat
  | String byte rest => (codeUnits byte + length rest)%nat
  end.

(** [Array.prototype.sort(compare)], where [R a b] says that [compare(a, b)]
    is not positive: [a] may stand before [b].  The sort is stable: of two
    elements that compare equal, the one that stood first stays first.  For
    a comparator that is the difference of a numeric key this determines the
    result, which is computed here by insertion from the right: an element
    goes in front of the first element it may stand before. *)
Fixpoint place {A} (R : A -> A -> Prop) `{!forall a b, Decision (R a b)}
    (x : A) (sorted : list A) : list A :=
  match sorted with
  | [] => [x]
  | y :: rest => if decide (R x y) then x :: y :: rest else y :: place R x rest
  end.

Definition sort {A} (R : A -> A -> Prop) `{!forall a b, Decision (R a b)}
    (l : list A) : list A :=
  foldr (place R) [] l.

End Js.

(* ================================================================= *)
(** ** [Math.random()] as a threaded stream *)

Module Rand.

(** The source of randomness: the values the successive calls of
    [Math.random()] return. *)
Definition stream : Type := nat -> Q.

Definition next (r : stream) : Q * stream := (r 0%nat, fun n => r (S n)).

(** A computation that draws from the stream. *)
Definition M (A : Type) : Type := stream -> A * stream.

Definition ret {A} (a : A) : M A := fun r => (a, r).
Definition bind {A B} (m : M A) (k : A -> M B) : M B :=
  fun r => let '(a, r') := m r in k a r'.
Definition random : M Q := next.

(** [l.map(f)] where [f] draws. *)
Fixpoint mapM {A B} (f : A -> M B) (l : list A) : M (list B) :=
  match l with
  | [] => ret []
  | a :: l' => bind (f a) (fun b => bind (mapM f l') (fun bs => ret (b :: bs)))
  end.

(** The stream that always answers [q]. *)
Definition const (q : Q) : stream := fun _ => q.

End Rand.

(** [x ← m; k] sequences two drawing computations. *)
#[global] Instance rand_ret : MRet Rand.M := @Rand.ret.
#[global] Instance rand_bind : MBind Rand.M := fun A B k m => Rand.bind m k.

(* ================================================================= *)
(** ** Data model ([src/types/index.ts]) *)

Inductive Status := active | won | lost | pending.
Inductive Trend := up | down | stable.
Inductive TimeOfDay := peak | normal | quiet.
Inductive Rarity := common | rare | epic | legendary.

#[global] Instance Status_eq_dec : EqDecision Status.
Proof. solve_decision. Defined.

Module RedditPost.
Record t := mk {
  id : string;
  title : string;
  author : string;
  subreddit : string;
  score : Q;
  commentCount : Q;
  created : Z;                  (* seconds since the epoch *)
  url : string;
  thumbnail : option string;
  selftext : option string;
  isIPO : option bool
}.
End RedditPost.

Module MarketData.
Record t := mk {
  postId : string;
  currentPrice : Q;
  previousPrice : Q;
  volume : Z;
  changePercent : Q;
  lastUpdated : Z;
  trend : Trend;
  ranking : option Q
}.
End MarketData.

Module MarketConditions.
Record t := mk {
  postAge : Q;
  currentRanking : Q;
  subredditMultiplier : Q;
  timeOfDay : TimeOfDay
}.
End MarketConditions.

(** The wager as the bet form hands it over:
    [Omit<Prediction, 'id' | 'userId' | 'status' | 'created' | 'resolved'>]. *)
Module PredictionData.
Record t := mk {
  postId : string;
  postUrl : string;
  postTitle : string;
  predictionType : string;
  targetValue : Q;
  timeframe : string;
  betAmount : Q;
  odds : Q;
  baselineValue : Q;
  volatilityFactor : Q;
  marketConditions : MarketConditions.t
}.
End PredictionData.

Module Prediction.
(** [predictionType] and [timeframe] are kept as the strings the bet form
    stores (it casts them with [as any]).  [resolved] is the field
    [resolved: number | null]: the key is always present, [None] is
    [null]. *)
Record t := mk {
  id : string;
  userId : string;
  postId : string;
  postUrl : string;
  postTitle : string;
  predictionType : string;
  targetValue : Q;
  timeframe : string;
  betAmount : Q;
  odds : Q;
  status : Status;
  created : Z;                  (* milliseconds *)
  resolved : option Z;
  baselineValue : Q;
  volatilityFactor : Q;
  marketConditions : MarketConditions.t
}.

(** [{ ...prediction, status: s, resolved: Date.now() }] *)
Definition resolve_as (s : Status) (now : Z) (p : t) : t :=
  mk (id p) (userId p) (postId p) (postUrl p) (postTitle p)
     (predictionType p) (targetValue p) (timeframe p) (betAmount p)
     (odds p) s (created p) (Some now) (baselineValue p)
     (volatilityFactor p) (marketConditions p).
End Prediction.

Module Achievement.
Record t := mk {
  id : string;
  name : string;
  description : string;
  icon : string;
  unlockedAt : Z;
  rarity : Rarity
}.
End Achievement.

Module UserPortfolio.
Record t := mk {
  userId : string;
  memeCoins : Q;
  totalValue : Q;
  predictions : list Prediction.t;
  achievements : list Achievement.t;
  level : Z;
  experience : Q;
  stakedCoins : Q;
  stakingRewards : Q;
  lastStakingClaim : Z;
  tournamentPoints : Q;
  currentTournament : option string;
  alertsEnabled : bool;
  favoriteSubreddits : list string;
  winStreak : Z;
  lossStreak : Z;
  bestWin : Q;
  perfectDays : Z
}.

(** Object spreads [{ ...portfolio, field: value }]. *)
Definition with_wager (coins : Q) (ps : list Prediction.t) (xp : Q) (lvl : Z)
    (p : t) : t :=
  mk (userId p) coins (totalValue p) ps (achievements p) lvl xp
     (stakedCoins p) (stakingRewards p) (lastStakingClaim p)
     (tournamentPoints p) (currentTournament p) (alertsEnabled p)
     (favoriteSubreddits p) (winStreak p) (lossStreak p) (bestWin p)
     (perfectDays p).

Definition with_staking (coins staked rewards : Q) (claim : Z) (p : t) : t :=
  mk (userId p) coins (totalValue p) (predictions p) (achievements p)
     (level p) (experience p) staked rewards claim
     (tournamentPoints p) (currentTournament p) (alertsEnabled p)
     (favoriteSubreddits p) (winStreak p) (lossStreak p) (bestWin p)
     (perfectDays p).

Definition with_tournament (coins : Q) (tid : string) (pts : Q) (p : t) : t :=
  mk (userId p) coins (totalValue p) (predictions p) (achievements p)
     (level p) (experience p) (stakedCoins p) (stakingRewards p)
     (lastStakingClaim p) pts (Some tid) (alertsEnabled p)
     (favoriteSubreddits p) (winStreak p) (lossStreak p) (bestWin p)
     (perfectDays p).
End UserPortfolio.

Module TournamentParticipant.
Record t := mk {
  userId : string;
  username : string;
  points : Z;
  rank : Z;
  predictions : Z;
  winRate : Q
}.
End TournamentParticipant.

Module Tournament.
Inductive state := upcoming | active | completed.

#[global] Instance state_eq_dec : EqDecision state.
Proof. solve_decision. Defined.

Record t := mk {
  id : string;
  name : string;
  description : string;
  startDate : Z;
  endDate : Z;
  prizePool : Q;
  entryFee : Q;
  maxParticipants : Z;
  currentParticipants : Z;
  status : state;
  rules : list string;
  leaderboard : list TournamentParticipant.t
}.
End Tournament.

Module StakingTier.
(** [maxAmount = None] is [Infinity]. *)
Record t := mk {
  minAmount : Q;
  maxAmount : option Q;
  apr : Q;
  name : string
}.
End StakingTier.

Module MarketSector.
Record t := mk {
  id : string;
  name : string;
  activeUntil : Z;
  multiplier : Q
}.
End MarketSector.

Module MarketEvent.
Inductive kind := crash | boom.
Record t := mk {
  type : kind;
  impact : Q;
  duration : Z;
  created : Z
}.
End MarketEvent.

(* ================================================================= *)
(** ** Configuration ([src/utils/constants.ts]) *)

Module GAME_CONFIG.
Definition INITIAL_MEMECOINS : Q := 1000.
Definition MIN_BET_AMOUNT : Q := 10.
Definition MAX_BET_AMOUNT : Q := 1000.
Definition SECTOR_DURATION : Z := 24 * 60 * 60 * 1000.

Definition BASE_VOLATILITY : Q := 0.02.
Definition RANDOM_VOLATILITY_RANGE : Q := 0.02.
Definition MIN_VOLATILITY : Q := 0.005.
Definition VOLATILITY_MULTIPLIER : Q := 1.

Definition TIME_MULTIPLIER_MAX : Q := 1.5.
Definition TIME_MULTIPLIER_BASE : Q := 30.
Definition RANDOM_FACTOR_RANGE : Q := 0.03.
Definition TRENDING_BIAS_FACTOR : Q := 0.005.
Definition MAX_PRICE_CHANGE_PERCENT : Q := 0.5.
Definition MIN_PRICE : Q := 0.01.
Definition VOLUME_INCREASE_MIN : Z := 5.
Definition VOLUME_INCREASE_MAX : Q := 30.

Definition SECTOR_DURATION_HOURS : Z := 24.
Definition PREDICTION_EXPIRY_HOURS : Z := 24.
Definition EVENT_DURATION_MINUTES : Z := 5.

Definition SCORE_MULTIPLIER : Q := 0.001.
Definition MAX_SCORE_VALUE : Q := 2.

Definition HIGH_ROLLER_THRESHOLD : Q := 1000.
Definition MARKET_CRASH_SURVIVOR_THRESHOLD : nat := 5.
Definition DAILY_REWARD : Q := 50.
Definition ACHIEVEMENT_REWARD : Q := 100.
Definition LEVEL_UP_BONUS : Z := 25.
Definition WINNING_STREAK_BONUS : Z := 10.
Definition PERFECT_PREDICTION_BONUS : Q := 50.
End GAME_CONFIG.

(** [MARKET_SECTORS], in the order of [Object.values]. *)
Definition MARKET_SECTORS : list MarketSector.t :=
  [ MarketSector.mk "cats" "Cat Memes" 0 1.2;
    MarketSector.mk "politics" "Political Satire" 0 1.5;
    MarketSector.mk "gaming" "Gaming Culture" 0 1.3;
    MarketSector.mk "food" "Food & Cooking" 0 1.1;
    MarketSector.mk "wtf" "WTF Moments" 0 1.8 ].

(** [LEVELS]: (level, experience threshold). *)
Definition LEVELS : list (Z * Q) :=
  [ (1%Z, 0); (2%Z, 100); (3%Z, 250); (4%Z, 500); (5%Z, 1000);
    (6%Z, 2000); (7%Z, 3500); (8%Z, 5000); (9%Z, 7500); (10%Z, 10000) ].

(** The own properties of [SUBREDDIT_MULTIPLIERS]. *)
Definition SUBREDDIT_MULTIPLIERS (name : string) : option Q :=
  if String.eqb name "memes" then Some 1.3
  else if String.eqb name "programmerhumor" then Some 1.4
  else if String.eqb name "gaming" then Some 1.2
  else if String.eqb name "cats" then Some 1.3
  else if String.eqb name "askreddit" then Some 1.5
  else if String.eqb name "todayilearned" then Some 1.4
  else if String.eqb name "nextfuckinglevel" then Some 1.6
  else if String.eqb name "interestingasfuck" then Some 1.5
  else if String.eqb name "wtf" then Some 1.2
  else if String.eqb name "politics" then Some 1.1
  else if String.eqb name "funny" then Some 1.2
  else if String.eqb name "aww" then Some 1.4
  else if String.eqb name "news" then Some 1.1
  else None.

(** The own properties of [PREDICTION_TYPES]; the entry is represented by
    its [baseOdds].  The keys are the upper-case names, the [id] fields are
    the lower-case ones. *)
Definition PREDICTION_TYPES (key : string) : option Q :=
  if String.eqb key "GROWTH_RATE" then Some 2
  else if String.eqb key "MILESTONE_REACH" then Some 1.8
  else if String.eqb key "RANKING_POSITION" then Some 3
  else if String.eqb key "ENGAGEMENT_RATIO" then Some 2.5
  else if String.eqb key "VIRALITY_INDEX" then Some 4
  else None.

Module MARKET_DYNAMICS.
Definition POST_AGE_0_1 : Q := 1.
Definition POST_AGE_1_3 : Q := 0.8.
Definition POST_AGE_3_6 : Q := 0.6.
Definition POST_AGE_6_12 : Q := 0.4.
Definition POST_AGE_12_24 : Q := 0.3.
Definition POST_AGE_24_plus : Q := 0.2.

Definition RANKING_1_5 : Q := 0.9.
Definition RANKING_6_20 : Q := 0.7.
Definition RANKING_21_50 : Q := 0.5.
Definition RANKING_51_plus : Q := 0.3.

Definition TIME_OF_DAY (t : TimeOfDay) : Q :=
  match t with peak => 1.2 | normal => 1 | quiet => 0.8 end.
End MARKET_DYNAMICS.

(** The own properties of [PREDICTION_TIMEFRAMES]: (hours, baseMultiplier).
    An inherited member has no [baseMultiplier] and no [hours]. *)
Definition PREDICTION_TIMEFRAMES (key : string) : option (Z * Q) :=
  if String.eqb key "SHORT" then Some (6%Z, 1.5)
  else if String.eqb key "MEDIUM" then Some (12%Z, 1.2)
  else if String.eqb key "LONG" then Some (24%Z, 1)
  else if String.eqb key "EXTENDED" then Some (48%Z, 0.8)
  else None.

Definition STAKING_TIERS : list StakingTier.t :=
  [ StakingTier.mk 0 (Some 999) 5.0 "Bronze Staker";
    StakingTier.mk 1000 (Some 4999) 8.5 "Silver Staker";
    StakingTier.mk 5000 (Some 9999) 12 "Gold Staker";
    StakingTier.mk 10000 None 15 "Diamond Staker" ].

Module TOURNAMENT_CONFIG.
Definition ENTRY_FEE : Q := 100.
Definition DURATION_HOURS : Z := 24.
Definition MAX_PARTICIPANTS : Z := 100.
Definition PRIZE_DISTRIBUTION : list Q := [0.5; 0.25; 0.15; 0.1].
Definition POINTS_PER_WIN : Q := 10.
Definition POINTS_PER_LOSS : Q := -2.
Definition BONUS_MULTIPLIER : Q := 1.5.
End TOURNAMENT_CONFIG.

Module ANALYTICS_CONFIG.
Definition STAKING_CLAIM_INTERVAL : Z := 3600000.
End ANALYTICS_CONFIG.

(** What a method that may [throw new Error(msg)] produces. *)
Inductive result (A : Type) : Type :=
  | Ok (a : A)
  | Throw (msg : string).
Arguments Ok {A} a.
Arguments Throw {A} msg.

(* ================================================================= *)
(** ** StakingService ([src/services/RedditAPI.ts], second part) *)

Module StakingService.
Import UserPortfolio.

Definition in_tier (amount : Q) (tier : StakingTier.t) : bool :=
  Js.geb amount (StakingTier.minAmount tier) &&
  match StakingTier.maxAmount tier with
  | Some m => Js.leb amount m
  | None => true
  end.

(** [STAKING_TIERS.find(...) || STAKING_TIERS[0]] *)
Definition getStakingTier (amount : Q) : StakingTier.t :=
  match List.find (in_tier amount) STAKING_TIERS with
  | Some tier => tier
  | None => StakingTier.mk 0 (Some 999) 5.0 "Bronze Staker"
  end.

Definition calculateStakingRewards (now : Z) (portfolio : t) : Z :=
  let tier := getStakingTier (stakedCoins portfolio) in
  let timeSinceLastClaim := (now - lastStakingClaim portfolio)%Z in
  let hoursSinceLastClaim := inject_Z timeSinceLastClaim / inject_Z (1000 * 60 * 60) in
  let dailyRate := StakingTier.apr tier / 100 / 365 in
  let dailyReward := stakedCoins portfolio * dailyRate in
  let reward := dailyReward * (hoursSinceLastClaim / 24) in
  Z.max 0 (Js.floor reward).

Definition canClaimRewards (now : Z) (portfolio : t) : bool :=
  (ANALYTICS_CONFIG.STAKING_CLAIM_INTERVAL <=? now - lastStakingClaim portfolio)%Z.

Definition claimRewards (now : Z) (portfolio : t) : t :=
  let rewards := inject_Z (calculateStakingRewards now portfolio) in
  with_staking (memeCoins portfolio + rewards) (stakedCoins portfolio)
               (stakingRewards portfolio + rewards) now portfolio.

Definition stakeCoins (now : Z) (portfolio : t) (amount : Q) : result t :=
  if Js.gtb amount (memeCoins portfolio) then
    Throw "Insufficient MemeCoins to stake"
  else
    Ok (with_staking (memeCoins portfolio - amount)
                     (stakedCoins portfolio + amount)
                     (stakingRewards portfolio) now portfolio).

Definition unstakeCoins (now : Z) (portfolio : t) (amount : Q) : result t :=
  if Js.gtb amount (stakedCoins portfolio) then
    Throw "Insufficient staked coins"
  else
    let updatedPortfolio := claimRewards now portfolio in
    Ok (with_staking (memeCoins updatedPortfolio + amount)
                     (stakedCoins updatedPortfolio - amount)
                     (stakingRewards updatedPortfolio)
                     (lastStakingClaim updatedPortfolio) updatedPortfolio).

Record stats := mkStats {
  currentTier : StakingTier.t;
  pendingRewards : Z;
  totalStaked : Q;
  totalRewards : Q;
  timeUntilNextClaim : Z;
  nextTierThreshold : option Q       (* [None] is [Infinity] *)
}.

Definition getStakingStats (now : Z) (portfolio : t) : stats :=
  let tier := getStakingTier (stakedCoins portfolio) in
  let rewards := calculateStakingRewards now portfolio in
  let timeUntilNextClaim :=
    Z.max 0 (ANALYTICS_CONFIG.STAKING_CLAIM_INTERVAL - (now - lastStakingClaim portfolio)) in
  mkStats tier rewards (stakedCoins portfolio) (stakingRewards portfolio)
    timeUntilNextClaim
    (match StakingTier.maxAmount tier with
     | None => None
     | Some top =>
         match List.find (fun t => Js.gtb (StakingTier.minAmount t) top) STAKING_TIERS with
         | Some next =>
             if Qeq_bool (StakingTier.minAmount next) 0 then None
             else Some (StakingTier.minAmount next)
         | None => None
         end
     end).

End StakingService.

(* ================================================================= *)
(** ** Helpers ([src/utils/helpers.ts]) *)

(** Age of a post in hours: [(Date.now() - post.created * 1000) / (1000 * 60 * 60)]. *)
Definition hoursSince (now : Z) (post : RedditPost.t) : Q :=
  inject_Z (now - RedditPost.created post * 1000) / inject_Z (1000 * 60 * 60).

(** The time-of-day bucket both the engine and the bet form compute from
    [new Date().getHours()]. *)
Definition timeOfDayAt (hour : Z) : TimeOfDay :=
  if ((20 <=? hour) && (hour <=? 22))%Z then peak
  else if ((22 <=? hour) || (hour <=? 10))%Z then quiet
  else normal.

(** [calculateLevel(experience).level]: the highest level whose threshold
    is reached, scanning [LEVELS] from the top; the [title] and [progress]
    fields of the result are not read by the modelled callers. *)
Definition calculateLevel (experience : Q) : Z :=
  match List.find (fun lv => Js.geb experience (snd lv)) (rev LEVELS) with
  | Some lv => fst lv
  | None => 1%Z
  end.

(* ================================================================= *)
(** ** PredictionEngine ([src/services/PredictionEngine.ts])

    Division is [Qdiv], which answers [0] for a zero divisor where
    JavaScript answers an infinity or NaN. *)

Module PredictionEngine.

Record Conditions := mkConditions {
  postAge : Q;
  currentRanking : Q;
  subredditMultiplier : Q;
  timeOfDay : TimeOfDay;
  currentUpvotes : Q;
  currentComments : Q;
  growthRate : Q
}.

Definition calculateGrowthRate (now : Z) (post : RedditPost.t) : Q :=
  let postAge := hoursSince now post in
  if Js.leb postAge 0 then 0 else RedditPost.score post / postAge.

(** [marketData.ranking || d] *)
Definition rankingOr (d : Q) (marketData : MarketData.t) : Q :=
  match MarketData.ranking marketData with
  | Some r => Js.or_default r d
  | None => d
  end.

(** [SUBREDDIT_MULTIPLIERS[key] || 1.0], for a key outside
    [Js.prototypeKeys]. *)
Definition subredditFactor (key : string) : Q :=
  match SUBREDDIT_MULTIPLIERS key with
  | Some m => Js.or_default m 1
  | None => 1
  end.

Definition analyzeMarketConditions (now hour : Z) (post : RedditPost.t)
    (marketData : MarketData.t) : Conditions :=
  {| postAge := hoursSince now post;
     currentRanking := rankingOr 50 marketData;
     subredditMultiplier := subredditFactor (RedditPost.subreddit post);
     timeOfDay := timeOfDayAt hour;
     currentUpvotes := RedditPost.score post;
     currentComments := RedditPost.commentCount post;
     growthRate := calculateGrowthRate now post |}.

Definition postAgeFactor (age : Q) : Q :=
  if Js.leb age 1 then MARKET_DYNAMICS.POST_AGE_0_1
  else if Js.leb age 3 then MARKET_DYNAMICS.POST_AGE_1_3
  else if Js.leb age 6 then MARKET_DYNAMICS.POST_AGE_3_6
  else if Js.leb age 12 then MARKET_DYNAMICS.POST_AGE_6_12
  else if Js.leb age 24 then MARKET_DYNAMICS.POST_AGE_12_24
  else MARKET_DYNAMICS.POST_AGE_24_plus.

Definition rankingFactor (rank : Q) : Q :=
  if Js.leb rank 5 then MARKET_DYNAMICS.RANKING_1_5
  else if Js.leb rank 20 then MARKET_DYNAMICS.RANKING_6_20
  else if Js.leb rank 50 then MARKET_DYNAMICS.RANKING_21_50
  else MARKET_DYNAMICS.RANKING_51_plus.

Definition calculateVolatilityFactor (conditions : Conditions) : Q :=
  let volatility := 1.0 in
  let volatility := volatility * postAgeFactor (postAge conditions) in
  let volatility := volatility * rankingFactor (currentRanking conditions) in
  let volatility := volatility * MARKET_DYNAMICS.TIME_OF_DAY (timeOfDay conditions) in
  volatility.

Definition calculateDifficultyMultiplier (predictionType : string)
    (post : RedditPost.t) (targetValue : Q) (conditions : Conditions) : Q :=
  if String.eqb predictionType "growth_rate" then
    let expectedGrowth := growthRate conditions * 24 in
    let growthDifficulty := Qabs (targetValue - expectedGrowth) / expectedGrowth in
    Qmax 0.5 (Qmin 2.0 (1 + growthDifficulty))
  else if String.eqb predictionType "milestone_reach" then
    let milestoneDifficulty := targetValue / Qmax 1 (RedditPost.score post) in
    Qmax 0.8 (Qmin 3.0 (milestoneDifficulty / 2))
  else if String.eqb predictionType "ranking_position" then
    if Js.leb targetValue 5 then 2.5
    else if Js.leb targetValue 20 then 1.8
    else if Js.leb targetValue 50 then 1.2
    else 0.8
  else if String.eqb predictionType "engagement_ratio" then
    let currentRatio := RedditPost.commentCount post / Qmax 1 (RedditPost.score post) in
    let ratioDifficulty := Qabs (targetValue - currentRatio) / currentRatio in
    Qmax 0.7 (Qmin 2.5 (1 + ratioDifficulty))
  else if String.eqb predictionType "virality_index" then 2.0
  else 1.0.

(** [PREDICTION_TIMEFRAMES[timeframe]?.baseMultiplier || 1.0] *)
Definition timeframeMultiplier (timeframe : string) : Q :=
  match PREDICTION_TIMEFRAMES timeframe with
  | Some tf => Js.or_default (snd tf) 1
  | None => 1
  end.

(** [calculateOdds], for a prediction type and a subreddit outside
    [Js.prototypeKeys] ([Prototype.calculateOdds] covers the others). *)
Definition calculateOdds (now hour : Z) (post : RedditPost.t)
    (marketData : MarketData.t) (predictionType : string) (targetValue : Q)
    (timeframe : string) : Q :=
  match PREDICTION_TYPES predictionType with
  | None => 2.0
  | Some configuredOdds =>
      let marketConditions := analyzeMarketConditions now hour post marketData in
      let volatilityFactor := calculateVolatilityFactor marketConditions in
      let timeMultiplier := timeframeMultiplier timeframe in
      let baseOdds := configuredOdds in
      let baseOdds := baseOdds * volatilityFactor in
      let baseOdds := baseOdds * timeMultiplier in
      let subredditMultiplier := subredditFactor (RedditPost.subreddit post) in
      let baseOdds := baseOdds * subredditMultiplier in
      let difficultyMultiplier :=
        calculateDifficultyMultiplier predictionType post targetValue marketConditions in
      let baseOdds := baseOdds * difficultyMultiplier in
      Qmax 1.1 (Qmin 50.0 baseOdds)
  end.

(** [calculateViralityScore], for a post whose age is not exactly 0: there
    the divisor is 0 and the quotient of the code is an infinity or NaN,
    which no tolerance test passes. *)
Definition calculateViralityScore (now : Z) (post : RedditPost.t)
    (marketData : MarketData.t) : Q :=
  let upvotes := RedditPost.score post in
  let comments := RedditPost.commentCount post in
  let age := hoursSince now post in
  let ranking := rankingOr 100 marketData in
  let growthRate := upvotes / Qmax 1 age in
  let engagement := upvotes + comments * 2 in
  let competition := Qmax 1 (ranking / 10) in
  (engagement * growthRate) / (age * competition).

(** [marketData.ranking === prediction.targetValue] *)
Definition rankingIs (marketData : MarketData.t) (target : Q) : bool :=
  match MarketData.ranking marketData with
  | Some r => Qeq_bool r target
  | None => false
  end.

(** [resolvePrediction]: did the prediction win?  [None] stands for the
    [TypeError] of reading [.hours] of [undefined] when the timeframe is not
    a key of [PREDICTION_TIMEFRAMES] (a timeframe in [Js.prototypeKeys],
    whose inherited member has no [hours], is outside the embedding). *)
Definition resolvePrediction (now : Z) (prediction : Prediction.t)
    (currentPost : RedditPost.t) (marketData : MarketData.t) : option bool :=
  match PREDICTION_TIMEFRAMES (Prediction.timeframe prediction) with
  | None => None
  | Some tf =>
      let hours := fst tf in
      let resolutionTime := (Prediction.created prediction + hours * 60 * 60 * 1000)%Z in
      let target := Prediction.targetValue prediction in
      let kind := Prediction.predictionType prediction in
      if (now <? resolutionTime)%Z then Some false
      else if String.eqb kind "growth_rate" then
        let actualGrowthRate :=
          (RedditPost.score currentPost - Prediction.baselineValue prediction)
          / inject_Z hours in
        Some (Js.leb (Qabs (actualGrowthRate - target)) (target * 0.1))
      else if String.eqb kind "milestone_reach" then
        Some (Js.geb (RedditPost.score currentPost) target)
      else if String.eqb kind "ranking_position" then
        Some (rankingIs marketData target)
      else if String.eqb kind "engagement_ratio" then
        let actualRatio :=
          RedditPost.commentCount currentPost / Qmax 1 (RedditPost.score currentPost) in
        Some (Js.leb (Qabs (actualRatio - target)) (target * 0.15))
      else if String.eqb kind "virality_index" then
        let viralityScore := calculateViralityScore now currentPost marketData in
        Some (Js.leb (Qabs (viralityScore - target)) (target * 0.2))
      else Some false
  end.

End PredictionEngine.

(* ================================================================= *)
(** ** MarketEngine ([src/services/MarketEngine.ts]) *)

(** [String.prototype.toLowerCase], as far as the table keys can tell: the
    ASCII letters are lowered, and so is the Kelvin sign (U+212A, the bytes
    E2 84 AA), the one character outside ASCII whose lower case is an ASCII
    letter.  The other characters are left as they are; lowering them yields
    no ASCII character, and every key of the tables is ASCII. *)
Definition lowerChar (c : ascii) : ascii :=
  let n := nat_of_ascii c in
  if ((65 <=? n) && (n <=? 90))%nat then ascii_of_nat (n + 32) else c.

Definition isKelvin (b1 b2 b3 : ascii) : bool :=
  ((nat_of_ascii b1 =? 226) && (nat_of_ascii b2 =? 132) && (nat_of_ascii b3 =? 170))%nat.

Fixpoint toLowerCase (s : string) : string :=
  match s with
  | EmptyString => EmptyString
  | String c s' =>
      match s' with
      | String c2 (String c3 rest) =>
          if isKelvin c c2 c3 then String "k" (toLowerCase rest)
          else String (lowerChar c) (toLowerCase s')
      | _ => String (lowerChar c) (toLowerCase s')
      end
  end.

Module MarketEngine.

(** The fields of the service object.  [currentSector] aliases one element
    of [sectors]; both are kept in step.  [marketData] holds the own
    properties of the quote table. *)
Record t := mk {
  marketData : gmap string MarketData.t;
  sectors : list MarketSector.t;
  currentSector : option MarketSector.t
}.

Definition isSector (name : string) (s : MarketSector.t) : bool :=
  String.eqb (MarketSector.id s) name.

(** The constructor: [initializeSectors], with an empty quote table. *)
Definition create (now : Z) : t :=
  let sectors :=
    map (fun sector =>
           MarketSector.mk (MarketSector.id sector) (MarketSector.name sector)
             (if isSector "cats" sector then now + GAME_CONFIG.SECTOR_DURATION else 0)%Z
             (MarketSector.multiplier sector))
        MARKET_SECTORS in
  mk ∅ sectors
     (match List.find (isSector "cats") sectors with
      | Some s => Some s
      | None => head sectors
      end).

(** [this.currentSector?.multiplier || 1.0] *)
Definition sectorInfluence (engine : t) : Q :=
  match currentSector engine with
  | Some s => Js.or_default (MarketSector.multiplier s) 1
  | None => 1
  end.

Definition calculateMarketVolatility (engine : t) : Rand.M Q :=
  r ← Rand.random;
  let baseVolatility := GAME_CONFIG.BASE_VOLATILITY in
  let randomVolatility := (r - 0.5) * GAME_CONFIG.RANDOM_VOLATILITY_RANGE in
  mret (Qmax GAME_CONFIG.MIN_VOLATILITY (baseVolatility + randomVolatility)
        * sectorInfluence engine * GAME_CONFIG.VOLATILITY_MULTIPLIER).

Definition trendOf (newPrice previousPrice : Q) : Trend :=
  if Js.gtb newPrice previousPrice then up
  else if Js.ltb newPrice previousPrice then down
  else stable.

Definition updatePostPrice (now : Z) (postId : string) (engine : t) : Rand.M t :=
  match marketData engine !! postId with
  | None => mret engine
  | Some currentData =>
      let previousPrice := MarketData.currentPrice currentData in
      marketVolatility ← calculateMarketVolatility engine;
      let influence := sectorInfluence engine in
      let timeSinceLastUpdate :=
        inject_Z (now - MarketData.lastUpdated currentData) / inject_Z (1000 * 60) in
      let timeMultiplier :=
        Qmin GAME_CONFIG.TIME_MULTIPLIER_MAX
             (timeSinceLastUpdate / GAME_CONFIG.TIME_MULTIPLIER_BASE) in
      r2 ← Rand.random;
      let randomFactor := (r2 - 0.5) * GAME_CONFIG.RANDOM_FACTOR_RANGE * timeMultiplier in
      r3 ← Rand.random;
      let trendingBias := r3 * GAME_CONFIG.TRENDING_BIAS_FACTOR * timeMultiplier in
      let totalChange := marketVolatility + randomFactor + trendingBias in
      let sectorAdjustedChange := totalChange * influence in
      let priceChange :=
        Qmax (- GAME_CONFIG.MAX_PRICE_CHANGE_PERCENT)
             (Qmin GAME_CONFIG.MAX_PRICE_CHANGE_PERCENT sectorAdjustedChange) in
      let newPrice := Qmax GAME_CONFIG.MIN_PRICE (previousPrice * (1 + priceChange)) in
      r4 ← Rand.random;
      r5 ← Rand.random;
      let updatedData :=
        MarketData.mk (MarketData.postId currentData)
          (inject_Z (Js.round (newPrice * 100)) / 100)
          previousPrice
          (MarketData.volume currentData
           + Js.floor (r4 * GAME_CONFIG.VOLUME_INCREASE_MAX)
           + GAME_CONFIG.VOLUME_INCREASE_MIN)%Z
          (inject_Z (Js.round ((newPrice - previousPrice) / previousPrice * 10000)) / 100)
          now
          (trendOf newPrice previousPrice)
          (Some (inject_Z (Js.floor (r5 * 100) + 1))) in
      mret (mk (<[postId := updatedData]> (marketData engine))
               (sectors engine) (currentSector engine))
  end.

(** [for (const postId of keys) step(postId)] *)
Fixpoint forEachKey (step : string -> t -> Rand.M t) (keys : list string)
    (engine : t) : Rand.M t :=
  match keys with
  | [] => mret engine
  | postId :: rest => engine' ← step postId engine; forEachKey step rest engine'
  end.

(** [Object.keys(this.marketData)] *)
Definition keys (engine : t) : list string := (map_to_list (marketData engine)).*1.

(** The market tick. *)
Definition updateAllPrices (now : Z) (engine : t) : Rand.M t :=
  forEachKey (updatePostPrice now) (keys engine) engine.

Definition calculateContentMultiplier (post : RedditPost.t) : Q :=
  let multiplier := 1.0 in
  let titleLength := Js.length (RedditPost.title post) in
  let multiplier :=
    if ((40 <=? titleLength) && (titleLength <=? 100))%nat then multiplier * 1.1
    else if ((titleLength <? 20) || (150 <? titleLength))%nat then multiplier * 0.9
    else multiplier in
  let multiplier :=
    match RedditPost.selftext post with
    | Some text => if (100 <? Js.length text)%nat then multiplier * 1.05 else multiplier
    | None => multiplier
    end in
  let multiplier :=
    match RedditPost.thumbnail post with
    | Some thumb =>
        if negb (String.eqb thumb "") && negb (String.eqb thumb "self")
        then multiplier * 1.15 else multiplier
    | None => multiplier
    end in
  multiplier.

(** [SUBREDDIT_MULTIPLIERS[subreddit.toLowerCase()] || 1.0], for a subreddit
    whose lower-case name is outside [Js.prototypeKeys]. *)
Definition getSubredditMultiplier (subreddit : string) : Q :=
  match SUBREDDIT_MULTIPLIERS (toLowerCase subreddit) with
  | Some m => Js.or_default m 1
  | None => 1
  end.

(** [calculateInitialPrice], for a subreddit whose lower-case name is outside
    [Js.prototypeKeys] ([Prototype.calculateInitialPrice] covers the others);
    [ln] is [Math.log]. *)
Definition calculateInitialPrice (ln : Q -> Q) (now : Z) (post : RedditPost.t)
    (engine : t) : Rand.M Q :=
  let basePrice := 0.1 in
  let scoreValue :=
    Qmin (RedditPost.score post * GAME_CONFIG.SCORE_MULTIPLIER) GAME_CONFIG.MAX_SCORE_VALUE in
  let commentValue := ln (Qmax 1 (RedditPost.commentCount post)) * 0.05 in
  let ageInHours := hoursSince now post in
  let freshnessMultiplier := Qmax 0.1 (Qmin 2.0 (1 + (24 - ageInHours) * 0.02)) in
  let subredditMultiplier := getSubredditMultiplier (RedditPost.subreddit post) in
  let sectorMultiplier := sectorInfluence engine in
  let contentMultiplier := calculateContentMultiplier post in
  r ← Rand.random;
  let volatility := 1 + (r - 0.5) * 0.3 in
  let finalPrice :=
    (basePrice + scoreValue + commentValue) * freshnessMultiplier
    * subredditMultiplier * sectorMultiplier * contentMultiplier * volatility in
  mret (Qmax 0.01 (inject_Z (Js.round (finalPrice * 100)) / 100)).

(** [initializePostMarket], for a post under plain keys ([plainPost]): the
    assignment [this.marketData[post.id] = marketData] creates or replaces an
    own property (at the id [__proto__] it would set the prototype
    instead). *)
Definition initializePostMarket (ln : Q -> Q) (now : Z) (post : RedditPost.t)
    (engine : t) : Rand.M (MarketData.t * t) :=
  initialPrice ← calculateInitialPrice ln now post engine;
  r ← Rand.random;
  let data :=
    MarketData.mk (RedditPost.id post) initialPrice initialPrice
      (Js.floor (r * 1000) + 100)%Z 0 now stable None in
  mret (data, mk (<[RedditPost.id post := data]> (marketData engine))
                 (sectors engine) (currentSector engine)).

(** [this.marketData[postId] || null], for a [postId] outside
    [Js.prototypeKeys]. *)
Definition getMarketData (postId : string) (engine : t) : option MarketData.t :=
  marketData engine !! postId.

(** [rotateSector]: the next sector in cyclic order becomes current and its
    [activeUntil] is set, in the array as well.  With no sectors at all the
    method leaves [currentSector] undefined and throws. *)
Definition rotateSector (now : Z) (engine : t) : option MarketSector.t * t :=
  let currentIndex :=
    match currentSector engine with
    | Some cur =>
        match list_find (fun s => MarketSector.id s = MarketSector.id cur) (sectors engine) with
        | Some found => Z.of_nat (fst found)
        | None => (-1)%Z
        end
    | None => (-1)%Z
    end in
  let nextIndex := Z.to_nat ((currentIndex + 1) mod Z.of_nat (length (sectors engine))) in
  match sectors engine !! nextIndex with
  | None => (None, mk (marketData engine) (sectors engine) None)
  | Some s =>
      let s' :=
        MarketSector.mk (MarketSector.id s) (MarketSector.name s)
          (now + GAME_CONFIG.SECTOR_DURATION_HOURS * 60 * 60 * 1000)%Z
          (MarketSector.multiplier s) in
      (Some s', mk (marketData engine) (<[nextIndex := s']> (sectors engine)) (Some s'))
  end.

Definition impactOf (eventType : MarketEvent.kind) : Q :=
  match eventType with MarketEvent.crash => -0.3 | MarketEvent.boom => 0.2 end.

(** One iteration of the loop of [triggerMarketEvent]. *)
Definition applyImpact (now : Z) (impact : Q) (postId : string)
    (quotes : gmap string MarketData.t) : gmap string MarketData.t :=
  match quotes !! postId with
  | None => quotes
  | Some data =>
      let newPrice := Qmax 0.01 (MarketData.currentPrice data * (1 + impact)) in
      <[postId :=
          MarketData.mk (MarketData.postId data) newPrice
            (MarketData.currentPrice data) (MarketData.volume data)
            ((newPrice - MarketData.currentPrice data) / MarketData.currentPrice data * 100)
            now
            (if Js.gtb newPrice (MarketData.currentPrice data) then up else down)
            (MarketData.ranking data)]> quotes
  end.

Definition triggerMarketEvent (now : Z) (eventType : MarketEvent.kind)
    (engine : t) : MarketEvent.t * t :=
  let impact := impactOf eventType in
  let event :=
    MarketEvent.mk eventType impact (GAME_CONFIG.EVENT_DURATION_MINUTES * 60 * 1000)%Z now in
  (event,
   mk (foldl (fun quotes postId => applyImpact now impact postId quotes)
             (marketData engine) (keys engine))
      (sectors engine) (currentSector engine)).

(** A history of the engine: the calls its timer and its clients make, each
    with the clock value it reads. *)
Inductive call :=
  | InitializePostMarket (now : Z) (post : RedditPost.t)
  | UpdateAllPrices (now : Z)
  | TriggerMarketEvent (now : Z) (eventType : MarketEvent.kind)
  | RotateSector (now : Z).

Definition perform (ln : Q -> Q) (c : call) (engine : t) : Rand.M t :=
  match c with
  | InitializePostMarket now post =>
      res ← initializePostMarket ln now post engine; mret (snd res)
  | UpdateAllPrices now => updateAllPrices now engine
  | TriggerMarketEvent now eventType => mret (snd (triggerMarketEvent now eventType engine))
  | RotateSector now => mret (snd (rotateSector now engine))
  end.

Fixpoint performAll (ln : Q -> Q) (history : list call) (engine : t) : Rand.M t :=
  match history with
  | [] => mret engine
  | c :: rest => engine' ← perform ln c engine; performAll ln rest engine'
  end.

(** A post whose id and whose lower-case subreddit name are no names of
    members of [Object.prototype]: the quote is then filed as an own
    property of the quote table, and the subreddit multiplier is a number. *)
Definition plainPost (post : RedditPost.t) : bool :=
  negb (Js.inherited (RedditPost.id post))
  && negb (Js.inherited (toLowerCase (RedditPost.subreddit post))).

Definition plainCall (c : call) : bool :=
  match c with
  | InitializePostMarket _ post => plainPost post
  | _ => true
  end.

(** Every tracked quote is at or above the price floor. *)
Definition aboveFloor (engine : t) : Prop :=
  map_Forall (fun _ data => GAME_CONFIG.MIN_PRICE <= MarketData.currentPrice data)
             (marketData engine).

Definition findPost (postId : string) (redditPosts : list RedditPost.t) : option RedditPost.t :=
  List.find (fun p => String.eqb (RedditPost.id p) postId) redditPosts.

(** The win condition the [switch] of [resolvePredictions] evaluates; the
    [ranking_position] case draws its placeholder ranking. *)
Definition isWon (now : Z) (prediction : Prediction.t) (post : RedditPost.t) : Rand.M bool :=
  let postAge := hoursSince now post in
  let kind := Prediction.predictionType prediction in
  let target := Prediction.targetValue prediction in
  if String.eqb kind "growth_rate" then
    let actualValue := RedditPost.score post / Qmax 1 postAge in
    mret (Js.leb (Qabs (actualValue - target)) (target * 0.1))
  else if String.eqb kind "milestone_reach" then
    let actualValue := RedditPost.score post in
    mret (Js.geb actualValue target)
  else if String.eqb kind "ranking_position" then
    r ← Rand.random;
    let actualValue := inject_Z (Js.floor (r * 50) + 1) in
    mret (Qeq_bool actualValue target)
  else if String.eqb kind "engagement_ratio" then
    let actualValue := RedditPost.commentCount post / Qmax 1 (RedditPost.score post) in
    mret (Js.leb (Qabs (actualValue - target)) (target * 0.15))
  else if String.eqb kind "virality_index" then
    let actualValue :=
      (RedditPost.score post + RedditPost.commentCount post * 2) / Qmax 1 postAge in
    mret (Js.leb (Qabs (actualValue - target)) (target * 0.2))
  else mret false.

(** The callback of [portfolio.predictions.map].  The expiry test reads
    [Date.now() - post.created] as the source does, without the factor
    1000 that the post age above has. *)
Definition resolveOne (now : Z) (redditPosts : list RedditPost.t)
    (prediction : Prediction.t) : Rand.M Prediction.t :=
  if negb (bool_decide (Prediction.status prediction = active)) then mret prediction
  else
    match findPost (Prediction.postId prediction) redditPosts with
    | None => mret prediction
    | Some post =>
        wins ← isWon now prediction post;
        if wins : bool then mret (Prediction.resolve_as won now prediction)
        else
          let postAgeMs := (now - RedditPost.created post)%Z in
          let maxPredictionAge := (GAME_CONFIG.PREDICTION_EXPIRY_HOURS * 60 * 60 * 1000)%Z in
          if (maxPredictionAge <? postAgeMs)%Z
          then mret (Prediction.resolve_as lost now prediction)
          else mret prediction
    end.

(** The [forEach] that pays out: every prediction of the mapped array whose
    status is [won] adds its winnings.  The second conjunct of the source,
    ['resolved' in prediction], holds of every [Prediction], whose
    [resolved] key is always present. *)
Definition creditWinnings (acc : Q * Q) (prediction : Prediction.t) : Q * Q :=
  if bool_decide (Prediction.status prediction = won) then
    let winnings := Prediction.betAmount prediction * Prediction.odds prediction in
    (fst acc + winnings, snd acc + inject_Z (Js.floor (winnings * 0.1)))
  else acc.

Definition resolvePredictions (now : Z) (portfolio : UserPortfolio.t)
    (redditPosts : list RedditPost.t) : Rand.M UserPortfolio.t :=
  updatedPredictions ← Rand.mapM (resolveOne now redditPosts)
                                 (UserPortfolio.predictions portfolio);
  let totals :=
    foldl creditWinnings
          (UserPortfolio.memeCoins portfolio, UserPortfolio.experience portfolio)
          updatedPredictions in
  let memeCoins := fst totals in
  let experience := snd totals in
  let level := calculateLevel experience in
  mret (UserPortfolio.with_wager memeCoins updatedPredictions experience level portfolio).

Definition calculatePortfolioValue (portfolio : UserPortfolio.t) : Q :=
  let totalValue := UserPortfolio.memeCoins portfolio in
  let totalValue :=
    foldl (fun total prediction =>
             if bool_decide (Prediction.status prediction = active)
             then total + Prediction.betAmount prediction * Prediction.odds prediction * 0.1
             else total)
          totalValue (UserPortfolio.predictions portfolio) in
  foldl (fun total prediction =>
           if bool_decide (Prediction.status prediction = won)
           then total + Prediction.betAmount prediction * (Prediction.odds prediction - 1)
           else total)
        totalValue (UserPortfolio.predictions portfolio).

(** The odds the market engine quotes from the prediction type alone. *)
Definition calculatePredictionOdds (predictionType : string) : Q :=
  if String.eqb predictionType "growth_rate" then 2.0
  else if String.eqb predictionType "milestone_reach" then 1.8
  else if String.eqb predictionType "ranking_position" then 3.0
  else if String.eqb predictionType "engagement_ratio" then 2.5
  else if String.eqb predictionType "virality_index" then 4.0
  else 2.0.

(** [resolvePrediction(prediction, actualValue)]: the verdict on a measured
    value. *)
Definition resolvePrediction (prediction : Prediction.t) (actualValue : Q) : bool :=
  let kind := Prediction.predictionType prediction in
  let target := Prediction.targetValue prediction in
  if String.eqb kind "growth_rate" then
    Js.leb (Qabs (actualValue - target)) (target * 0.1)
  else if String.eqb kind "milestone_reach" then Js.geb actualValue target
  else if String.eqb kind "ranking_position" then Qeq_bool actualValue target
  else if String.eqb kind "engagement_ratio" then
    Js.leb (Qabs (actualValue - target)) (target * 0.15)
  else if String.eqb kind "virality_index" then
    Js.leb (Qabs (actualValue - target)) (target * 0.2)
  else false.

Record earnings := mkEarnings {
  initial : Q;
  fromWins : Q;
  fromDailyRewards : Q;
  fromAchievements : Q;
  fromLevelUps : Q;
  fromStreaks : Q;
  totalSpent : Q;
  netEarnings : Q
}.

(** The body of the loop of [calculateEarningsSummary], on the pair
    (fromWins, totalSpent). *)
Definition tally (acc : Q * Q) (prediction : Prediction.t) : Q * Q :=
  let fromWins :=
    if bool_decide (Prediction.status prediction = won)
    then fst acc + Prediction.betAmount prediction * (Prediction.odds prediction - 1)
    else fst acc in
  let totalSpent :=
    if bool_decide (Prediction.status prediction = lost)
    then snd acc + Prediction.betAmount prediction
    else if bool_decide (Prediction.status prediction = active)
    then snd acc + Prediction.betAmount prediction
    else snd acc in
  (fromWins, totalSpent).

Definition calculateEarningsSummary (portfolio : UserPortfolio.t) : earnings :=
  let sums := foldl tally (0, 0) (UserPortfolio.predictions portfolio) in
  let fromWins := fst sums in
  let totalSpent := snd sums in
  let wins :=
    length (List.filter (fun p => bool_decide (Prediction.status p = won))
                        (UserPortfolio.predictions portfolio)) in
  mkEarnings GAME_CONFIG.INITIAL_MEMECOINS fromWins
    (Qmax 0 (UserPortfolio.memeCoins portfolio - GAME_CONFIG.INITIAL_MEMECOINS
             - fromWins + totalSpent))
    (inject_Z (Z.of_nat (length (UserPortfolio.achievements portfolio))) * 50)
    (inject_Z (Js.floor (UserPortfolio.experience portfolio / 100)) * 10)
    (inject_Z (Js.floor (inject_Z (Z.of_nat wins) / 5)) * 10)
    totalSpent
    (UserPortfolio.memeCoins portfolio - GAME_CONFIG.INITIAL_MEMECOINS).

End MarketEngine.

(* ================================================================= *)
(** ** TournamentService ([src/services/TournamentService.ts]) *)

(** The comparator [(a, b) => b.points - a.points]: [a] may stand before
    [b]. *)
Definition byPointsDesc (a b : TournamentParticipant.t) : Prop :=
  (TournamentParticipant.points b <= TournamentParticipant.points a)%Z.

#[global] Instance byPointsDesc_dec a b : Decision (byPointsDesc a b).
Proof. unfold byPointsDesc. apply _. Defined.

#[global] Instance byPointsDesc_trans : Transitive byPointsDesc.
Proof. unfold byPointsDesc. intros a b c Hab Hbc. lia. Defined.

#[global] Instance byPointsDesc_total : Total byPointsDesc.
Proof. unfold byPointsDesc. intros a b. lia. Defined.

(** The sum of a list of integer amounts. *)
Definition total (amounts : list Z) : Z := foldr Z.add 0%Z amounts.

(** [s.slice(-n)] *)
Definition lastChars (n : nat) (s : string) : string :=
  substring (String.length s - n) n s.

Module TournamentService.
Import Tournament.

(** The service holds [tournaments : Tournament[]]. *)
Definition t : Type := list Tournament.t.

(** [this.tournaments.find(t => t.id === tournamentId)], with the position
    of the object found, which the methods go on to mutate. *)
Definition findTournament (tournamentId : string) (tournaments : t)
    : option (nat * Tournament.t) :=
  list_find (fun tn => id tn = tournamentId) tournaments.

Definition findParticipant (userId : string) (board : list TournamentParticipant.t)
    : option (nat * TournamentParticipant.t) :=
  list_find (fun p => TournamentParticipant.userId p = userId) board.

Inductive joinResult :=
  | Joined (tournament : Tournament.t) (updatedPortfolio : UserPortfolio.t)
  | JoinError (error : string).

Definition joinTournament (tournamentId : string) (portfolio : UserPortfolio.t)
    (tournaments : t) : joinResult * t :=
  match findTournament tournamentId tournaments with
  | None => (JoinError "Tournament not found", tournaments)
  | Some (i, tournament) =>
      if negb (bool_decide (status tournament = upcoming)) then
        (JoinError "Tournament has already started", tournaments)
      else if (maxParticipants tournament <=? currentParticipants tournament)%Z then
        (JoinError "Tournament is full", tournaments)
      else if Js.ltb (UserPortfolio.memeCoins portfolio) (entryFee tournament) then
        (JoinError "Insufficient MemeCoins for entry fee", tournaments)
      else
        match findParticipant (UserPortfolio.userId portfolio) (leaderboard tournament) with
        | Some _ => (JoinError "Already participating in this tournament", tournaments)
        | None =>
            let participant :=
              TournamentParticipant.mk (UserPortfolio.userId portfolio)
                ("Player_" +:+ lastChars 4 (UserPortfolio.userId portfolio))
                0 (Z.of_nat (length (leaderboard tournament)) + 1)%Z 0 0 in
            let tournament' :=
              mk (id tournament) (name tournament) (description tournament)
                 (startDate tournament) (endDate tournament)
                 (prizePool tournament + entryFee tournament) (entryFee tournament)
                 (maxParticipants tournament) (currentParticipants tournament + 1)%Z
                 (status tournament) (rules tournament)
                 (leaderboard tournament ++ [participant]) in
            let updatedPortfolio :=
              UserPortfolio.with_tournament
                (UserPortfolio.memeCoins portfolio - entryFee tournament)
                tournamentId 0 portfolio in
            (Joined tournament' updatedPortfolio, <[i := tournament']> tournaments)
        end
  end.

(** [leaderboard.forEach((p, index) => p.rank = index + 1)] *)
Definition rerank (board : list TournamentParticipant.t) : list TournamentParticipant.t :=
  imap (fun index p =>
          TournamentParticipant.mk (TournamentParticipant.userId p)
            (TournamentParticipant.username p) (TournamentParticipant.points p)
            (Z.of_nat index + 1)%Z (TournamentParticipant.predictions p)
            (TournamentParticipant.winRate p))
       board.

Definition withBoard (status' : state) (endDate' : Z)
    (board : list TournamentParticipant.t) (tournament : Tournament.t) : Tournament.t :=
  mk (id tournament) (name tournament) (description tournament)
     (startDate tournament) endDate' (prizePool tournament) (entryFee tournament)
     (maxParticipants tournament) (currentParticipants tournament)
     status' (rules tournament) board.

Definition updateTournamentPoints (tournamentId userId : string) (isWin : bool)
    (consecutiveWins : Z) (tournaments : t) : t :=
  match findTournament tournamentId tournaments with
  | None => tournaments
  | Some (i, tournament) =>
      if negb (bool_decide (status tournament = active)) then tournaments
      else
        match findParticipant userId (leaderboard tournament) with
        | None => tournaments
        | Some (j, participant) =>
            let basePoints :=
              if isWin then TOURNAMENT_CONFIG.POINTS_PER_WIN
              else TOURNAMENT_CONFIG.POINTS_PER_LOSS in
            let bonusMultiplier :=
              if isWin && (1 <? consecutiveWins)%Z
              then TOURNAMENT_CONFIG.BONUS_MULTIPLIER else 1 in
            let pointsToAdd := Js.floor (basePoints * bonusMultiplier) in
            let points' := (TournamentParticipant.points participant + pointsToAdd)%Z in
            let predictions' := (TournamentParticipant.predictions participant + 1)%Z in
            let scored :=
              TournamentParticipant.mk (TournamentParticipant.userId participant)
                (TournamentParticipant.username participant) points'
                (TournamentParticipant.rank participant) predictions'
                (TournamentParticipant.winRate participant) in
            let board := <[j := scored]> (leaderboard tournament) in
            let totalWins :=
              length (filter (fun p => (0 < TournamentParticipant.points p)%Z) board) in
            let rated :=
              TournamentParticipant.mk (TournamentParticipant.userId scored)
                (TournamentParticipant.username scored) points'
                (TournamentParticipant.rank scored) predictions'
                (if (0 <? predictions')%Z
                 then inject_Z (Z.of_nat totalWins) / inject_Z predictions' * 100
                 else 0) in
            let board := rerank (Js.sort byPointsDesc (<[j := rated]> board)) in
            <[i := withBoard (status tournament) (endDate tournament) board tournament]>
              tournaments
        end
  end.

Definition startTournament (tournamentId : string) (tournaments : t) : bool * t :=
  match findTournament tournamentId tournaments with
  | None => (false, tournaments)
  | Some (i, tournament) =>
      if negb (bool_decide (status tournament = upcoming)) then (false, tournaments)
      else
        (true,
         <[i := withBoard active (endDate tournament) (leaderboard tournament) tournament]>
           tournaments)
  end.

Record settlement := mkSettlement {
  winners : list TournamentParticipant.t;
  prizes : list Z
}.

(** [PRIZE_DISTRIBUTION.map(ratio => Math.floor(prizePool * ratio))] *)
Definition prizesOf (pool : Q) : list Z :=
  map (fun ratio => Js.floor (pool * ratio)) TOURNAMENT_CONFIG.PRIZE_DISTRIBUTION.

Definition endTournament (now : Z) (tournamentId : string) (tournaments : t)
    : settlement * t :=
  match findTournament tournamentId tournaments with
  | None => (mkSettlement [] [], tournaments)
  | Some (i, tournament) =>
      if negb (bool_decide (status tournament = active)) then
        (mkSettlement [] [], tournaments)
      else
        let board := Js.sort byPointsDesc (leaderboard tournament) in
        let prizes := prizesOf (prizePool tournament) in
        let winners := take (length prizes) board in
        (mkSettlement winners prizes,
         <[i := withBoard completed now board tournament]> tournaments)
  end.

(** [createTournament]; [freshId] is the identifier built from the clock and
    a random suffix. *)
Definition createTournament (freshId name description : string) (startDate : Z)
    (tournaments : t) : Tournament.t * t :=
  let tournament :=
    mk freshId name description startDate
       (startDate + TOURNAMENT_CONFIG.DURATION_HOURS * 60 * 60 * 1000)%Z
       0 TOURNAMENT_CONFIG.ENTRY_FEE TOURNAMENT_CONFIG.MAX_PARTICIPANTS 0
       upcoming
       [ "Entry fee: 100 MemeCoins"; "Duration: 24 hours"; "Points per win: 10";
         "Points per loss: -2"; "Consecutive win bonus: 1.5x" ]
       [] in
  (tournament, tournaments ++ [tournament]).

Definition getActiveTournaments (tournaments : t) : list Tournament.t :=
  List.filter (fun tn => bool_decide (status tn = active)) tournaments.

Definition getUpcomingTournaments (tournaments : t) : list Tournament.t :=
  List.filter (fun tn => bool_decide (status tn = upcoming)) tournaments.

Definition getTournament (tournamentId : string) (tournaments : t) : option Tournament.t :=
  snd <$> findTournament tournamentId tournaments.

(** [participant?.rank || 0] *)
Definition getUserTournamentRank (tournamentId userId : string) (tournaments : t) : Z :=
  match findTournament tournamentId tournaments with
  | None => 0%Z
  | Some (_, tournament) =>
      match findParticipant userId (leaderboard tournament) with
      | Some (_, participant) => TournamentParticipant.rank participant
      | None => 0%Z
      end
  end.

(** A history of the service: the calls made on it, in order. *)
Inductive call :=
  | CreateTournament (freshId name description : string) (startDate : Z)
  | JoinTournament (tournamentId : string) (portfolio : UserPortfolio.t)
  | UpdateTournamentPoints (tournamentId userId : string) (isWin : bool)
      (consecutiveWins : Z)
  | StartTournament (tournamentId : string)
  | EndTournament (now : Z) (tournamentId : string).

Definition perform (c : call) (tournaments : t) : t :=
  match c with
  | CreateTournament freshId name description startDate =>
      snd (createTournament freshId name description startDate tournaments)
  | JoinTournament tournamentId portfolio =>
      snd (joinTournament tournamentId portfolio tournaments)
  | UpdateTournamentPoints tournamentId userId isWin consecutiveWins =>
      updateTournamentPoints tournamentId userId isWin consecutiveWins tournaments
  | StartTournament tournamentId => snd (startTournament tournamentId tournaments)
  | EndTournament now tournamentId => snd (endTournament now tournamentId tournaments)
  end.

Definition performAll (history : list call) (tournaments : t) : t :=
  foldl (fun service c => perform c service) tournaments history.

(** What every tournament of the service satisfies: no user is listed
    twice, the participant counter is the length of the leaderboard, and the
    prize pool is the entry fees paid. *)
Definition consistent (tournament : Tournament.t) : Prop :=
  NoDup (map TournamentParticipant.userId (leaderboard tournament))
  /\ currentParticipants tournament = Z.of_nat (length (leaderboard tournament))
  /\ prizePool tournament
     == entryFee tournament * inject_Z (currentParticipants tournament)
  /\ (currentParticipants tournament <= maxParticipants tournament)%Z.

End TournamentService.

(* ================================================================= *)
(** ** AnalyticsService ([src/services/AnalyticsService.ts]) *)

(** The comparator [(a, b) => b.created - a.created]: most recent first. *)
Definition byCreatedDesc (a b : Prediction.t) : Prop :=
  (Prediction.created b <= Prediction.created a)%Z.

#[global] Instance byCreatedDesc_dec a b : Decision (byCreatedDesc a b).
Proof. unfold byCreatedDesc. apply _. Defined.

Module AnalyticsService.

Definition isCompleted (p : Prediction.t) : bool :=
  bool_decide (Prediction.status p = won) || bool_decide (Prediction.status p = lost).

Definition isWonB (p : Prediction.t) : bool := bool_decide (Prediction.status p = won).
Definition isLostB (p : Prediction.t) : bool := bool_decide (Prediction.status p = lost).

(** The four counters the loop of [calculateStreaks] updates. *)
Record counters := mkCounters {
  tempWinStreak : nat;
  tempLossStreak : nat;
  bestWin : nat;
  bestLoss : nat
}.

(** The body of [for (const prediction of completedPredictions)]. *)
Definition scan (c : counters) (prediction : Prediction.t) : counters :=
  if isWonB prediction then
    let tempWin := S (tempWinStreak c) in
    mkCounters tempWin 0
      (if (bestWin c <? tempWin)%nat then tempWin else bestWin c) (bestLoss c)
  else
    let tempLoss := S (tempLossStreak c) in
    mkCounters 0 tempLoss (bestWin c)
      (if (bestLoss c <? tempLoss)%nat then tempLoss else bestLoss c).

Record streaks := mkStreaks {
  currentWinStreak : nat;
  currentLossStreak : nat;
  bestWinStreak : nat;
  bestLossStreak : nat;
  totalPredictions : nat;
  totalWins : nat;
  totalLosses : nat
}.

Definition completedPredictions (portfolio : UserPortfolio.t) : list Prediction.t :=
  Js.sort byCreatedDesc (List.filter isCompleted (UserPortfolio.predictions portfolio)).

Definition calculateStreaks (portfolio : UserPortfolio.t) : streaks :=
  let completed := completedPredictions portfolio in
  let c := foldl scan (mkCounters 0 0 0 0) completed in
  let current :=
    match completed with
    | mostRecent :: _ =>
        if isWonB mostRecent then (tempWinStreak c, 0%nat) else (0%nat, tempLossStreak c)
    | [] => (0%nat, 0%nat)
    end in
  mkStreaks (fst current) (snd current) (bestWin c) (bestLoss c)
    (length completed)
    (length (List.filter isWonB completed))
    (length (List.filter isLostB completed)).

End AnalyticsService.

(** The current streak as the specification words it: the number of
    consecutive predictions with the given outcome, counted from the most
    recent resolved prediction backward in time. *)
Module Claimed.

Fixpoint leadingRun (outcome : Status) (mostRecentFirst : list Prediction.t) : nat :=
  match mostRecentFirst with
  | [] => 0
  | p :: older =>
      if bool_decide (Prediction.status p = outcome)
      then S (leadingRun outcome older) else 0
  end.

Definition currentStreak (outcome : Status) (portfolio : UserPortfolio.t) : nat :=
  leadingRun outcome (AnalyticsService.completedPredictions portfolio).

End Claimed.

(* ================================================================= *)
(** ** Bet placement ([src/components/Market/PostCard.tsx],
       [src/components/Market/MarketView.tsx]) *)

Module GameState.
Record t := mk {
  currentSector : option MarketSector.t;
  marketData : gmap string MarketData.t;
  userPortfolio : UserPortfolio.t;
  trendingPosts : list RedditPost.t;
  isMarketOpen : bool;
  nextCrashTime : option Z
}.

(** [updateGameState({ userPortfolio })] *)
Definition withPortfolio (portfolio : UserPortfolio.t) (g : t) : t :=
  mk (currentSector g) (marketData g) portfolio (trendingPosts g)
     (isMarketOpen g) (nextCrashTime g).
End GameState.

Module PostCard.

(** The state of the bet form. *)
Record form := mkForm {
  betAmount : Q;
  predictionType : string;
  timeframe : string;
  targetValue : Q
}.

(** What [handleBet] does: return without a word, refuse with an [alert],
    or hand the wager to [onPlaceBet]. *)
Inductive outcome :=
  | Silent
  | Alert (message : string)
  | Submit (prediction : PredictionData.t).

Definition baselineOf (now : Z) (predictionType : string) (post : RedditPost.t) : Q :=
  if String.eqb predictionType "growth_rate" then RedditPost.score post
  else if String.eqb predictionType "milestone_reach" then RedditPost.score post
  else if String.eqb predictionType "engagement_ratio" then
    RedditPost.commentCount post / Qmax 1 (RedditPost.score post)
  else if String.eqb predictionType "virality_index" then
    (RedditPost.score post + RedditPost.commentCount post * 2)
    / Qmax 1 (hoursSince now post)
  else RedditPost.score post.

(** [onPlaceBet] is the flag that the callback was passed. *)
Definition handleBet (now hour : Z) (post : RedditPost.t)
    (marketData : option MarketData.t) (onPlaceBet : bool)
    (userPortfolio : option UserPortfolio.t) (f : form) : outcome :=
  match marketData, onPlaceBet, userPortfolio with
  | Some quote, true, Some portfolio =>
      if Js.ltb (betAmount f) GAME_CONFIG.MIN_BET_AMOUNT then
        Alert "Minimum bet is 10 MemeCoins"
      else if Js.gtb (betAmount f) GAME_CONFIG.MAX_BET_AMOUNT then
        Alert "Maximum bet is 1000 MemeCoins"
      else if Js.gtb (betAmount f) (UserPortfolio.memeCoins portfolio) then
        Alert "Insufficient MemeCoins balance"
      else
        let odds :=
          PredictionEngine.calculateOdds now hour post quote (predictionType f)
            (targetValue f) (timeframe f) in
        Submit
          (PredictionData.mk (RedditPost.id post) (RedditPost.url post)
             (RedditPost.title post) (predictionType f) (targetValue f)
             (timeframe f) (betAmount f) odds
             (baselineOf now (predictionType f) post) 1.0
             (MarketConditions.mk (hoursSince now post)
                (PredictionEngine.rankingOr 50 quote) 1.0 (timeOfDayAt hour)))
  | _, _, _ => Silent
  end.

End PostCard.

Module MarketView.

Inductive outcome :=
  | Alert (message : string)
  | Placed (prediction : Prediction.t).

(** [freshId] is the identifier built from the clock and a random suffix. *)
Definition handlePlaceBet (now : Z) (freshId : string)
    (predictionData : PredictionData.t) (gameState : GameState.t)
    : outcome * GameState.t :=
  let portfolio := GameState.userPortfolio gameState in
  if Js.gtb (PredictionData.betAmount predictionData) (UserPortfolio.memeCoins portfolio)
  then (Alert "Insufficient MemeCoins!", gameState)
  else
    match MarketEngine.findPost (PredictionData.postId predictionData)
                                (GameState.trendingPosts gameState) with
    | None => (Alert "Post data not found!", gameState)
    | Some post =>
        let prediction :=
          Prediction.mk freshId (UserPortfolio.userId portfolio)
            (PredictionData.postId predictionData)
            (RedditPost.url post) (RedditPost.title post)
            (PredictionData.predictionType predictionData)
            (PredictionData.targetValue predictionData)
            (PredictionData.timeframe predictionData)
            (PredictionData.betAmount predictionData)
            (PredictionData.odds predictionData)
            active now None
            (PredictionData.baselineValue predictionData)
            (PredictionData.volatilityFactor predictionData)
            (PredictionData.marketConditions predictionData) in
        let experienceGained :=
          inject_Z (Js.floor (PredictionData.betAmount predictionData * 0.05)) in
        let newExperience := UserPortfolio.experience portfolio + experienceGained in
        let level := calculateLevel newExperience in
        let updatedPortfolio :=
          UserPortfolio.with_wager
            (UserPortfolio.memeCoins portfolio - PredictionData.betAmount predictionData)
            (UserPortfolio.predictions portfolio ++ [prediction])
            newExperience level portfolio in
        (Placed prediction, GameState.withPortfolio updatedPortfolio gameState)
    end.

(** What the player sees of an attempt to bet. *)
Inductive betResult :=
  | Ignored
  | Rejected (message : string)
  | Accepted (prediction : Prediction.t).

(** Placing a bet from the card of [post]: the form's [handleBet], wired by
    the view to [handlePlaceBet] and to the portfolio of the game state. *)
Definition placeBet (now hour : Z) (freshId : string) (post : RedditPost.t)
    (f : PostCard.form) (gameState : GameState.t) : betResult * GameState.t :=
  match PostCard.handleBet now hour post
          (GameState.marketData gameState !! RedditPost.id post) true
          (Some (GameState.userPortfolio gameState)) f with
  | PostCard.Silent => (Ignored, gameState)
  | PostCard.Alert message => (Rejected message, gameState)
  | PostCard.Submit predictionData =>
      match handlePlaceBet now freshId predictionData gameState with
      | (Alert message, gameState') => (Rejected message, gameState')
      | (Placed prediction, gameState') => (Accepted prediction, gameState')
      end
  end.

End MarketView.



(* ================================================================= *)
(** ** The value a prediction is measured against *)

(** The actual value [PredictionEngine.resolvePrediction] computes for each
    prediction type before it compares it with the target; [None] where
    there is none: a type outside the five, an unknown timeframe, or a
    ranking prediction on a quote without ranking. *)
Definition measuredValue (now : Z) (prediction : Prediction.t)
    (currentPost : RedditPost.t) (marketData : MarketData.t) : option Q :=
  let kind := Prediction.predictionType prediction in
  match PREDICTION_TIMEFRAMES (Prediction.timeframe prediction) with
  | None => None
  | Some tf =>
      if String.eqb kind "growth_rate" then
        Some ((RedditPost.score currentPost - Prediction.baselineValue prediction)
              / inject_Z (fst tf))
      else if String.eqb kind "milestone_reach" then Some (RedditPost.score currentPost)
      else if String.eqb kind "ranking_position" then MarketData.ranking marketData
      else if String.eqb kind "engagement_ratio" then
        Some (RedditPost.commentCount currentPost / Qmax 1 (RedditPost.score currentPost))
      else if String.eqb kind "virality_index" then
        Some (PredictionEngine.calculateViralityScore now currentPost marketData)
      else None
  end.

(* ================================================================= *)
(** ** One quote under a tick *)

(** The quote [updatePostPrice] writes for [currentData], as a function of
    the sector influence and of its five random draws, in the order the
    method makes them. *)
Definition tickQuote (now : Z) (influence : Q) (currentData : MarketData.t)
    (r1 r2 r3 r4 r5 : Q) : MarketData.t :=
  let previousPrice := MarketData.currentPrice currentData in
  let marketVolatility :=
    Qmax GAME_CONFIG.MIN_VOLATILITY
         (GAME_CONFIG.BASE_VOLATILITY + (r1 - 0.5) * GAME_CONFIG.RANDOM_VOLATILITY_RANGE)
    * influence * GAME_CONFIG.VOLATILITY_MULTIPLIER in
  let timeSinceLastUpdate :=
    inject_Z (now - MarketData.lastUpdated currentData) / inject_Z (1000 * 60) in
  let timeMultiplier :=
    Qmin GAME_CONFIG.TIME_MULTIPLIER_MAX
         (timeSinceLastUpdate / GAME_CONFIG.TIME_MULTIPLIER_BASE) in
  let randomFactor := (r2 - 0.5) * GAME_CONFIG.RANDOM_FACTOR_RANGE * timeMultiplier in
  let trendingBias := r3 * GAME_CONFIG.TRENDING_BIAS_FACTOR * timeMultiplier in
  let totalChange := marketVolatility + randomFactor + trendingBias in
  let sectorAdjustedChange := totalChange * influence in
  let priceChange :=
    Qmax (- GAME_CONFIG.MAX_PRICE_CHANGE_PERCENT)
         (Qmin GAME_CONFIG.MAX_PRICE_CHANGE_PERCENT sectorAdjustedChange) in
  let newPrice := Qmax GAME_CONFIG.MIN_PRICE (previousPrice * (1 + priceChange)) in
  MarketData.mk (MarketData.postId currentData)
    (inject_Z (Js.round (newPrice * 100)) / 100)
    previousPrice
    (MarketData.volume currentData
     + Js.floor (r4 * GAME_CONFIG.VOLUME_INCREASE_MAX)
     + GAME_CONFIG.VOLUME_INCREASE_MIN)%Z
    (inject_Z (Js.round ((newPrice - previousPrice) / previousPrice * 10000)) / 100)
    now
    (MarketEngine.trendOf newPrice previousPrice)
    (Some (inject_Z (Js.floor (r5 * 100) + 1))).

(** The stream after [n] draws. *)
Definition after (n : nat) (rng : Rand.stream) : Rand.stream := fun i => rng (n + i)%nat.

(** The quote a shock event writes for [data]. *)
Definition shockQuote (now : Z) (impact : Q) (data : MarketData.t) : MarketData.t :=
  let newPrice := Qmax 0.01 (MarketData.currentPrice data * (1 + impact)) in
  MarketData.mk (MarketData.postId data) newPrice
    (MarketData.currentPrice data) (MarketData.volume data)
    ((newPrice - MarketData.currentPrice data) / MarketData.currentPrice data * 100)
    now
    (if Js.gtb newPrice (MarketData.currentPrice data) then up else down)
    (MarketData.ranking data).

(* ================================================================= *)
(** ** Settling a prediction *)

(** How [resolvePredictions] may change one prediction: not at all, or, for
    an active prediction whose post is in the list, by stamping it won or
    lost at the time of the call. *)
Definition settles (now : Z) (posts : list RedditPost.t)
    (before after : Prediction.t) : Prop :=
  after = before
  \/ (Prediction.status before = active
      /\ is_Some (MarketEngine.findPost (Prediction.postId before) posts)
      /\ (after = Prediction.resolve_as won now before
          \/ after = Prediction.resolve_as lost now before)).


(* ================================================================= *)
(** ** Achievements and bonuses ([src/utils/helpers.ts]) *)

Module ACHIEVEMENTS.
Definition FIRST_TRADE (unlockedAt : Z) : Achievement.t :=
  Achievement.mk "first_trade" "First Trade" "Made your first prediction" "🎯"
    unlockedAt common.
Definition WINNING_STREAK (unlockedAt : Z) : Achievement.t :=
  Achievement.mk "winning_streak" "On Fire" "Won 5 predictions in a row" "🔥"
    unlockedAt rare.
Definition HIGH_ROLLER (unlockedAt : Z) : Achievement.t :=
  Achievement.mk "high_roller" "High Roller"
    "Bet over 1000 MemeCoins in a single prediction" "💰" unlockedAt epic.
Definition MARKET_CRASH_SURVIVOR (unlockedAt : Z) : Achievement.t :=
  Achievement.mk "crash_survivor" "Crash Survivor"
    "Survived 3 market crashes without losing everything" "🛡️" unlockedAt legendary.
Definition PERFECT_PREDICTOR (unlockedAt : Z) : Achievement.t :=
  Achievement.mk "perfect_predictor" "Perfect Predictor"
    "Got 10 predictions right in a row" "🎪" unlockedAt legendary.
End ACHIEVEMENTS.

Definition statusIsWon (p : Prediction.t) : bool :=
  bool_decide (Prediction.status p = won).

(** [l.slice(-n)] on an array. *)
Definition lastN {A} (n : nat) (l : list A) : list A := drop (length l - n) l.

(** [ids.includes(id)] *)
Definition includes (id : string) (ids : list string) : bool :=
  existsb (String.eqb id) ids.

Definition isHighBet (p : Prediction.t) : bool :=
  Js.geb (Prediction.betAmount p) GAME_CONFIG.HIGH_ROLLER_THRESHOLD.

(** [checkAchievements]: the achievements to add to the portfolio now. *)
Definition checkAchievements (now : Z) (portfolio : UserPortfolio.t) : list Achievement.t :=
  let unlockedIds := map Achievement.id (UserPortfolio.achievements portfolio) in
  let predictions := UserPortfolio.predictions portfolio in
  let firstTrade :=
    if negb (includes "first_trade" unlockedIds) && (0 <? length predictions)%nat
    then [ACHIEVEMENTS.FIRST_TRADE now] else [] in
  let recentPredictions := lastN 5 predictions in
  let winningStreak := length (List.filter statusIsWon recentPredictions) in
  let streak :=
    if negb (includes "winning_streak" unlockedIds) && (5 <=? winningStreak)%nat
    then [ACHIEVEMENTS.WINNING_STREAK now] else [] in
  let hasHighBet := existsb isHighBet predictions in
  let highRoller :=
    if negb (includes "high_roller" unlockedIds) && hasHighBet
    then [ACHIEVEMENTS.HIGH_ROLLER now] else [] in
  let perfectStreak := length (List.filter statusIsWon recentPredictions) in
  let perfect :=
    if negb (includes "perfect_predictor" unlockedIds) && (10 <=? perfectStreak)%nat
    then [ACHIEVEMENTS.PERFECT_PREDICTOR now] else [] in
  firstTrade ++ streak ++ highRoller ++ perfect.

(** The loop of [calculateUnlockedAchievements] over all predictions, on
    the pair (currentStreak, maxStreak). *)
Definition streakStep (acc : nat * nat) (prediction : Prediction.t) : nat * nat :=
  if statusIsWon prediction then (S (fst acc), Nat.max (snd acc) (S (fst acc)))
  else (0%nat, snd acc).

(** [Math.min(...predictions.map(p => p.created))] on a non-empty array. *)
Definition oldestCreated (first : Prediction.t) (rest : list Prediction.t) : Z :=
  foldl Z.min (Prediction.created first) (map Prediction.created rest).

(** [calculateUnlockedAchievements]: every achievement the portfolio has
    earned.  [None] stands for the [TypeError] of reading [.created] of an
    element of [wonPredictions] that is not there. *)
Definition calculateUnlockedAchievements (now : Z) (portfolio : UserPortfolio.t)
    : option (list Achievement.t) :=
  let predictions := UserPortfolio.predictions portfolio in
  let firstTrade :=
    match predictions with
    | first :: _ => [ACHIEVEMENTS.FIRST_TRADE (Prediction.created first)]
    | [] => []
    end in
  let highRoller :=
    match List.find isHighBet predictions with
    | Some highRollerBet => [ACHIEVEMENTS.HIGH_ROLLER (Prediction.created highRollerBet)]
    | None => []
    end in
  let wonPredictions := List.filter statusIsWon predictions in
  let maxStreak := snd (foldl streakStep (0%nat, 0%nat) predictions) in
  let crash :=
    match predictions with
    | first :: rest =>
        if (GAME_CONFIG.MARKET_CRASH_SURVIVOR_THRESHOLD <=? length predictions)%nat then
          let daysActive :=
            inject_Z (now - oldestCreated first rest) / inject_Z (1000 * 60 * 60 * 24) in
          if Js.geb daysActive 7
          then [ACHIEVEMENTS.MARKET_CRASH_SURVIVOR (now - 7 * 24 * 60 * 60 * 1000)]
          else []
        else []
    | [] => []
    end in
  streak ←
    (if (5 <=? maxStreak)%nat
     then p ← wonPredictions !! 4%nat;
          Some [ACHIEVEMENTS.WINNING_STREAK (Prediction.created p)]
     else Some []);
  perfect ←
    (if (10 <=? maxStreak)%nat
     then p ← wonPredictions !! 9%nat;
          Some [ACHIEVEMENTS.PERFECT_PREDICTOR (Prediction.created p)]
     else Some []);
  Some (firstTrade ++ highRoller ++ streak ++ perfect ++ crash).

Definition checkLevelUpBonus (oldLevel newLevel : Z) : Z :=
  if (oldLevel <? newLevel)%Z then ((newLevel - oldLevel) * GAME_CONFIG.LEVEL_UP_BONUS)%Z
  else 0%Z.

(** [currentStreak % 5], the remainder with the sign of the dividend. *)
Definition checkStreakBonus (currentStreak : Z) : Z :=
  if ((5 <=? currentStreak) && (Z.rem currentStreak 5 =? 0))%Z
  then ((currentStreak / 5) * GAME_CONFIG.WINNING_STREAK_BONUS)%Z
  else 0%Z.

Definition checkPerfectPredictionBonus (predictions : list Prediction.t) : Q :=
  let recentPredictions := lastN 10 predictions in
  let perfectStreak := length (List.filter statusIsWon recentPredictions) in
  if (10 <=? perfectStreak)%nat then GAME_CONFIG.PERFECT_PREDICTION_BONUS else 0.

(* ================================================================= *)
(** ** AlertService ([src/services/AlertService.ts])

    The service keeps its alerts newest first.  Its listeners are callbacks
    that are handed a copy of the alerts after each change and cannot alter
    them; they are not part of the state modelled here. *)

Module Alert.
Record t := mk {
  id : string;
  type : string;
  title : string;
  message : string;
  createdAt : Z;
  read : bool;
  actionUrl : option string
}.

Definition markRead (a : t) : t :=
  mk (id a) (type a) (title a) (message a) (createdAt a) true (actionUrl a).
End Alert.

Module AlertService.

(** [freshId] is the identifier built from the clock and a random suffix. *)
Definition addAlert (now : Z) (freshId type title message : string)
    (actionUrl : option string) (alerts : list Alert.t) : list Alert.t :=
  Alert.mk freshId type title message now false actionUrl :: alerts.

Definition markAsRead (alertId : string) (alerts : list Alert.t) : list Alert.t :=
  match list_find (fun a => Alert.id a = alertId) alerts with
  | Some (i, alert) => <[i := Alert.markRead alert]> alerts
  | None => alerts
  end.

Definition markAllAsRead (alerts : list Alert.t) : list Alert.t :=
  map Alert.markRead alerts.

Definition getUnreadAlerts (alerts : list Alert.t) : list Alert.t :=
  List.filter (fun alert => negb (Alert.read alert)) alerts.

Definition cleanupOldAlerts (alerts : list Alert.t) : list Alert.t :=
  if (50 <? length alerts)%nat then take 50 alerts else alerts.

End AlertService.

(** What a leaderboard entry says of its participant apart from the rank:
    the user, the points and the number of predictions scored. *)
Definition standing (p : TournamentParticipant.t) : string * Z * Z :=
  (TournamentParticipant.userId p, TournamentParticipant.points p,
   TournamentParticipant.predictions p).

(* ================================================================= *)
(** ** The odds and the initial price over the prototype chain *)

(** [PredictionEngine.calculateOdds] and [MarketEngine.calculateInitialPrice]
    once more, with [TABLE[key]] read as JavaScript reads it ([Js.get]) and
    the arithmetic on [Js.number]: at a key that names a member of
    [Object.prototype] the result is NaN. *)
Module Prototype.

(** [predictionConfig.baseOdds]: an inherited member has no such field, and
    [undefined] multiplies to NaN. *)
Definition baseOddsOf (predictionConfig : Js.property Q) : Js.number :=
  match predictionConfig with
  | Js.own configuredOdds => Js.num configuredOdds
  | _ => Js.NaN
  end.

Definition calculateOdds (now hour : Z) (post : RedditPost.t)
    (marketData : MarketData.t) (predictionType : string) (targetValue : Q)
    (timeframe : string) : Js.number :=
  match Js.get PREDICTION_TYPES predictionType with
  | Js.undefined => Js.num 2.0
  | predictionConfig =>
      let marketConditions :=
        PredictionEngine.analyzeMarketConditions now hour post marketData in
      let volatilityFactor := PredictionEngine.calculateVolatilityFactor marketConditions in
      let timeMultiplier := PredictionEngine.timeframeMultiplier timeframe in
      let baseOdds := baseOddsOf predictionConfig in
      let baseOdds := Js.mul baseOdds (Js.num volatilityFactor) in
      let baseOdds := Js.mul baseOdds (Js.num timeMultiplier) in
      let subredditMultiplier :=
        Js.numberOr 1 (Js.get SUBREDDIT_MULTIPLIERS (RedditPost.subreddit post)) in
      let baseOdds := Js.mul baseOdds subredditMultiplier in
      let difficultyMultiplier :=
        PredictionEngine.calculateDifficultyMultiplier predictionType post targetValue
          marketConditions in
      let baseOdds := Js.mul baseOdds (Js.num difficultyMultiplier) in
      Js.max (Js.num 1.1) (Js.min (Js.num 50.0) baseOdds)
  end.

Definition getSubredditMultiplier (subreddit : string) : Js.number :=
  Js.numberOr 1 (Js.get SUBREDDIT_MULTIPLIERS (toLowerCase subreddit)).

(** [ln] is [Math.log]. *)
Definition calculateInitialPrice (ln : Q -> Q) (now : Z) (post : RedditPost.t)
    (engine : MarketEngine.t) : Rand.M Js.number :=
  let basePrice := 0.1 in
  let scoreValue :=
    Qmin (RedditPost.score post * GAME_CONFIG.SCORE_MULTIPLIER) GAME_CONFIG.MAX_SCORE_VALUE in
  let commentValue := ln (Qmax 1 (RedditPost.commentCount post)) * 0.05 in
  let ageInHours := hoursSince now post in
  let freshnessMultiplier := Qmax 0.1 (Qmin 2.0 (1 + (24 - ageInHours) * 0.02)) in
  let subredditMultiplier := getSubredditMultiplier (RedditPost.subreddit post) in
  let sectorMultiplier := MarketEngine.sectorInfluence engine in
  let contentMultiplier := MarketEngine.calculateContentMultiplier post in
  r ← Rand.random;
  let volatility := 1 + (r - 0.5) * 0.3 in
  let finalPrice :=
    Js.mul
      (Js.mul
         (Js.mul
            (Js.mul (Js.num ((basePrice + scoreValue + commentValue) * freshnessMultiplier))
                    subredditMultiplier)
            (Js.num sectorMultiplier))
         (Js.num contentMultiplier))
      (Js.num volatility) in
  mret (Js.max (Js.num 0.01)
          (Js.apply (fun cents => inject_Z (Js.round cents) / 100)
                    (Js.mul finalPrice (Js.num 100)))).

End Prototype.
(* ================================================================= *)
(** ** Concrete portfolios, posts and wagers used by the examples *)

Module Sample.

Definition conditions : MarketConditions.t := MarketConditions.mk 1 50 1.0 normal.

(** A post of r/memes created at second [created]. *)
Definition post (id : string) (score comments : Q) (created : Z) : RedditPost.t :=
  RedditPost.mk id "A meme" "someone" "memes" score comments created
    "https://reddit.com/r/memes/1" None None None.

Definition quote (id : string) (price : Q) : MarketData.t :=
  MarketData.mk id price price 100 0 0 stable None.

(** A wager of 10 coins at odds 2 on post [p1]. *)
Definition wager (id kind : string) (target : Q) (timeframe : string)
    (st : Status) (created : Z) (resolved : option Z) (baseline : Q) : Prediction.t :=
  Prediction.mk id "user_0001" "p1" "https://reddit.com/r/memes/1" "A meme"
    kind target timeframe 10 2 st created resolved baseline 1.0 conditions.

Definition portfolio (coins : Q) (predictions : list Prediction.t) : UserPortfolio.t :=
  UserPortfolio.mk "user_0001" coins coins predictions [] 1 0 0 0 0 0 None true []
    0 0 0 0.

End Sample.

(** The growth-rate scenario of the specification: baseline 100, timeframe
    LONG, target 50, placed at time 0; the post then stands at 1300. *)
Definition growthWager : Prediction.t :=
  Sample.wager "pred_1" "growth_rate" 50 "LONG" active 0 None 100.

Definition growthPost : RedditPost.t := Sample.post "p1" 1300 40 0.

Definition oneDay : Z := 24 * 60 * 60 * 1000.

(** The same wager placed when the post, created at second 0, was a day
    old. *)
Definition laterGrowthWager : Prediction.t :=
  Sample.wager "pred_4" "growth_rate" 50 "LONG" active oneDay None 100.

(** A tournament open for registration, and one under way with five
    players. *)
Definition openTournament : Tournament.t :=
  Tournament.mk "t1" "Daily Meme Masters" "24 hours" 7200000 93600000 0
    TOURNAMENT_CONFIG.ENTRY_FEE TOURNAMENT_CONFIG.MAX_PARTICIPANTS 0
    Tournament.upcoming [] [].

Definition player (userId : string) (points : Z) : TournamentParticipant.t :=
  TournamentParticipant.mk userId ("Player_" +:+ userId) points 0 3 0.

Definition activeTournament : Tournament.t :=
  Tournament.mk "t2" "Weekend Champion" "bigger prizes" 0 86400000 550
    TOURNAMENT_CONFIG.ENTRY_FEE TOURNAMENT_CONFIG.MAX_PARTICIPANTS 5
    Tournament.active []
    [ player "a" 8; player "b" 30; player "c" (-4); player "d" 15; player "e" 10 ].

(** A game with 1000 MemeCoins, one trending post and its quote, and a bet
    form filled in with 9 coins, one below the minimum. *)
Definition sampleGame : GameState.t :=
  GameState.mk None {[ "p1" := Sample.quote "p1" 1 ]} (Sample.portfolio 1000 [])
    [ Sample.post "p1" 1000 50 0 ] true None.

Definition lowBet : PostCard.form := PostCard.mkForm 9 "growth_rate" "LONG" 50.

(** A milestone wager (target 500, timeframe LONG) placed at millisecond
    1000 with 990 coins left, on a post that already stands at 1000. *)
Definition milestoneWager : Prediction.t :=
  Sample.wager "pred_2" "milestone_reach" 500 "LONG" active 1000 None 400.

Definition bettor : UserPortfolio.t := Sample.portfolio 990 [milestoneWager].

Definition hotPost : RedditPost.t := Sample.post "p1" 1000 50 0.

(** A milestone wager out of reach (target 5000) placed 100 seconds after
    its post was created, and resolved one second later. *)
Definition postedAt : Z := 1700000000.            (* seconds *)
Definition placedAt : Z := 1700000100000.         (* milliseconds *)

Definition farWager : Prediction.t :=
  Sample.wager "pred_3" "milestone_reach" 5000 "LONG" active placedAt None 400.

Definition youngPost : RedditPost.t := Sample.post "p1" 1000 50 postedAt.

(** A win that follows a loss. *)
Definition winAfterLoss : UserPortfolio.t :=
  Sample.portfolio 1000
    [ Sample.wager "old" "milestone_reach" 500 "LONG" lost 1000 (Some 1500%Z) 400;
      Sample.wager "new" "milestone_reach" 500 "LONG" won 2000 (Some 2500%Z) 400 ].

(** A loss that follows a win. *)
Definition lossAfterWin : UserPortfolio.t :=
  Sample.portfolio 1000
    [ Sample.wager "old" "milestone_reach" 500 "LONG" won 1000 (Some 1500%Z) 400;
      Sample.wager "new" "milestone_reach" 500 "LONG" lost 2000 (Some 2500%Z) 400 ].

(** Most recent first: a win, a loss, then two older wins. *)
Definition winLossWinWin : UserPortfolio.t :=
  Sample.portfolio 1000
    [ Sample.wager "w4" "milestone_reach" 500 "LONG" won 4000 (Some 4500%Z) 400;
      Sample.wager "l3" "milestone_reach" 500 "LONG" lost 3000 (Some 3500%Z) 400;
      Sample.wager "w2" "milestone_reach" 500 "LONG" won 2000 (Some 2500%Z) 400;
      Sample.wager "w1" "milestone_reach" 500 "LONG" won 1000 (Some 1500%Z) 400 ].


(** A fresh engine on which one post has been quoted at millisecond 1000,
    and the quote it holds. *)
Definition quotedEngine : MarketEngine.t :=
  (MarketEngine.performAll (fun _ => 0)
     [ MarketEngine.InitializePostMarket 1000 (Sample.post "p1" 1000 50 0) ]
     (MarketEngine.create 0) (Rand.const 0.5)).1.

Definition freshQuote : MarketData.t :=
  MarketData.mk "p1" 2.29 2.29 600 0 1000 stable None.

(** A bet form filled in with 100 coins on the milestone type. *)
Definition fairBet : PostCard.form := PostCard.mkForm 100 "milestone_reach" "LONG" 1500.

(** The same game with only 50 coins left, and a bet form asking for 51. *)
Definition poorGame : GameState.t :=
  GameState.withPortfolio (Sample.portfolio 50 []) sampleGame.

Definition overBet : PostCard.form := PostCard.mkForm 51 "milestone_reach" "LONG" 1500.

(** A service holding the tournament under way, and the one that is open
    for registration with its first player. *)
Definition runningService : list Tournament.t := [activeTournament].

(** Ten won wagers in a row, oldest first. *)
Definition tenWins : list Prediction.t :=
  map (fun k => Sample.wager "w" "milestone_reach" 500 "LONG" won (Z.of_nat k)
                  (Some (Z.of_nat k + 1)%Z) 400)
      (seq 1 10).

(** A rough [Math.log]: the binary logarithm of the integer part, scaled by
    ln 2. *)
Definition lnApprox (x : Q) : Q := inject_Z (Z.log2 (Qfloor x)) * 0.693.

(** A player with 1000 MemeCoins. *)
Definition entrant (userId : string) : UserPortfolio.t :=
  UserPortfolio.mk userId 1000 1000 [] [] 1 0 0 0 0 0 None true [] 0 0 0 0.

(** A tournament played from the start: five players join in the order a,
    b, c, d, e; then b wins, d wins on a streak and c loses. *)
Definition cupHistory : list TournamentService.call :=
  [ TournamentService.CreateTournament "cup" "Daily Meme Cup" "24 hours" 7200000;
    TournamentService.JoinTournament "cup" (entrant "a");
    TournamentService.JoinTournament "cup" (entrant "b");
    TournamentService.JoinTournament "cup" (entrant "c");
    TournamentService.JoinTournament "cup" (entrant "d");
    TournamentService.JoinTournament "cup" (entrant "e");
    TournamentService.StartTournament "cup";
    TournamentService.UpdateTournamentPoints "cup" "b" true 1;
    TournamentService.UpdateTournamentPoints "cup" "d" true 2;
    TournamentService.UpdateTournamentPoints "cup" "c" false 0 ].

Definition cupService : list Tournament.t :=
  TournamentService.performAll cupHistory [].

Definition cupTournament : Tournament.t := default openTournament (head cupService).

(** A post of the subreddit [cats] that is an hour old at time [3600000],
    under a plain id. *)
Definition catPost : RedditPost.t :=
  RedditPost.mk "p7" "My cat learned to open the fridge and now nothing is safe"
    "someone" "Cats" 420 37 0 "https://reddit.com/r/cats/7" (Some "thumb.jpg") None None.

(** A post of the subreddit r/constructor, whose name is also the name of a
    member of [Object.prototype]. *)
Definition constructorPost : RedditPost.t :=
  RedditPost.mk "p8" "A meme" "someone" "constructor" 1000 50 0
    "https://reddit.com/r/constructor/8" None None None.
(* ################################################################# *)
(** * Properties *)

(* ================================================================= *)
(** ** Comparisons and rounding *)

Lemma Js_ltb_lt a b : Js.ltb a b = true <-> a < b.
Proof.
  unfold Js.ltb. rewrite negb_true_iff. split.
  - intros H. apply Qnot_le_lt. intros Hle.
    apply Qle_bool_iff in Hle. congruence.
  - intros H. destruct (Qle_bool b a) eqn:E; [|reflexivity].
    apply Qle_bool_iff in E. exfalso. exact (Qlt_not_le _ _ H E).
Qed.

Lemma Js_leb_le a b : Js.leb a b = true <-> a <= b.
Proof. apply Qle_bool_iff. Qed.

Lemma Js_floor_le x : inject_Z (Js.floor x) <= x.
Proof. apply Qfloor_le. Qed.

(** Rounding to the nearest integer never goes below an integer lower
    bound of the argument. *)
Lemma Js_round_lower (n : Z) (x : Q) : inject_Z n <= x -> (n <= Js.round x)%Z.
Proof.
  intros H. unfold Js.round.
  rewrite <- (Qfloor_Z n). apply Qfloor_resp_le. lra.
Qed.

(* ================================================================= *)
(** ** The stable sort *)

Section StableSort.

Context {A : Type} (R : A -> A -> Prop) `{!forall a b, Decision (R a b)}.

Lemma Js_place_Permutation (x : A) (l : list A) : Js.place R x l ≡ₚ x :: l.
Proof.
  induction l as [|y rest IH]; cbn; [reflexivity|].
  destruct (decide (R x y)); [reflexivity|].
  rewrite IH. apply Permutation_swap.
Qed.

Lemma Js_sort_Permutation (l : list A) : Js.sort R l ≡ₚ l.
Proof.
  induction l as [|x rest IH]; [reflexivity|].
  change (Js.sort R (x :: rest)) with (Js.place R x (Js.sort R rest)).
  rewrite Js_place_Permutation, IH. reflexivity.
Qed.

Lemma Js_place_sorted (x : A) (l : list A) :
  Transitive R -> Total R ->
  StronglySorted R l -> StronglySorted R (Js.place R x l).
Proof.
  intros Htrans Htotal Hsorted.
  induction Hsorted as [|y rest Hrest IH Hy]; cbn.
  - constructor; constructor.
  - destruct (decide (R x y)) as [Hxy|Hnxy].
    + constructor; [constructor; assumption|].
      constructor; [exact Hxy|].
      eapply Forall_impl; [exact Hy|]. intros z Hyz. etransitivity; eassumption.
    + constructor; [exact IH|].
      rewrite (Js_place_Permutation x rest). constructor; [|exact Hy].
      destruct (Htotal x y) as [Hxy|Hyx]; [contradiction|exact Hyx].
Qed.

(** The result is ordered. *)
Lemma Js_sort_sorted (l : list A) :
  Transitive R -> Total R -> StronglySorted R (Js.sort R l).
Proof.
  intros Htrans Htotal. induction l as [|x rest IH]; [constructor|].
  change (Js.sort R (x :: rest)) with (Js.place R x (Js.sort R rest)).
  apply Js_place_sorted; assumption.
Qed.

Lemma Js_place_filter (P : A -> Prop) `{!forall a, Decision (P a)} (x : A) (l : list A) :
  (forall a b, P a -> P b -> R a b) ->
  filter P (Js.place R x l) = filter P (x :: l).
Proof.
  intros Htied. induction l as [|y rest IH]; cbn; [reflexivity|].
  destruct (decide (R x y)) as [Hxy|Hnxy]; [reflexivity|].
  rewrite filter_cons, IH, !filter_cons.
  destruct (decide (P y)) as [Hy|Hny], (decide (P x)) as [Hx|Hnx]; try reflexivity.
  exfalso. apply Hnxy, Htied; assumption.
Qed.

(** The sort is stable: elements that may stand before each other keep the
    order they had. *)
Lemma Js_sort_stable (P : A -> Prop) `{!forall a, Decision (P a)} (l : list A) :
  (forall a b, P a -> P b -> R a b) ->
  filter P (Js.sort R l) = filter P l.
Proof.
  intros Htied. induction l as [|x rest IH]; [reflexivity|].
  change (Js.sort R (x :: rest)) with (Js.place R x (Js.sort R rest)).
  rewrite (Js_place_filter P x _ Htied), !filter_cons, IH. reflexivity.
Qed.

(** An ordered array is left as it is. *)
Lemma Js_sort_of_sorted (l : list A) : StronglySorted R l -> Js.sort R l = l.
Proof.
  induction 1 as [|x rest Hrest IH Hx]; [reflexivity|].
  change (Js.sort R (x :: rest)) with (Js.place R x (Js.sort R rest)).
  rewrite IH. destruct Hx as [|y rest' Hxy _]; cbn; [reflexivity|].
  destruct (decide (R x y)); [reflexivity|contradiction].
Qed.

End StableSort.

(* ================================================================= *)
(** ** Staking *)

(** No time elapsed since the claim clock was set: nothing accrues,
  whatever the tier and the staked amount. *)
Lemma staking_no_elapsed_no_reward (now : Z) (portfolio : UserPortfolio.t) :
UserPortfolio.lastStakingClaim portfolio = now ->
StakingService.calculateStakingRewards now portfolio = 0%Z.
Proof.
intros Hclock. unfold StakingService.calculateStakingRewards. rewrite Hclock, Z.sub_diag.
set (tier := StakingService.getStakingTier _).
assert (Hz : UserPortfolio.stakedCoins portfolio * (StakingTier.apr tier / 100 / 365)
             * (inject_Z 0 / inject_Z (1000 * 60 * 60) / 24) == inject_Z 0).
{ unfold Qdiv. change (inject_Z 0) with 0. ring. }
unfold Js.floor. rewrite (Qfloor_comp _ _ Hz), Qfloor_Z. reflexivity.
Qed.

Lemma staking_claim_sets_clock (now : Z) (portfolio : UserPortfolio.t) :
UserPortfolio.lastStakingClaim (StakingService.claimRewards now portfolio) = now.
Proof. reflexivity. Qed.

(** C7. Staking no-double-count: after a claim, a second claim at the same
    instant computes a reward of 0 and leaves the balance and the
    cumulative staking-rewards counter at their values. *)
Theorem C7_second_claim_credits_nothing (now : Z) (portfolio : UserPortfolio.t) :
  let claimed := StakingService.claimRewards now portfolio in
  let again := StakingService.claimRewards now claimed in
  StakingService.calculateStakingRewards now claimed = 0%Z
  /\ UserPortfolio.memeCoins again == UserPortfolio.memeCoins claimed
  /\ UserPortfolio.stakingRewards again == UserPortfolio.stakingRewards claimed
  /\ UserPortfolio.stakedCoins again = UserPortfolio.stakedCoins claimed.
Proof.
  intros claimed again.
  assert (H0 : StakingService.calculateStakingRewards now claimed = 0%Z)
    by (apply staking_no_elapsed_no_reward; reflexivity).
  split; [exact H0|].
  assert (Hcoins : UserPortfolio.memeCoins again
                   = UserPortfolio.memeCoins claimed
                     + inject_Z (StakingService.calculateStakingRewards now claimed))
    by reflexivity.
  assert (Hrewards : UserPortfolio.stakingRewards again
                     = UserPortfolio.stakingRewards claimed
                       + inject_Z (StakingService.calculateStakingRewards now claimed))
    by reflexivity.
  rewrite Hcoins, Hrewards, H0. change (inject_Z 0) with 0.
  repeat split; try reflexivity; ring.
Qed.

(* ================================================================= *)
(** ** Keys inherited from [Object.prototype] *)

(** No key of the two tables that are read at a free key names a member of
    [Object.prototype]. *)
Lemma inherited_is_no_prediction_type (key : string) :
  Js.inherited key = true -> PREDICTION_TYPES key = None.
Proof.
  unfold Js.inherited, Js.prototypeKeys. cbn [existsb]. intros Hkey.
  repeat match type of Hkey with
         | context [String.eqb key ?k] =>
             destruct (String.eqb_spec key k) as [Heq | _];
             [rewrite Heq; reflexivity |]
         end.
  cbn in Hkey. discriminate Hkey.
Qed.

Lemma inherited_is_no_subreddit_key (key : string) :
  Js.inherited key = true -> SUBREDDIT_MULTIPLIERS key = None.
Proof.
  unfold Js.inherited, Js.prototypeKeys. cbn [existsb]. intros Hkey.
  repeat match type of Hkey with
         | context [String.eqb key ?k] =>
             destruct (String.eqb_spec key k) as [Heq | _];
             [rewrite Heq; reflexivity |]
         end.
  cbn in Hkey. discriminate Hkey.
Qed.

Lemma get_inherited {A} (table : string -> option A) (key : string) :
  table key = None -> Js.inherited key = true -> Js.get table key = Js.inheritedMember.
Proof. intros Hnone Hkey. unfold Js.get. rewrite Hnone, Hkey. reflexivity. Qed.

Lemma get_own {A} (table : string -> option A) (key : string) (a : A) :
  table key = Some a -> Js.get table key = Js.own a.
Proof. intros Hsome. unfold Js.get. rewrite Hsome. reflexivity. Qed.

Lemma get_undefined {A} (table : string -> option A) (key : string) :
  table key = None -> Js.inherited key = false -> Js.get table key = Js.undefined.
Proof. intros Hnone Hkey. unfold Js.get. rewrite Hnone, Hkey. reflexivity. Qed.

(** Outside the inherited names, [table[key] || d] is the number that the
    own properties give. *)
Lemma numberOr_plain (table : string -> option Q) (key : string) (d : Q) :
  Js.inherited key = false ->
  Js.numberOr d (Js.get table key)
  = Js.num (match table key with Some m => Js.or_default m d | None => d end).
Proof.
  intros Hkey. unfold Js.get. destruct (table key); [reflexivity|].
  rewrite Hkey. reflexivity.
Qed.

(* ================================================================= *)
(** ** Odds *)

Lemma odds_clamped x : 1.1 <= Qmax 1.1 (Qmin 50.0 x) /\ Qmax 1.1 (Qmin 50.0 x) <= 50.
Proof.
  split.
  - apply Q.le_max_l.
  - apply Q.max_lub; [lra | apply (Qle_trans _ 50.0); [apply Q.le_min_l | lra]].
Qed.

(** A key of [PREDICTION_TYPES] is never one of the lower-case ids the
    difficulty [switch] tests, so a recognised type gets the default
    difficulty. *)
Lemma recognised_type_default_difficulty key baseOdds post target conditions :
  PREDICTION_TYPES key = Some baseOdds ->
  PredictionEngine.calculateDifficultyMultiplier key post target conditions = 1.0.
Proof.
  unfold PREDICTION_TYPES. intros Hkey.
  repeat match type of Hkey with
         | context [String.eqb key ?k] =>
             destruct (String.eqb_spec key k) as [-> | _]; [reflexivity |]
         end.
  discriminate Hkey.
Qed.

(** The odds over the prototype chain are the odds over the own properties
    whenever the keys read name no member of [Object.prototype]. *)
Lemma plain_keys_odds (now hour : Z) (post : RedditPost.t) (marketData : MarketData.t)
    (predictionType : string) (targetValue : Q) (timeframe : string) :
  Js.inherited predictionType = false ->
  (PREDICTION_TYPES predictionType <> None ->
   Js.inherited (RedditPost.subreddit post) = false) ->
  Prototype.calculateOdds now hour post marketData predictionType targetValue timeframe
  = Js.num (PredictionEngine.calculateOdds now hour post marketData predictionType
              targetValue timeframe).
Proof.
  intros Htype Hsub.
  unfold Prototype.calculateOdds, PredictionEngine.calculateOdds.
  destruct (PREDICTION_TYPES predictionType) as [configuredOdds|] eqn:Hconfig.
  - rewrite (get_own PREDICTION_TYPES _ _ Hconfig). cbv beta iota zeta.
    unfold PredictionEngine.subredditFactor.
    rewrite (numberOr_plain SUBREDDIT_MULTIPLIERS _ 1 (Hsub ltac:(discriminate))).
    reflexivity.
  - rewrite (get_undefined PREDICTION_TYPES _ Hconfig Htype). reflexivity.
Qed.

(** C5. Odds bounds, evaluated on the code.  A prediction type that names a
    member of [Object.prototype], such as "constructor", is not a key of
    [PREDICTION_TYPES], yet [PREDICTION_TYPES[predictionType]] finds the
    inherited member: the guard [!predictionConfig] does not fire, the
    default 2.0 is not returned, and the odds are NaN, outside [1.1, 50].
    The same holds for a type that is a key on a post whose subreddit names
    such a member.  For every other type and subreddit the odds are a number
    in the closed interval [1.1, 50], and a type that is not a key gets the
    neutral odds 2.0. *)
Theorem C5_inherited_type_gets_no_odds :
  (forall now hour post marketData predictionType targetValue timeframe,
      Js.inherited predictionType = true ->
      PREDICTION_TYPES predictionType = None
      /\ Prototype.calculateOdds now hour post marketData predictionType targetValue
           timeframe = Js.NaN)
  /\ (forall post marketData,
        Prototype.calculateOdds 0 12 post marketData "constructor" 50 "LONG" = Js.NaN)
  /\ (forall now hour post marketData predictionType targetValue timeframe,
        PREDICTION_TYPES predictionType <> None ->
        Js.inherited (RedditPost.subreddit post) = true ->
        Prototype.calculateOdds now hour post marketData predictionType targetValue
          timeframe = Js.NaN)
  /\ (forall now hour post marketData predictionType targetValue timeframe,
        Js.inherited predictionType = false ->
        (PREDICTION_TYPES predictionType <> None ->
         Js.inherited (RedditPost.subreddit post) = false) ->
        let odds :=
          PredictionEngine.calculateOdds now hour post marketData predictionType
            targetValue timeframe in
        Prototype.calculateOdds now hour post marketData predictionType targetValue
          timeframe = Js.num odds
        /\ (1.1 <= odds /\ odds <= 50)
        /\ (PREDICTION_TYPES predictionType = None -> odds = 2.0)).
Proof.
  assert (Hinherited : forall now hour post marketData predictionType targetValue timeframe,
             Js.inherited predictionType = true ->
             PREDICTION_TYPES predictionType = None
             /\ Prototype.calculateOdds now hour post marketData predictionType
                  targetValue timeframe = Js.NaN).
  { intros now hour post marketData predictionType targetValue timeframe Hkey.
    pose proof (inherited_is_no_prediction_type predictionType Hkey) as Hnone.
    split; [exact Hnone|]. unfold Prototype.calculateOdds.
    rewrite (get_inherited PREDICTION_TYPES predictionType Hnone Hkey). reflexivity. }
  split; [exact Hinherited|].
  split; [intros post marketData; apply Hinherited; reflexivity|].
  split.
  - intros now hour post marketData predictionType targetValue timeframe Hown Hsub.
    unfold Prototype.calculateOdds.
    rewrite (get_inherited SUBREDDIT_MULTIPLIERS _
               (inherited_is_no_subreddit_key _ Hsub) Hsub).
    destruct (PREDICTION_TYPES predictionType) as [configuredOdds|] eqn:Hconfig;
      [|contradiction].
    rewrite (get_own PREDICTION_TYPES _ _ Hconfig). reflexivity.
  - intros now hour post marketData predictionType targetValue timeframe Htype Hsub odds.
    split; [apply plain_keys_odds; assumption|].
    unfold odds, PredictionEngine.calculateOdds.
    destruct (PREDICTION_TYPES predictionType) as [baseOdds|]; cbv zeta.
    + split; [apply odds_clamped | discriminate].
    + split; [split; lra | reflexivity].
Qed.

(* ================================================================= *)
(** ** Resolution by the prediction engine *)

(** Before the deadline the engine never reports a win. *)
Lemma engine_waits_for_deadline now p post md tf :
  PREDICTION_TIMEFRAMES (Prediction.timeframe p) = Some tf ->
  (now < Prediction.created p + fst tf * 60 * 60 * 1000)%Z ->
  PredictionEngine.resolvePrediction now p post md = Some false.
Proof.
  intros Htf Hearly. unfold PredictionEngine.resolvePrediction. rewrite Htf.
  apply Z.ltb_lt in Hearly. rewrite Hearly. reflexivity.
Qed.

(** The rule of the prediction engine: once its timeframe has passed, a
    growth_rate prediction wins exactly when
    [|actual - target| <= 0.10 * target] for
    [actual = (currentScore - baselineValue) / timeframeHours]; and the
    wager with baseline 100, timeframe LONG and target 50 is won when the
    post stands at 1300 after 24 hours. *)
Lemma engine_growth_rate_rule :
  (forall now p post md tf,
      Prediction.predictionType p = "growth_rate" ->
      PREDICTION_TIMEFRAMES (Prediction.timeframe p) = Some tf ->
      (Prediction.created p + fst tf * 60 * 60 * 1000 <= now)%Z ->
      let actual :=
        (RedditPost.score post - Prediction.baselineValue p) / inject_Z (fst tf) in
      PredictionEngine.resolvePrediction now p post md = Some true
      <-> Qabs (actual - Prediction.targetValue p) <= 0.10 * Prediction.targetValue p)
  /\ (forall md,
         (RedditPost.score growthPost - Prediction.baselineValue growthWager)
           / inject_Z 24 == 50
         /\ PredictionEngine.resolvePrediction oneDay growthWager growthPost md
            = Some true).
Proof.
  split.
  - intros now p post md tf Hkind Htf Hdue actual.
    unfold PredictionEngine.resolvePrediction. rewrite Htf, Hkind.
    apply Z.ltb_ge in Hdue. rewrite Hdue. cbn [String.eqb Ascii.eqb Bool.eqb].
    change (String.eqb "growth_rate" "growth_rate") with true. cbv iota.
    fold actual.
    set (verdict := Js.leb _ _).
    assert (Hsome : Some verdict = Some true <-> verdict = true)
      by (split; [congruence | intros ->; reflexivity]).
    rewrite Hsome. unfold verdict. rewrite Js_leb_le. split; intros; lra.
  - intros md. split; [reflexivity | reflexivity].
Qed.

(* ================================================================= *)
(** ** The price floor *)

Section PriceFloor.

Variable ln : Q -> Q.

(** A price floored at [MIN_PRICE] stays there when rounded to cents. *)
Lemma rounded_price_above_floor (x : Q) :
  GAME_CONFIG.MIN_PRICE
  <= inject_Z (Js.round (Qmax GAME_CONFIG.MIN_PRICE x * 100)) / 100.
Proof.
  assert (H1 : inject_Z 1 <= Qmax GAME_CONFIG.MIN_PRICE x * 100).
  { pose proof (Q.le_max_l GAME_CONFIG.MIN_PRICE x) as Hm.
    unfold GAME_CONFIG.MIN_PRICE in *. change (inject_Z 1) with 1. lra. }
  apply Js_round_lower in H1.
  set (cents := Js.round _) in *.
  assert (H2 : inject_Z 1 <= inject_Z cents) by (rewrite <- Zle_Qle; exact H1).
  unfold GAME_CONFIG.MIN_PRICE. change (inject_Z 1) with 1 in H2.
  apply Qle_shift_div_l; lra.
Qed.

Lemma insert_above_floor postId data engine :
  GAME_CONFIG.MIN_PRICE <= MarketData.currentPrice data ->
  MarketEngine.aboveFloor engine ->
  MarketEngine.aboveFloor
    (MarketEngine.mk (<[postId := data]> (MarketEngine.marketData engine))
       (MarketEngine.sectors engine) (MarketEngine.currentSector engine)).
Proof.
  intros Hdata Hfloor. unfold MarketEngine.aboveFloor in *. cbn.
  apply map_Forall_insert_2; assumption.
Qed.

Lemma updatePostPrice_above_floor now postId engine rng :
  MarketEngine.aboveFloor engine ->
  MarketEngine.aboveFloor (MarketEngine.updatePostPrice now postId engine rng).1.
Proof.
  intros Hfloor. unfold MarketEngine.updatePostPrice.
  destruct (MarketEngine.marketData engine !! postId) as [currentData|]; [|exact Hfloor].
  cbn. apply insert_above_floor; [|exact Hfloor].
  cbn. apply rounded_price_above_floor.
Qed.

Lemma forEachKey_above_floor now keys : forall engine rng,
  MarketEngine.aboveFloor engine ->
  MarketEngine.aboveFloor
    (MarketEngine.forEachKey (MarketEngine.updatePostPrice now) keys engine rng).1.
Proof.
  induction keys as [|postId rest IH]; intros engine rng Hfloor; [exact Hfloor|].
  cbn [MarketEngine.forEachKey]. unfold mbind, rand_bind, Rand.bind.
  pose proof (updatePostPrice_above_floor now postId engine rng Hfloor) as Hstep.
  destruct (MarketEngine.updatePostPrice now postId engine rng) as [engine' rng'].
  apply IH. exact Hstep.
Qed.

Lemma initializePostMarket_above_floor now post engine rng :
  MarketEngine.aboveFloor engine ->
  MarketEngine.aboveFloor (MarketEngine.initializePostMarket ln now post engine rng).1.2.
Proof.
  intros Hfloor. cbn. apply insert_above_floor; [|exact Hfloor].
  cbn. apply Q.le_max_l.
Qed.

Lemma applyImpact_above_floor now impact postId quotes :
  map_Forall (fun _ data => GAME_CONFIG.MIN_PRICE <= MarketData.currentPrice data) quotes ->
  map_Forall (fun _ data => GAME_CONFIG.MIN_PRICE <= MarketData.currentPrice data)
             (MarketEngine.applyImpact now impact postId quotes).
Proof.
  intros Hfloor. unfold MarketEngine.applyImpact.
  destruct (quotes !! postId) as [data|]; [|exact Hfloor].
  apply map_Forall_insert_2; [|exact Hfloor]. cbn. apply Q.le_max_l.
Qed.

Lemma triggerMarketEvent_above_floor now eventType engine :
  MarketEngine.aboveFloor engine ->
  MarketEngine.aboveFloor (MarketEngine.triggerMarketEvent now eventType engine).2.
Proof.
  unfold MarketEngine.aboveFloor, MarketEngine.triggerMarketEvent. cbn.
  generalize (MarketEngine.keys engine) as postIds.
  generalize (MarketEngine.marketData engine) as quotes.
  intros quotes postIds. revert quotes.
  induction postIds as [|postId rest IH]; intros quotes Hfloor; [exact Hfloor|].
  cbn. apply IH, applyImpact_above_floor, Hfloor.
Qed.

Lemma rotateSector_above_floor now engine :
  MarketEngine.aboveFloor engine ->
  MarketEngine.aboveFloor (MarketEngine.rotateSector now engine).2.
Proof.
  intros Hfloor. unfold MarketEngine.rotateSector.
  destruct (MarketEngine.sectors engine !! _); exact Hfloor.
Qed.

Lemma perform_above_floor c engine rng :
  MarketEngine.aboveFloor engine ->
  MarketEngine.aboveFloor (MarketEngine.perform ln c engine rng).1.
Proof.
  intros Hfloor. destruct c as [now post|now|now eventType|now].
  - exact (initializePostMarket_above_floor now post engine rng Hfloor).
  - exact (forEachKey_above_floor now (MarketEngine.keys engine) engine rng Hfloor).
  - exact (triggerMarketEvent_above_floor now eventType engine Hfloor).
  - exact (rotateSector_above_floor now engine Hfloor).
Qed.

Lemma performAll_above_floor history : forall engine rng,
  MarketEngine.aboveFloor engine ->
  MarketEngine.aboveFloor (MarketEngine.performAll ln history engine rng).1.
Proof.
  induction history as [|c rest IH]; intros engine rng Hfloor; [exact Hfloor|].
  cbn [MarketEngine.performAll]. unfold mbind, rand_bind, Rand.bind.
  pose proof (perform_above_floor c engine rng Hfloor) as Hstep.
  destruct (MarketEngine.perform ln c engine rng) as [engine' rng'].
  apply IH, Hstep.
Qed.

Lemma create_above_floor start : MarketEngine.aboveFloor (MarketEngine.create start).
Proof. unfold MarketEngine.aboveFloor. cbn. apply map_Forall_empty. Qed.

End PriceFloor.

(** The initial price over the prototype chain is the initial price over
    the own properties whenever the lower-case subreddit names no member of
    [Object.prototype]. *)
Lemma plain_subreddit_price (ln : Q -> Q) (now : Z) (post : RedditPost.t)
    (engine : MarketEngine.t) (rng : Rand.stream) :
  Js.inherited (toLowerCase (RedditPost.subreddit post)) = false ->
  (Prototype.calculateInitialPrice ln now post engine rng).1
  = Js.num (MarketEngine.calculateInitialPrice ln now post engine rng).1.
Proof.
  intros Hsub.
  unfold Prototype.calculateInitialPrice, MarketEngine.calculateInitialPrice,
    Prototype.getSubredditMultiplier, MarketEngine.getSubredditMultiplier.
  rewrite (numberOr_plain SUBREDDIT_MULTIPLIERS _ 1 Hsub). reflexivity.
Qed.

(** C6. Price floor, evaluated on the code.  For a post whose lower-case
    subreddit name names a member of [Object.prototype], such as
    r/constructor, [SUBREDDIT_MULTIPLIERS[...] || 1.0] is the inherited
    member, the product is NaN, and [Math.max(0.01, ...)] leaves it NaN: the
    quote is created with a price that is not [>= MIN_PRICE].  For every
    other post the initial price is a number at or above the floor, and
    after any history of quote creations for posts under plain keys, price
    ticks, shock events and sector rotations on a fresh engine, with any
    clock readings, any random draws and any [Math.log], every tracked quote
    has [currentPrice >= MIN_PRICE]. *)
Theorem C6_no_floor_for_inherited_subreddit :
  (forall ln now post engine rng,
      Js.inherited (toLowerCase (RedditPost.subreddit post)) = true ->
      (Prototype.calculateInitialPrice ln now post engine rng).1 = Js.NaN)
  /\ (forall ln now engine rng,
        (Prototype.calculateInitialPrice ln now constructorPost engine rng).1 = Js.NaN)
  /\ (forall ln now post engine rng,
        Js.inherited (toLowerCase (RedditPost.subreddit post)) = false ->
        let price := (MarketEngine.calculateInitialPrice ln now post engine rng).1 in
        (Prototype.calculateInitialPrice ln now post engine rng).1 = Js.num price
        /\ GAME_CONFIG.MIN_PRICE <= price)
  /\ (forall ln start history rng postId quote,
        forallb MarketEngine.plainCall history = true ->
        MarketEngine.marketData
          (MarketEngine.performAll ln history (MarketEngine.create start) rng).1 !! postId
        = Some quote ->
        GAME_CONFIG.MIN_PRICE <= MarketData.currentPrice quote).
Proof.
  assert (Hinherited : forall ln now post engine rng,
             Js.inherited (toLowerCase (RedditPost.subreddit post)) = true ->
             (Prototype.calculateInitialPrice ln now post engine rng).1 = Js.NaN).
  { intros ln now post engine rng Hsub.
    unfold Prototype.calculateInitialPrice, Prototype.getSubredditMultiplier.
    rewrite (get_inherited SUBREDDIT_MULTIPLIERS _
               (inherited_is_no_subreddit_key _ Hsub) Hsub).
    reflexivity. }
  split; [exact Hinherited|].
  split; [intros ln now engine rng; apply Hinherited; reflexivity|].
  split.
  - intros ln now post engine rng Hsub price.
    split; [apply plain_subreddit_price; exact Hsub|].
    unfold price. cbn. apply Q.le_max_l.
  - intros ln start history rng postId quote _ Hquote.
    exact (performAll_above_floor ln history _ rng (create_above_floor start)
             postId quote Hquote).
Qed.

(* ================================================================= *)
(** ** Tournaments *)

(** Replacing the tournament that [find] returns by one with the same id
    leaves it the one that [find] returns. *)
Lemma findTournament_after_update tournamentId (tournaments : list Tournament.t)
    i tournament tournament' :
  TournamentService.findTournament tournamentId tournaments = Some (i, tournament) ->
  Tournament.id tournament' = tournamentId ->
  TournamentService.findTournament tournamentId (<[i := tournament']> tournaments)
  = Some (i, tournament').
Proof.
  unfold TournamentService.findTournament. intros Hfind Hid.
  apply list_find_Some in Hfind as (Hi & _ & Hfirst).
  apply list_find_Some. repeat split.
  - apply list_lookup_insert_eq. eapply lookup_lt_Some, Hi.
  - exact Hid.
  - intros j other Hj Hlt. rewrite list_lookup_insert_ne in Hj by lia.
    eapply Hfirst; eassumption.
Qed.

Lemma findParticipant_present userId (board : list TournamentParticipant.t) participant :
  participant ∈ board ->
  TournamentParticipant.userId participant = userId ->
  is_Some (TournamentService.findParticipant userId board).
Proof.
  intros Hin Hid. unfold TournamentService.findParticipant.
  destruct (list_find_elem_of
              (fun p => TournamentParticipant.userId p = userId) board participant Hin Hid)
    as [found Hfound].
  exists found. exact Hfound.
Qed.

(** A user who has an entry in the leaderboard is turned away, and the
    service keeps its state. *)
Lemma join_refused_when_listed tournamentId portfolio (tournaments : list Tournament.t)
    i tournament participant :
  TournamentService.findTournament tournamentId tournaments = Some (i, tournament) ->
  participant ∈ Tournament.leaderboard tournament ->
  TournamentParticipant.userId participant = UserPortfolio.userId portfolio ->
  exists error,
    TournamentService.joinTournament tournamentId portfolio tournaments
    = (TournamentService.JoinError error, tournaments).
Proof.
  intros Hfind Hin Hid. unfold TournamentService.joinTournament. rewrite Hfind.
  destruct (negb _); [eauto|].
  destruct (_ <=? _)%Z; [eauto|].
  destruct (Js.ltb _ _); [eauto|].
  destruct (findParticipant_present _ _ _ Hin Hid) as [found ->]. eauto.
Qed.

(** C8. Tournament uniqueness and join atomicity: after a successful join, a
    second join of the same tournament under the same [userId] returns an
    error and changes nothing: the service state, hence the tournament's
    leaderboard, [currentParticipants] and [prizePool], is the one the first
    join left, and no updated portfolio is produced. *)
Theorem C8_second_join_rejected (tournamentId : string)
    (first second : UserPortfolio.t) (tournaments joined : list Tournament.t)
    (tournament : Tournament.t) (debited : UserPortfolio.t) :
  TournamentService.joinTournament tournamentId first tournaments
  = (TournamentService.Joined tournament debited, joined) ->
  UserPortfolio.userId second = UserPortfolio.userId first ->
  exists error,
    TournamentService.joinTournament tournamentId second joined
    = (TournamentService.JoinError error, joined).
Proof.
  intros Hjoin Huser. unfold TournamentService.joinTournament in Hjoin.
  destruct (TournamentService.findTournament tournamentId tournaments)
    as [[i before]|] eqn:Hfind; [|discriminate].
  destruct (negb _); [discriminate|].
  destruct (_ <=? _)%Z; [discriminate|].
  destruct (Js.ltb _ _); [discriminate|].
  destruct (TournamentService.findParticipant _ _); [discriminate|].
  injection Hjoin as Htournament _ Hjoined. subst tournament joined.
  pose proof Hfind as Hid.
  apply list_find_Some in Hid as (_ & Hid & _).
  eapply join_refused_when_listed.
  - eapply findTournament_after_update; [exact Hfind | exact Hid].
  - cbn. apply elem_of_app. right. apply list_elem_of_singleton. reflexivity.
  - cbn. symmetry. exact Huser.
Qed.

Lemma C8_second_join_rejected_witness :
  exists error,
    TournamentService.joinTournament "t1"
      (Sample.portfolio 900 [])
      [ Tournament.mk "t1" "Daily Meme Masters" "24 hours" 7200000 93600000
          (0 + 100) 100 100 (0 + 1) Tournament.upcoming []
          [ TournamentParticipant.mk "user_0001" "Player_0001" 0 (0 + 1) 0 0 ] ]
    = (TournamentService.JoinError error,
       [ Tournament.mk "t1" "Daily Meme Masters" "24 hours" 7200000 93600000
           (0 + 100) 100 100 (0 + 1) Tournament.upcoming []
           [ TournamentParticipant.mk "user_0001" "Player_0001" 0 (0 + 1) 0 0 ] ]).
Proof.
  eapply (C8_second_join_rejected "t1" (Sample.portfolio 1000 [])
            (Sample.portfolio 900 []) [openTournament]).
  - reflexivity.
  - reflexivity.
Defined.

(** The four fractions pay out no more than the pool. *)
Lemma prizes_within_pool (pool : Q) :
  inject_Z (total (TournamentService.prizesOf pool)) <= pool.
Proof.
  unfold TournamentService.prizesOf, TOURNAMENT_CONFIG.PRIZE_DISTRIBUTION, total.
  cbn [map foldr]. rewrite !inject_Z_plus.
  pose proof (Js_floor_le (pool * 0.5)).
  pose proof (Js_floor_le (pool * 0.25)).
  pose proof (Js_floor_le (pool * 0.15)).
  pose proof (Js_floor_le (pool * 0.1)).
  change (inject_Z 0) with 0. lra.
Qed.

(** In a list sorted by descending points, whoever stands in the first [k]
    places has at least the points of whoever stands after them. *)
Lemma sorted_prefix_dominates (board : list TournamentParticipant.t) (k : nat) w x :
  StronglySorted byPointsDesc board ->
  w ∈ take k board -> x ∈ drop k board ->
  (TournamentParticipant.points x <= TournamentParticipant.points w)%Z.
Proof.
  intros Hsorted. revert k. induction Hsorted as [|first rest Hrest IH Hfirst];
    intros k Hw Hx.
  - rewrite take_nil in Hw. inversion Hw.
  - destruct k as [|k]; [inversion Hw|].
    cbn in Hw, Hx. apply elem_of_cons in Hw as [-> | Hw].
    + rewrite Forall_forall in Hfirst. apply Hfirst.
      exact (subseteq_drop k rest x Hx).
    + eapply IH; eassumption.
Qed.

(** C10. Ending an active tournament: each prize is
    [floor(prizePool * fraction)] over the fractions 0.5, 0.25, 0.15, 0.1;
    the prizes sum to at most the prize pool; and the winners are the first
    four entries (all of them when there are fewer) of the leaderboard
    ordered by descending points, so that no entry left out has more points
    than a winner.  The ordering is the stable one: participants with equal
    points keep the order they had on the leaderboard, and a leaderboard
    that is ordered already (as every scoring leaves it, and as the joins
    leave it while all stand at 0) yields its first four entries as they
    stand. *)
Theorem C10_prizes_and_winners (now : Z) (tournamentId : string)
    (tournaments : list Tournament.t) (i : nat) (tournament : Tournament.t) :
  TournamentService.findTournament tournamentId tournaments = Some (i, tournament) ->
  Tournament.status tournament = Tournament.active ->
  let result := (TournamentService.endTournament now tournamentId tournaments).1 in
  let pool := Tournament.prizePool tournament in
  let final := Js.sort byPointsDesc (Tournament.leaderboard tournament) in
  TournamentService.prizes result
  = [ Js.floor (pool * 0.5); Js.floor (pool * 0.25);
      Js.floor (pool * 0.15); Js.floor (pool * 0.1) ]
  /\ inject_Z (total (TournamentService.prizes result)) <= pool
  /\ TournamentService.winners result = take 4 final
  /\ length (TournamentService.winners result)
     = Nat.min 4 (length (Tournament.leaderboard tournament))
  /\ TournamentService.winners result ++ drop 4 final
     ≡ₚ Tournament.leaderboard tournament
  /\ (forall w x, w ∈ TournamentService.winners result -> x ∈ drop 4 final ->
        (TournamentParticipant.points x <= TournamentParticipant.points w)%Z)
  /\ StronglySorted byPointsDesc final
  /\ (forall points : Z,
        filter (fun p => TournamentParticipant.points p = points) final
        = filter (fun p => TournamentParticipant.points p = points)
                 (Tournament.leaderboard tournament))
  /\ (StronglySorted byPointsDesc (Tournament.leaderboard tournament) ->
      TournamentService.winners result = take 4 (Tournament.leaderboard tournament)).
Proof.
  intros Hfind Hactive result pool final.
  assert (Hresult : result
                    = TournamentService.mkSettlement (take 4 final)
                        (TournamentService.prizesOf pool)).
  { unfold result, TournamentService.endTournament. rewrite Hfind, Hactive.
    reflexivity. }
  assert (Hsorted : StronglySorted byPointsDesc final)
    by (apply Js_sort_sorted; apply _).
  rewrite Hresult. cbn [TournamentService.winners TournamentService.prizes].
  split; [reflexivity|].
  split; [apply (prizes_within_pool pool)|].
  split; [reflexivity|].
  split.
  { rewrite length_take. unfold final.
    rewrite (Permutation_length (Js_sort_Permutation byPointsDesc _)). reflexivity. }
  split.
  { rewrite take_drop. apply Js_sort_Permutation. }
  split.
  { intros w x Hw Hx.
    eapply (sorted_prefix_dominates final 4); [exact Hsorted|exact Hw|exact Hx]. }
  split; [exact Hsorted|].
  split.
  { intros points. apply Js_sort_stable.
    intros a b Ha Hb. unfold byPointsDesc. lia. }
  intros Hordered. unfold final.
  rewrite (Js_sort_of_sorted byPointsDesc _ Hordered). reflexivity.
Qed.

Lemma C10_prizes_and_winners_witness :
  let result := (TournamentService.endTournament 90000000 "cup" cupService).1 in
  Tournament.prizePool cupTournament == 500
  /\ map TournamentParticipant.userId (Tournament.leaderboard cupTournament)
     = ["d"; "b"; "a"; "e"; "c"]
  /\ map TournamentParticipant.points (Tournament.leaderboard cupTournament)
     = [15; 10; 0; 0; -2]%Z
  /\ TournamentService.prizes result = [250; 125; 75; 50]%Z
  /\ map TournamentParticipant.userId (TournamentService.winners result)
     = ["d"; "b"; "a"; "e"].
Proof.
  destruct (C10_prizes_and_winners 90000000 "cup" cupService 0 cupTournament)
    as (Hprizes & _ & Hwinners & _).
  - vm_compute. reflexivity.
  - vm_compute. reflexivity.
  - split; [vm_compute; reflexivity|].
    split; [vm_compute; reflexivity|].
    split; [vm_compute; reflexivity|].
    split; [rewrite Hprizes | rewrite Hwinners]; vm_compute; reflexivity.
Defined.

(* ================================================================= *)
(** ** Bet placement *)

(** Without a quote for the post the form returns at once. *)
Lemma placeBet_without_quote now hour freshId post f g :
  GameState.marketData g !! RedditPost.id post = None ->
  MarketView.placeBet now hour freshId post f g = (MarketView.Ignored, g).
Proof.
  intros Hquote. unfold MarketView.placeBet, PostCard.handleBet.
  rewrite Hquote. reflexivity.
Qed.

Lemma placeBet_below_minimum now hour freshId post f g quote :
  PostCard.betAmount f < GAME_CONFIG.MIN_BET_AMOUNT ->
  GameState.marketData g !! RedditPost.id post = Some quote ->
  MarketView.placeBet now hour freshId post f g
  = (MarketView.Rejected "Minimum bet is 10 MemeCoins", g).
Proof.
  intros Hlow Hquote. unfold MarketView.placeBet, PostCard.handleBet.
  rewrite Hquote. apply Js_ltb_lt in Hlow. rewrite Hlow. reflexivity.
Qed.

(** C4. Bet validation: a bet of [MIN_BET_AMOUNT - 1] (9 coins) on a quoted
    post is refused with the minimum-bet message, and the game state, hence
    the portfolio with its balance, predictions and experience, is the one
    before the attempt. *)
Theorem C4_bet_below_minimum_rejected (now hour : Z) (freshId : string)
    (post : RedditPost.t) (f : PostCard.form) (g : GameState.t) (quote : MarketData.t) :
  PostCard.betAmount f == GAME_CONFIG.MIN_BET_AMOUNT - 1 ->
  GameState.marketData g !! RedditPost.id post = Some quote ->
  MarketView.placeBet now hour freshId post f g
  = (MarketView.Rejected "Minimum bet is 10 MemeCoins", g).
Proof.
  intros Hamount Hquote. eapply placeBet_below_minimum; [|exact Hquote].
  rewrite Hamount. reflexivity.
Qed.

Lemma C4_bet_below_minimum_rejected_witness :
  MarketView.placeBet 1000 12 "pred_1" (Sample.post "p1" 1000 50 0) lowBet sampleGame
  = (MarketView.Rejected "Minimum bet is 10 MemeCoins", sampleGame).
Proof.
  apply (C4_bet_below_minimum_rejected 1000 12 "pred_1" (Sample.post "p1" 1000 50 0)
           lowBet sampleGame (Sample.quote "p1" 1)).
  - reflexivity.
  - reflexivity.
Defined.

(* ================================================================= *)
(** ** Resolution of a portfolio *)

(** [resolvePredictions] leaves the predictions that are not active as they
    are and draws nothing for them. *)
Lemma settled_predictions_kept now posts (predictions : list Prediction.t) rng :
  Forall (fun p => Prediction.status p <> active) predictions ->
  Rand.mapM (MarketEngine.resolveOne now posts) predictions rng = (predictions, rng).
Proof.
  induction 1 as [|p rest Hp _ IH]; [reflexivity|].
  cbn [Rand.mapM]. unfold Rand.bind at 1. unfold MarketEngine.resolveOne at 1.
  rewrite bool_decide_eq_false_2 by exact Hp. cbn.
  unfold Rand.bind. rewrite IH. reflexivity.
Qed.

(** ... and yet pays the winnings of every won prediction among them, at
    every call. *)
Lemma settled_portfolio_paid_again now portfolio posts rng :
  Forall (fun p => Prediction.status p <> active) (UserPortfolio.predictions portfolio) ->
  let after := (MarketEngine.resolvePredictions now portfolio posts rng).1 in
  UserPortfolio.predictions after = UserPortfolio.predictions portfolio
  /\ UserPortfolio.memeCoins after
     = (foldl MarketEngine.creditWinnings
          (UserPortfolio.memeCoins portfolio, UserPortfolio.experience portfolio)
          (UserPortfolio.predictions portfolio)).1.
Proof.
  intros Hsettled. unfold MarketEngine.resolvePredictions, mbind, rand_bind, Rand.bind.
  rewrite (settled_predictions_kept now posts _ rng Hsettled). cbn. split; reflexivity.
Qed.

(** C1. Resolution idempotence, evaluated on the code: a milestone wager of
    10 coins at odds 2 is won by a first call of [resolvePredictions], which
    brings the balance from 990 to 1010; a second call leaves the
    predictions array as it is but pays the same winnings once more, and the
    balance stands at 1030. *)
Theorem C1_second_resolution_pays_again (rng rng' : Rand.stream) :
  let once := (MarketEngine.resolvePredictions 2000 bettor [hotPost] rng).1 in
  let twice := (MarketEngine.resolvePredictions 3000 once [hotPost] rng').1 in
  map Prediction.status (UserPortfolio.predictions once) = [won]
  /\ UserPortfolio.predictions twice = UserPortfolio.predictions once
  /\ UserPortfolio.memeCoins once == 1010
  /\ UserPortfolio.memeCoins twice == 1030
  /\ ~ UserPortfolio.memeCoins twice == UserPortfolio.memeCoins once.
Proof.
  cbv zeta. repeat split; try reflexivity. intros Heq. vm_compute in Heq. discriminate.
Qed.

(** C2. Resolution before the deadline, evaluated on the code: one second
    after it was placed, a milestone wager with a 24-hour timeframe is
    marked won and paid, because the post already stands above the target;
    and a wager out of reach on a post 101 seconds old is marked lost at
    once, because the expiry test takes the post's creation time in seconds
    for milliseconds.  The prediction engine, asked about the same wagers at
    the same instants, reports no win. *)
Theorem C2_resolved_before_deadline (rng : Rand.stream) (quote : MarketData.t) :
  let early := (MarketEngine.resolvePredictions 2000 bettor [hotPost] rng).1 in
  let expired :=
    (MarketEngine.resolvePredictions (placedAt + 1000)
       (Sample.portfolio 990 [farWager]) [youngPost] rng).1 in
  (2000 < Prediction.created milestoneWager + oneDay)%Z
  /\ map Prediction.status (UserPortfolio.predictions early) = [won]
  /\ UserPortfolio.memeCoins early == UserPortfolio.memeCoins bettor + 10 * 2
  /\ (placedAt + 1000 < Prediction.created farWager + oneDay)%Z
  /\ hoursSince (placedAt + 1000) youngPost < 1
  /\ map Prediction.status (UserPortfolio.predictions expired) = [lost]
  /\ PredictionEngine.resolvePrediction 2000 milestoneWager hotPost quote = Some false
  /\ PredictionEngine.resolvePrediction (placedAt + 1000) farWager youngPost quote
     = Some false.
Proof.
  cbv zeta. repeat split.
Qed.

(** C3. The growth-rate scenario, evaluated on the code.  The wager
    (baseline 100, timeframe LONG, target 50) is placed on a post that is a
    day old, and 24 hours later the post stands at 1300: the growth since
    the baseline is (1300 - 100) / 24 = 50 an hour, and the prediction
    engine's [resolvePrediction] reports a win.  [resolvePredictions], the
    resolution that runs, marks the wager lost and credits nothing: for a
    growth_rate prediction it compares the target with the whole score
    divided by the age of the post (at least one hour), whatever the
    baseline and the timeframe.  Placed on a post that has just been
    created, where the age of the post is the timeframe, the same wager is
    marked won, for 1300 / 24 is within a tenth of 50. *)
Theorem C3_growth_scenario_marked_lost :
  (RedditPost.score growthPost - Prediction.baselineValue laterGrowthWager)
    / inject_Z 24 == 50
  /\ (forall quote,
        PredictionEngine.resolvePrediction (2 * oneDay) laterGrowthWager growthPost quote
        = Some true)
  /\ (forall rng,
        let after :=
          (MarketEngine.resolvePredictions (2 * oneDay)
             (Sample.portfolio 990 [laterGrowthWager]) [growthPost] rng).1 in
        map Prediction.status (UserPortfolio.predictions after) = [lost]
        /\ map Prediction.resolved (UserPortfolio.predictions after)
           = [Some (2 * oneDay)%Z]
        /\ UserPortfolio.memeCoins after == 990)
  /\ (forall now p post rng,
        Prediction.predictionType p = "growth_rate" ->
        (MarketEngine.isWon now p post rng).1
        = Js.leb (Qabs (RedditPost.score post / Qmax 1 (hoursSince now post)
                        - Prediction.targetValue p))
                 (Prediction.targetValue p * 0.1))
  /\ (forall rng,
        map Prediction.status
          (UserPortfolio.predictions
             (MarketEngine.resolvePredictions oneDay
                (Sample.portfolio 990 [growthWager]) [growthPost] rng).1)
        = [won]).
Proof.
  split; [reflexivity|].
  split; [intros quote; reflexivity|].
  split; [intros rng; cbv zeta; split; [reflexivity|split; reflexivity]|].
  split; [|intros rng; reflexivity].
  intros now p post rng Hkind. unfold MarketEngine.isWon. rewrite Hkind.
  reflexivity.
Qed.

(* ================================================================= *)
(** ** Streaks *)

(** The loop runs from the most recent prediction to the oldest, so the
    running counter it ends with is the run at the oldest end: when the
    oldest resolved prediction is a loss, the current win streak is reported
    as 0, whatever the recent wins. *)
Lemma oldest_loss_zeroes_win_streak portfolio newer oldest :
  AnalyticsService.completedPredictions portfolio = newer ++ [oldest] ->
  Prediction.status oldest = lost ->
  AnalyticsService.currentWinStreak (AnalyticsService.calculateStreaks portfolio) = 0%nat.
Proof.
  intros Hcompleted Hlost. unfold AnalyticsService.calculateStreaks.
  rewrite Hcompleted, foldl_snoc.
  assert (Hscan : forall c, AnalyticsService.tempWinStreak (AnalyticsService.scan c oldest) = 0%nat).
  { intros c. unfold AnalyticsService.scan, AnalyticsService.isWonB.
    rewrite bool_decide_eq_false_2 by (rewrite Hlost; discriminate). reflexivity. }
  cbn [AnalyticsService.currentWinStreak].
  destruct (newer ++ [oldest]) as [|mostRecent rest]; [reflexivity|].
  destruct (AnalyticsService.isWonB mostRecent); [apply Hscan | reflexivity].
Qed.

(** C9. Current win streak, evaluated on the code: for a win that follows a
    loss the service reports a current win streak of 0 where counting back
    from the most recent resolved prediction gives 1; for a win, a loss and
    two older wins it reports 2 where the count is 1; and symmetrically a
    loss that follows a win is reported as a current loss streak of 0. *)
Theorem C9_current_streak_counts_oldest_run :
  AnalyticsService.currentWinStreak (AnalyticsService.calculateStreaks winAfterLoss) = 0%nat
  /\ Claimed.currentStreak won winAfterLoss = 1%nat
  /\ AnalyticsService.currentLossStreak (AnalyticsService.calculateStreaks lossAfterWin) = 0%nat
  /\ Claimed.currentStreak lost lossAfterWin = 1%nat
  /\ AnalyticsService.currentWinStreak (AnalyticsService.calculateStreaks winLossWinWin) = 2%nat
  /\ Claimed.currentStreak won winLossWinWin = 1%nat.
Proof. repeat split. Qed.

(* ################################################################# *)
(** * Further properties of the services *)

(* ================================================================= *)
(** ** Staking: moving funds *)

Lemma Js_gtb_gt a b : Js.gtb a b = true <-> b < a.
Proof. unfold Js.gtb. apply Js_ltb_lt. Qed.

Lemma Js_gtb_le a b : Js.gtb a b = false <-> a <= b.
Proof.
  unfold Js.gtb, Js.ltb. rewrite negb_false_iff. apply Qle_bool_iff.
Qed.

Lemma Js_geb_ge a b : Js.geb a b = true <-> b <= a.
Proof. unfold Js.geb. apply Js_leb_le. Qed.

(** [stakeCoins] throws exactly when the amount exceeds the balance;
    otherwise it moves the amount from the balance to the stake, keeps their
    sum and the rewards counter, and restarts the claim clock without paying
    what had accrued: nothing is pending right after. *)
Theorem stake_moves_funds (now : Z) (portfolio : UserPortfolio.t) (amount : Q) :
  match StakingService.stakeCoins now portfolio amount with
  | Throw msg =>
      UserPortfolio.memeCoins portfolio < amount
      /\ msg = "Insufficient MemeCoins to stake"
  | Ok staked =>
      amount <= UserPortfolio.memeCoins portfolio
      /\ UserPortfolio.memeCoins staked == UserPortfolio.memeCoins portfolio - amount
      /\ UserPortfolio.stakedCoins staked == UserPortfolio.stakedCoins portfolio + amount
      /\ UserPortfolio.memeCoins staked + UserPortfolio.stakedCoins staked
         == UserPortfolio.memeCoins portfolio + UserPortfolio.stakedCoins portfolio
      /\ UserPortfolio.stakingRewards staked = UserPortfolio.stakingRewards portfolio
      /\ UserPortfolio.lastStakingClaim staked = now
      /\ StakingService.calculateStakingRewards now staked = 0%Z
  end.
Proof.
  unfold StakingService.stakeCoins.
  destruct (Js.gtb amount (UserPortfolio.memeCoins portfolio)) eqn:Hcmp.
  - apply Js_gtb_gt in Hcmp. split; [exact Hcmp | reflexivity].
  - apply Js_gtb_le in Hcmp. cbn.
    repeat split; try reflexivity; try exact Hcmp; try ring.
    apply staking_no_elapsed_no_reward. reflexivity.
Qed.

(** [unstakeCoins] throws exactly when the amount exceeds the stake;
    otherwise it first pays the pending reward, into the balance and into the
    rewards counter, and then moves the amount back to the balance. *)
Theorem unstake_claims_then_returns (now : Z) (portfolio : UserPortfolio.t) (amount : Q) :
  match StakingService.unstakeCoins now portfolio amount with
  | Throw msg =>
      UserPortfolio.stakedCoins portfolio < amount
      /\ msg = "Insufficient staked coins"
  | Ok unstaked =>
      let reward := inject_Z (StakingService.calculateStakingRewards now portfolio) in
      amount <= UserPortfolio.stakedCoins portfolio
      /\ UserPortfolio.memeCoins unstaked
         == UserPortfolio.memeCoins portfolio + reward + amount
      /\ UserPortfolio.stakedCoins unstaked == UserPortfolio.stakedCoins portfolio - amount
      /\ UserPortfolio.stakingRewards unstaked
         == UserPortfolio.stakingRewards portfolio + reward
      /\ UserPortfolio.lastStakingClaim unstaked = now
  end.
Proof.
  unfold StakingService.unstakeCoins.
  destruct (Js.gtb amount (UserPortfolio.stakedCoins portfolio)) eqn:Hcmp.
  - apply Js_gtb_gt in Hcmp. split; [exact Hcmp | reflexivity].
  - apply Js_gtb_le in Hcmp. cbn.
    repeat split; try reflexivity; try exact Hcmp; ring.
Qed.

(** Staking an amount and taking it back at the same instant restores the
    balance, the stake and the rewards counter. *)
Theorem stake_then_unstake_restores (now : Z) (portfolio : UserPortfolio.t) (amount : Q) :
  amount <= UserPortfolio.memeCoins portfolio ->
  0 <= UserPortfolio.stakedCoins portfolio ->
  exists staked unstaked,
    StakingService.stakeCoins now portfolio amount = Ok staked
    /\ StakingService.unstakeCoins now staked amount = Ok unstaked
    /\ UserPortfolio.memeCoins unstaked == UserPortfolio.memeCoins portfolio
    /\ UserPortfolio.stakedCoins unstaked == UserPortfolio.stakedCoins portfolio
    /\ UserPortfolio.stakingRewards unstaked == UserPortfolio.stakingRewards portfolio.
Proof.
  intros Hfunds Hstake.
  unfold StakingService.stakeCoins.
  rewrite (proj2 (Js_gtb_le _ _) Hfunds).
  eexists. eexists. split; [reflexivity|].
  unfold StakingService.unstakeCoins.
  assert (Hback : Js.gtb amount
                    (UserPortfolio.stakedCoins
                       (UserPortfolio.with_staking
                          (UserPortfolio.memeCoins portfolio - amount)
                          (UserPortfolio.stakedCoins portfolio + amount)
                          (UserPortfolio.stakingRewards portfolio) now portfolio))
                  = false).
  { apply Js_gtb_le. cbn. lra. }
  rewrite Hback. split; [reflexivity|].
  set (staked := UserPortfolio.with_staking _ _ _ now portfolio).
  assert (Hzero : StakingService.calculateStakingRewards now staked = 0%Z)
    by (apply staking_no_elapsed_no_reward; reflexivity).
  cbn. rewrite Hzero. change (inject_Z 0) with 0. cbn.
  repeat split; ring.
Qed.

Lemma stake_then_unstake_restores_witness :
  exists staked unstaked,
    StakingService.stakeCoins 5000 (Sample.portfolio 1000 []) 400 = Ok staked
    /\ StakingService.unstakeCoins 5000 staked 400 = Ok unstaked
    /\ UserPortfolio.memeCoins unstaked == 1000
    /\ UserPortfolio.stakedCoins unstaked == 0
    /\ UserPortfolio.stakingRewards unstaked == 0.
Proof.
  apply (stake_then_unstake_restores 5000 (Sample.portfolio 1000 []) 400).
  - vm_compute. discriminate.
  - vm_compute. discriminate.
Defined.

(* ================================================================= *)
(** ** Staking: tiers and yield *)

Lemma tier_apr_range (amount : Q) :
  5 <= StakingTier.apr (StakingService.getStakingTier amount)
  /\ StakingTier.apr (StakingService.getStakingTier amount) <= 15.
Proof.
  unfold StakingService.getStakingTier, STAKING_TIERS. cbn [List.find].
  repeat (destruct (StakingService.in_tier amount _); [cbn; split; lra|]).
  cbn. split; lra.
Qed.

(** The reward is never negative, is nothing when nothing is staked, and
    never exceeds what the highest rate (15% a year) yields on the stake over
    the time since the last claim. *)
Theorem staking_reward_bounds (now : Z) (portfolio : UserPortfolio.t) :
  0 <= UserPortfolio.stakedCoins portfolio ->
  (UserPortfolio.lastStakingClaim portfolio <= now)%Z ->
  let reward := StakingService.calculateStakingRewards now portfolio in
  let hours :=
    inject_Z (now - UserPortfolio.lastStakingClaim portfolio) / inject_Z (1000 * 60 * 60) in
  (0 <= reward)%Z
  /\ inject_Z reward
     <= UserPortfolio.stakedCoins portfolio * (15 / 100 / 365) * (hours / 24)
  /\ (UserPortfolio.stakedCoins portfolio == 0 -> reward = 0%Z).
Proof.
  intros Hstaked Hclock reward hours.
  assert (Hhours : 0 <= hours).
  { unfold hours. apply Qle_shift_div_l; [reflexivity|].
    rewrite Qmult_0_l. change 0 with (inject_Z 0). rewrite <- Zle_Qle. lia. }
  destruct (tier_apr_range (UserPortfolio.stakedCoins portfolio)) as [Hlow Hhigh].
  unfold reward, StakingService.calculateStakingRewards. fold hours.
  set (apr := StakingTier.apr _) in *.
  set (staked := UserPortfolio.stakedCoins portfolio) in *.
  set (exact := staked * (apr / 100 / 365) * (hours / 24)).
  assert (Hexact : 0 <= exact /\ exact <= staked * (15 / 100 / 365) * (hours / 24)).
  { unfold exact, Qdiv.
    change (/ 100) with (1 # 100). change (/ 365) with (1 # 365).
    change (/ 24) with (1 # 24).
    set (days := hours * (1 # 24)).
    assert (Hdays : 0 <= days) by (unfold days; lra).
    assert (Hyear : 0 <= staked * (apr * (1 # 100) * (1 # 365))
                    /\ staked * (apr * (1 # 100) * (1 # 365))
                       <= staked * (15 * (1 # 100) * (1 # 365)))
      by (split; nra).
    split; nra. }
  destruct Hexact as [Hpos Hcap].
  split; [apply Z.le_max_l|]. split.
  - assert (Hfloor : (0 <= Js.floor exact)%Z).
    { change 0%Z with (Qfloor (inject_Z 0)). apply Qfloor_resp_le. exact Hpos. }
    rewrite Z.max_r by exact Hfloor.
    apply (Qle_trans _ exact); [apply Js_floor_le | exact Hcap].
  - intros Hnone.
    assert (Hzero : exact == inject_Z 0).
    { unfold exact. rewrite Hnone. change (inject_Z 0) with 0. unfold Qdiv. ring. }
    unfold Js.floor. rewrite (Qfloor_comp _ _ Hzero), Qfloor_Z. reflexivity.
Qed.

Lemma staking_reward_bounds_witness :
  (0 <= StakingService.calculateStakingRewards 86400000
          (UserPortfolio.with_staking 0 10000 0 0 (Sample.portfolio 0 [])))%Z
  /\ inject_Z (StakingService.calculateStakingRewards 86400000
                 (UserPortfolio.with_staking 0 10000 0 0 (Sample.portfolio 0 [])))
     <= 10000 * (15 / 100 / 365)
        * (inject_Z (86400000 - 0) / inject_Z (1000 * 60 * 60) / 24)
  /\ (10000 == 0 ->
      StakingService.calculateStakingRewards 86400000
        (UserPortfolio.with_staking 0 10000 0 0 (Sample.portfolio 0 [])) = 0%Z).
Proof.
  apply (staking_reward_bounds 86400000
           (UserPortfolio.with_staking 0 10000 0 0 (Sample.portfolio 0 []))).
  - vm_compute. discriminate.
  - vm_compute. discriminate.
Defined.

Lemma in_tier_whole (n : Z) (tier : StakingTier.t) :
  StakingService.in_tier (inject_Z n) tier = true
  <-> StakingTier.minAmount tier <= inject_Z n
      /\ match StakingTier.maxAmount tier with
         | Some top => inject_Z n <= top
         | None => True
         end.
Proof.
  unfold StakingService.in_tier. rewrite andb_true_iff, Js_geb_ge.
  destruct (StakingTier.maxAmount tier); [rewrite Js_leb_le|]; tauto.
Qed.

(** A whole, non-negative staked amount always falls in a bracket that
    contains it: the fallback to the first tier is not needed. *)
Theorem whole_amount_has_bracket (n : Z) :
  (0 <= n)%Z ->
  StakingService.in_tier (inject_Z n) (StakingService.getStakingTier (inject_Z n)) = true.
Proof.
  intros Hn. unfold StakingService.getStakingTier.
  destruct (List.find (StakingService.in_tier (inject_Z n)) STAKING_TIERS)
    as [tier|] eqn:Hfind.
  - apply find_some in Hfind. apply Hfind.
  - exfalso.
    assert (Hnone : forall tier, In tier STAKING_TIERS ->
                                 StakingService.in_tier (inject_Z n) tier = false)
      by (intros tier; apply (find_none _ _ Hfind)).
    assert (Hcase : (n <= 999 \/ 1000 <= n <= 4999 \/ 5000 <= n <= 9999 \/ 10000 <= n)%Z)
      by lia.
    unfold STAKING_TIERS in Hnone.
    destruct Hcase as [H | [H | [H | H]]].
    + specialize (Hnone (StakingTier.mk 0 (Some 999) 5.0 "Bronze Staker")).
      rewrite <- not_true_iff_false, in_tier_whole in Hnone. apply Hnone; [cbn; tauto|].
      cbn. change 0 with (inject_Z 0). change 999 with (inject_Z 999).
      rewrite <- !Zle_Qle. lia.
    + specialize (Hnone (StakingTier.mk 1000 (Some 4999) 8.5 "Silver Staker")).
      rewrite <- not_true_iff_false, in_tier_whole in Hnone. apply Hnone; [cbn; tauto|].
      cbn. change 1000 with (inject_Z 1000). change 4999 with (inject_Z 4999).
      rewrite <- !Zle_Qle. lia.
    + specialize (Hnone (StakingTier.mk 5000 (Some 9999) 12 "Gold Staker")).
      rewrite <- not_true_iff_false, in_tier_whole in Hnone. apply Hnone; [cbn; tauto|].
      cbn. change 5000 with (inject_Z 5000). change 9999 with (inject_Z 9999).
      rewrite <- !Zle_Qle. lia.
    + specialize (Hnone (StakingTier.mk 10000 None 15 "Diamond Staker")).
      rewrite <- not_true_iff_false, in_tier_whole in Hnone. apply Hnone; [cbn; tauto|].
      cbn. change 10000 with (inject_Z 10000).
      rewrite <- !Zle_Qle. split; [lia | exact I].
Qed.

Lemma whole_amount_has_bracket_witness :
  StakingService.in_tier (inject_Z 4999)
    (StakingService.getStakingTier (inject_Z 4999)) = true.
Proof. apply (whole_amount_has_bracket 4999). lia. Defined.

(** An amount that falls between two brackets, such as 999.5, matches no
    tier and is served by the fallback: it earns the Bronze rate. *)
Theorem amount_between_brackets_is_bronze (amount : Q) :
  (999 < amount /\ amount < 1000) \/ (4999 < amount /\ amount < 5000)
  \/ (9999 < amount /\ amount < 10000) ->
  StakingTier.apr (StakingService.getStakingTier amount) == 5.
Proof.
  intros Hgap. unfold StakingService.getStakingTier, STAKING_TIERS.
  assert (Hout : forall lo top, (amount < lo \/ top < amount) ->
            forall apr name,
              StakingService.in_tier amount (StakingTier.mk lo (Some top) apr name) = false).
  { intros lo top Hside apr name. apply not_true_iff_false. intros Hin.
    unfold StakingService.in_tier in Hin. cbn in Hin.
    apply andb_true_iff in Hin as [Hlo Htop].
    apply Js_geb_ge in Hlo. apply Js_leb_le in Htop. lra. }
  assert (Hdiamond : forall apr name,
            StakingService.in_tier amount (StakingTier.mk 10000 None apr name) = false).
  { intros apr name. apply not_true_iff_false. intros Hin.
    unfold StakingService.in_tier in Hin. cbn in Hin.
    apply andb_true_iff in Hin as [Hlo _]. apply Js_geb_ge in Hlo. lra. }
  cbn [List.find].
  rewrite !Hout, Hdiamond by lra. reflexivity.
Qed.

Lemma amount_between_brackets_is_bronze_witness :
  StakingTier.apr (StakingService.getStakingTier 999.5) == 5.
Proof.
  apply (amount_between_brackets_is_bronze 999.5).
  left. split; vm_compute; reflexivity.
Defined.

(** The countdown shown by [getStakingStats] reaches 0 exactly when
    [canClaimRewards] answers yes. *)
Lemma claim_countdown_agrees (now : Z) (portfolio : UserPortfolio.t) :
  StakingService.canClaimRewards now portfolio = true
  <-> StakingService.timeUntilNextClaim (StakingService.getStakingStats now portfolio) = 0%Z.
Proof.
  unfold StakingService.canClaimRewards, StakingService.getStakingStats. cbn.
  rewrite Z.leb_le. lia.
Qed.

(* ================================================================= *)
(** ** Levels *)

(** The level as a function of the experience thresholds. *)
Lemma calculateLevel_cases (e : Q) :
  (e < 100 /\ calculateLevel e = 1%Z)
  \/ (100 <= e /\ e < 250 /\ calculateLevel e = 2%Z)
  \/ (250 <= e /\ e < 500 /\ calculateLevel e = 3%Z)
  \/ (500 <= e /\ e < 1000 /\ calculateLevel e = 4%Z)
  \/ (1000 <= e /\ e < 2000 /\ calculateLevel e = 5%Z)
  \/ (2000 <= e /\ e < 3500 /\ calculateLevel e = 6%Z)
  \/ (3500 <= e /\ e < 5000 /\ calculateLevel e = 7%Z)
  \/ (5000 <= e /\ e < 7500 /\ calculateLevel e = 8%Z)
  \/ (7500 <= e /\ e < 10000 /\ calculateLevel e = 9%Z)
  \/ (10000 <= e /\ calculateLevel e = 10%Z).
Proof.
  unfold calculateLevel, LEVELS. cbn [rev app List.find fst snd].
  destruct (Js.geb e 10000) eqn:H10; [apply Js_geb_ge in H10; tauto|].
  destruct (Js.geb e 7500) eqn:H9; [apply Js_geb_ge in H9|].
  { apply not_true_iff_false in H10. rewrite Js_geb_ge in H10.
    apply Qnot_le_lt in H10. tauto. }
  destruct (Js.geb e 5000) eqn:H8; [apply Js_geb_ge in H8|].
  { apply not_true_iff_false in H9. rewrite Js_geb_ge in H9.
    apply Qnot_le_lt in H9. tauto. }
  destruct (Js.geb e 3500) eqn:H7; [apply Js_geb_ge in H7|].
  { apply not_true_iff_false in H8. rewrite Js_geb_ge in H8.
    apply Qnot_le_lt in H8. tauto. }
  destruct (Js.geb e 2000) eqn:H6; [apply Js_geb_ge in H6|].
  { apply not_true_iff_false in H7. rewrite Js_geb_ge in H7.
    apply Qnot_le_lt in H7. tauto. }
  destruct (Js.geb e 1000) eqn:H5; [apply Js_geb_ge in H5|].
  { apply not_true_iff_false in H6. rewrite Js_geb_ge in H6.
    apply Qnot_le_lt in H6. tauto. }
  destruct (Js.geb e 500) eqn:H4; [apply Js_geb_ge in H4|].
  { apply not_true_iff_false in H5. rewrite Js_geb_ge in H5.
    apply Qnot_le_lt in H5. tauto. }
  destruct (Js.geb e 250) eqn:H3; [apply Js_geb_ge in H3|].
  { apply not_true_iff_false in H4. rewrite Js_geb_ge in H4.
    apply Qnot_le_lt in H4. tauto. }
  destruct (Js.geb e 100) eqn:H2; [apply Js_geb_ge in H2|].
  { apply not_true_iff_false in H3. rewrite Js_geb_ge in H3.
    apply Qnot_le_lt in H3. tauto. }
  apply not_true_iff_false in H2. rewrite Js_geb_ge in H2. apply Qnot_le_lt in H2.
  left. split; [exact H2|]. destruct (Js.geb e 0); reflexivity.
Qed.

Lemma calculateLevel_ordered (e1 e2 : Q) :
  e1 <= e2 ->
  (1 <= calculateLevel e1 <= calculateLevel e2)%Z /\ (calculateLevel e2 <= 10)%Z.
Proof.
  intros Hle.
  destruct (calculateLevel_cases e1)
    as [H1|[H1|[H1|[H1|[H1|[H1|[H1|[H1|[H1|H1]]]]]]]]];
  destruct (calculateLevel_cases e2)
    as [H2|[H2|[H2|[H2|[H2|[H2|[H2|[H2|[H2|H2]]]]]]]]];
  repeat match goal with H : _ /\ _ |- _ => destruct H end;
  repeat match goal with H : calculateLevel _ = _ |- _ => rewrite H; clear H end;
  first [ lia | exfalso; lra ].
Qed.

(** The level lies between 1 and 10 and never goes down when the experience
    goes up. *)
Theorem calculateLevel_monotone (e1 e2 : Q) :
  e1 <= e2 ->
  (1 <= calculateLevel e1 <= calculateLevel e2)%Z /\ (calculateLevel e2 <= 10)%Z.
Proof. exact (calculateLevel_ordered e1 e2). Qed.

Lemma calculateLevel_monotone_witness :
  (1 <= calculateLevel 99 <= calculateLevel 100)%Z /\ (calculateLevel 100 <= 10)%Z.
Proof. apply (calculateLevel_monotone 99 100). vm_compute. discriminate. Defined.

(* ================================================================= *)
(** ** Odds *)

(** The target value never influences the odds: an unrecognised type gets
    the default, and a recognised one is an upper-case key, which the
    difficulty [switch] on the lower-case ids does not match. *)
Theorem odds_ignore_target (now hour : Z) (post : RedditPost.t) (marketData : MarketData.t)
    (predictionType timeframe : string) (target target' : Q) :
  PredictionEngine.calculateOdds now hour post marketData predictionType target timeframe
  = PredictionEngine.calculateOdds now hour post marketData predictionType target' timeframe.
Proof.
  unfold PredictionEngine.calculateOdds.
  destruct (PREDICTION_TYPES predictionType) as [baseOdds|] eqn:Hkey; [|reflexivity].
  cbv zeta.
  rewrite (recognised_type_default_difficulty _ _ post target _ Hkey).
  rewrite (recognised_type_default_difficulty _ _ post target' _ Hkey).
  reflexivity.
Qed.

(** Each of the five prediction types the bet form offers is passed by its
    lower-case id, which is not a key of [PREDICTION_TYPES]: the odds are
    2.0 whatever the post, the quote, the target and the timeframe. *)
Theorem form_types_get_default_odds (now hour : Z) (post : RedditPost.t)
    (marketData : MarketData.t) (predictionType timeframe : string) (target : Q) :
  In predictionType
     [ "growth_rate"; "milestone_reach"; "ranking_position"; "engagement_ratio";
       "virality_index" ] ->
  PredictionEngine.calculateOdds now hour post marketData predictionType target timeframe
  = 2.0.
Proof.
  intros Hin. unfold PredictionEngine.calculateOdds.
  cbn in Hin. destruct Hin as [<-|[<-|[<-|[<-|[<-|[]]]]]]; reflexivity.
Qed.

Lemma form_types_get_default_odds_witness :
  PredictionEngine.calculateOdds 0 21 (Sample.post "p1" 5000 900 0)
    (Sample.quote "p1" 3) "virality_index" 120 "SHORT" = 2.0.
Proof.
  apply (form_types_get_default_odds 0 21 (Sample.post "p1" 5000 900 0)
           (Sample.quote "p1" 3) "virality_index" "SHORT" 120).
  cbn. tauto.
Defined.

(** The volatility factor is a product of one tabulated factor per bucket
    and stays within [0.048, 1.08]. *)
Theorem volatility_factor_bounds (conditions : PredictionEngine.Conditions) :
  0.048 <= PredictionEngine.calculateVolatilityFactor conditions
  /\ PredictionEngine.calculateVolatilityFactor conditions <= 1.08.
Proof.
  unfold PredictionEngine.calculateVolatilityFactor, PredictionEngine.postAgeFactor,
    PredictionEngine.rankingFactor.
  destruct (PredictionEngine.timeOfDay conditions);
    repeat match goal with
           | |- context [if ?b then _ else _] => destruct b
           end;
    split; vm_compute; discriminate.
Qed.

(* ================================================================= *)
(** ** The two resolution rules *)

(** The prediction engine never reports a win before the deadline, whatever
    the post and the quote show, nor for a prediction whose type is not one
    of the five it knows, however late. *)
Theorem engine_never_wins_early_or_unknown (now : Z) (p : Prediction.t)
    (post : RedditPost.t) (md : MarketData.t) (tf : Z * Q) :
  PREDICTION_TIMEFRAMES (Prediction.timeframe p) = Some tf ->
  (now < Prediction.created p + fst tf * 60 * 60 * 1000)%Z
  \/ ~ In (Prediction.predictionType p)
         [ "growth_rate"; "milestone_reach"; "ranking_position"; "engagement_ratio";
           "virality_index" ] ->
  PredictionEngine.resolvePrediction now p post md = Some false.
Proof.
  intros Htf Hcase. unfold PredictionEngine.resolvePrediction. rewrite Htf.
  destruct (Z.ltb_spec now (Prediction.created p + fst tf * 60 * 60 * 1000)) as [_|Hlate];
    [reflexivity|].
  destruct Hcase as [Hearly|Hunknown]; [lia|].
  repeat match goal with
         | |- context [String.eqb (Prediction.predictionType p) ?k] =>
             destruct (String.eqb_spec (Prediction.predictionType p) k) as [Heq|_];
             [exfalso; apply Hunknown; rewrite Heq; cbn; tauto|]
         end.
  reflexivity.
Qed.

Lemma engine_never_wins_early_or_unknown_witness :
  PredictionEngine.resolvePrediction 2000 milestoneWager hotPost (Sample.quote "p1" 1)
  = Some false.
Proof.
  apply (engine_never_wins_early_or_unknown 2000 milestoneWager hotPost
           (Sample.quote "p1" 1) (24%Z, 1)).
  - reflexivity.
  - left. vm_compute. reflexivity.
Defined.

(** Past the deadline, the prediction engine's verdict is the verdict that
    [MarketEngine.resolvePrediction] gives on the value the engine measures:
    the two share the win rule of each type, with its tolerance. *)
Theorem engine_verdict_is_market_rule (now : Z) (p : Prediction.t) (post : RedditPost.t)
    (md : MarketData.t) (tf : Z * Q) (actual : Q) :
  PREDICTION_TIMEFRAMES (Prediction.timeframe p) = Some tf ->
  (Prediction.created p + fst tf * 60 * 60 * 1000 <= now)%Z ->
  measuredValue now p post md = Some actual ->
  PredictionEngine.resolvePrediction now p post md
  = Some (MarketEngine.resolvePrediction p actual).
Proof.
  intros Htf Hdue Hactual.
  unfold PredictionEngine.resolvePrediction, MarketEngine.resolvePrediction,
    measuredValue in *.
  rewrite Htf in *. apply Z.ltb_ge in Hdue. rewrite Hdue.
  repeat match goal with
         | |- context [String.eqb (Prediction.predictionType p) ?k] =>
             destruct (String.eqb (Prediction.predictionType p) k)
         end;
    try (injection Hactual as <-; reflexivity); try discriminate.
  unfold PredictionEngine.rankingIs. rewrite Hactual. reflexivity.
Qed.

Lemma engine_verdict_is_market_rule_witness :
  PredictionEngine.resolvePrediction oneDay growthWager growthPost (Sample.quote "p1" 1)
  = Some (MarketEngine.resolvePrediction growthWager ((1300 - 100) / inject_Z 24)).
Proof.
  apply (engine_verdict_is_market_rule oneDay growthWager growthPost
           (Sample.quote "p1" 1) (24%Z, 1)).
  - reflexivity.
  - vm_compute. discriminate.
  - reflexivity.
Defined.

(* ================================================================= *)
(** ** The market tick *)

Lemma updatePostPrice_unknown now postId engine rng :
  MarketEngine.marketData engine !! postId = None ->
  MarketEngine.updatePostPrice now postId engine rng = (engine, rng).
Proof.
  intros Hnone. unfold MarketEngine.updatePostPrice. rewrite Hnone. reflexivity.
Qed.

Lemma updatePostPrice_known now postId engine rng currentData :
  MarketEngine.marketData engine !! postId = Some currentData ->
  MarketEngine.updatePostPrice now postId engine rng
  = (MarketEngine.mk
       (<[postId := tickQuote now (MarketEngine.sectorInfluence engine) currentData
                      (rng 0%nat) (rng 1%nat) (rng 2%nat) (rng 3%nat) (rng 4%nat)]>
          (MarketEngine.marketData engine))
       (MarketEngine.sectors engine) (MarketEngine.currentSector engine),
     after 5 rng).
Proof.
  intros Hsome. unfold MarketEngine.updatePostPrice. rewrite Hsome. reflexivity.
Qed.

Lemma Js_round_near (y : Q) :
  inject_Z (Js.round y) <= y + (1 # 2) /\ y - (1 # 2) < inject_Z (Js.round y).
Proof.
  unfold Js.round. split.
  - apply Qfloor_le.
  - pose proof (Qlt_floor (y + (1 # 2))) as Hlt.
    rewrite inject_Z_plus in Hlt. change (inject_Z 1) with 1 in Hlt. lra.
Qed.

(** What a tick does to one quote: the old price becomes the previous
    price, the clock is stamped, and the new price is the old one moved by
    at most 50%, up to the rounding to cents. *)
Lemma tickQuote_moves_within_half now influence q r1 r2 r3 r4 r5 :
  let q' := tickQuote now influence q r1 r2 r3 r4 r5 in
  MarketData.postId q' = MarketData.postId q
  /\ MarketData.previousPrice q' = MarketData.currentPrice q
  /\ MarketData.lastUpdated q' = now
  /\ (GAME_CONFIG.MIN_PRICE <= MarketData.currentPrice q ->
      0.5 * MarketData.currentPrice q - 0.005 <= MarketData.currentPrice q'
      /\ MarketData.currentPrice q' <= 1.5 * MarketData.currentPrice q + 0.005).
Proof.
  cbv zeta. unfold tickQuote. cbn [MarketData.postId MarketData.previousPrice
    MarketData.lastUpdated MarketData.currentPrice].
  split; [reflexivity|]. split; [reflexivity|]. split; [reflexivity|].
  intros Hprev.
  set (prev := MarketData.currentPrice q) in *.
  set (change := Qmax (- GAME_CONFIG.MAX_PRICE_CHANGE_PERCENT) _).
  assert (Hchange : - (1 # 2) <= change /\ change <= 1 # 2).
  { unfold change, GAME_CONFIG.MAX_PRICE_CHANGE_PERCENT. split.
    - eapply Qle_trans; [|apply Q.le_max_l]. lra.
    - apply Q.max_lub; [lra |]. eapply Qle_trans; [apply Q.le_min_l | lra]. }
  set (newPrice := Qmax GAME_CONFIG.MIN_PRICE (prev * (1 + change))).
  assert (Hnew : (1 # 2) * prev <= newPrice /\ newPrice <= (3 # 2) * prev).
  { unfold GAME_CONFIG.MIN_PRICE in Hprev. split.
    - apply (Qle_trans _ (prev * (1 + change))); [nra | apply Q.le_max_r].
    - apply Q.max_lub; [unfold GAME_CONFIG.MIN_PRICE; lra | nra]. }
  destruct (Js_round_near (newPrice * 100)) as [Hup Hdown].
  set (cents := Js.round _) in *.
  split.
  - apply Qle_shift_div_l; [reflexivity|]. lra.
  - apply Qle_shift_div_r; [reflexivity|]. lra.
Qed.

(** The loop over the keys visits each tracked quote once. *)
Lemma forEachKey_each_quote now (keys : list string) :
  NoDup keys ->
  forall engine rng,
    let engine' := (MarketEngine.forEachKey (MarketEngine.updatePostPrice now) keys
                      engine rng).1 in
    MarketEngine.sectors engine' = MarketEngine.sectors engine
    /\ MarketEngine.currentSector engine' = MarketEngine.currentSector engine
    /\ forall postId,
         (postId ∉ keys ->
          MarketEngine.marketData engine' !! postId
          = MarketEngine.marketData engine !! postId)
         /\ (MarketEngine.marketData engine !! postId = None ->
             MarketEngine.marketData engine' !! postId = None)
         /\ (postId ∈ keys ->
             forall q, MarketEngine.marketData engine !! postId = Some q ->
             exists r1 r2 r3 r4 r5,
               MarketEngine.marketData engine' !! postId
               = Some (tickQuote now (MarketEngine.sectorInfluence engine) q
                         r1 r2 r3 r4 r5)).
Proof.
  induction 1 as [|k rest Hfresh Hnodup IH]; intros engine rng.
  - cbn. repeat split; try reflexivity; try tauto. intros Hin. inversion Hin.
  - cbn [MarketEngine.forEachKey]. unfold mbind, rand_bind, Rand.bind.
    destruct (MarketEngine.marketData engine !! k) as [qk|] eqn:Hk.
    + rewrite (updatePostPrice_known now k engine rng qk Hk).
      set (stepped := MarketEngine.mk _ _ _).
      specialize (IH stepped (after 5 rng)). cbv zeta in IH.
      destruct IH as (Hsec & Hcur & Hquotes).
      split; [exact Hsec|]. split; [exact Hcur|].
      intros postId. destruct (Hquotes postId) as (Hout & Hnone & Hin).
      split; [|split].
      * intros Hnot. apply not_elem_of_cons in Hnot as [Hne Hnot].
        rewrite (Hout Hnot). unfold stepped. cbn.
        apply lookup_insert_ne. congruence.
      * intros Habsent. apply Hnone. unfold stepped. cbn.
        rewrite lookup_insert_ne by congruence. exact Habsent.
      * intros Hmem q Hq. apply elem_of_cons in Hmem as [-> | Hmem].
        -- rewrite (Hout Hfresh). unfold stepped. cbn.
           rewrite lookup_insert_eq. rewrite Hk in Hq. injection Hq as <-. eauto 6.
        -- assert (Hne : k <> postId) by (intros ->; contradiction).
           apply (Hin Hmem q). unfold stepped. cbn.
           rewrite lookup_insert_ne by exact Hne. exact Hq.
    + rewrite (updatePostPrice_unknown now k engine rng Hk).
      specialize (IH engine rng). cbv zeta in IH.
      destruct IH as (Hsec & Hcur & Hquotes).
      split; [exact Hsec|]. split; [exact Hcur|].
      intros postId. destruct (Hquotes postId) as (Hout & Hnone & Hin).
      split; [|split].
      * intros Hnot. apply not_elem_of_cons in Hnot as [_ Hnot]. exact (Hout Hnot).
      * exact Hnone.
      * intros Hmem q Hq. apply elem_of_cons in Hmem as [-> | Hmem].
        -- congruence.
        -- exact (Hin Hmem q Hq).
Qed.

(** The market tick keeps the set of tracked posts and the sectors, and it
    renews every quote: the old price becomes the previous price, the time of
    update is the tick's, and the new price is within 50% of the old one, up
    to the half cent of rounding. *)
Theorem tick_renews_every_quote (now : Z) (engine : MarketEngine.t) (rng : Rand.stream) :
  let engine' := (MarketEngine.updateAllPrices now engine rng).1 in
  dom (MarketEngine.marketData engine') = dom (MarketEngine.marketData engine)
  /\ MarketEngine.currentSector engine' = MarketEngine.currentSector engine
  /\ forall postId q,
       MarketEngine.marketData engine !! postId = Some q ->
       exists q',
         MarketEngine.marketData engine' !! postId = Some q'
         /\ MarketData.previousPrice q' = MarketData.currentPrice q
         /\ MarketData.lastUpdated q' = now
         /\ (GAME_CONFIG.MIN_PRICE <= MarketData.currentPrice q ->
             0.5 * MarketData.currentPrice q - 0.005 <= MarketData.currentPrice q'
             /\ MarketData.currentPrice q' <= 1.5 * MarketData.currentPrice q + 0.005).
Proof.
  intros engine'.
  assert (Hnodup : NoDup (MarketEngine.keys engine))
    by apply NoDup_fst_map_to_list.
  destruct (forEachKey_each_quote now (MarketEngine.keys engine) Hnodup engine rng)
    as (_ & Hcur & Hquotes).
  fold (MarketEngine.updateAllPrices now engine rng) in Hcur, Hquotes.
  fold engine' in Hcur, Hquotes.
  assert (Hkeys : forall postId q, MarketEngine.marketData engine !! postId = Some q ->
                                   postId ∈ MarketEngine.keys engine).
  { intros postId q Hq. unfold MarketEngine.keys. apply list_elem_of_fmap.
    exists (postId, q). split; [reflexivity|]. apply elem_of_map_to_list. exact Hq. }
  split; [|split; [exact Hcur|]].
  - apply set_eq. intros postId. rewrite !elem_of_dom.
    destruct (Hquotes postId) as (_ & Hnone & Hin). split.
    + intros [q' Hq']. destruct (MarketEngine.marketData engine !! postId) eqn:Hq; [eauto|].
      rewrite (Hnone eq_refl) in Hq'. discriminate.
    + intros [q Hq]. destruct (Hin (Hkeys _ _ Hq) q Hq) as (r1 & r2 & r3 & r4 & r5 & Hq').
      eauto.
  - intros postId q Hq. destruct (Hquotes postId) as (_ & _ & Hin).
    destruct (Hin (Hkeys _ _ Hq) q Hq) as (r1 & r2 & r3 & r4 & r5 & Hq').
    eexists. split; [exact Hq'|].
    destruct (tickQuote_moves_within_half now (MarketEngine.sectorInfluence engine)
                q r1 r2 r3 r4 r5) as (_ & Hprev & Hstamp & Hbounds).
    repeat split; try assumption; apply Hbounds; assumption.
Qed.

Lemma tick_renews_every_quote_witness :
  exists q',
    MarketEngine.marketData
      (MarketEngine.updateAllPrices 31000 quotedEngine (Rand.const 0.5)).1 !! "p1"
    = Some q'
    /\ MarketData.previousPrice q' = 2.29
    /\ MarketData.lastUpdated q' = 31000%Z
    /\ 0.5 * 2.29 - 0.005 <= MarketData.currentPrice q'
    /\ MarketData.currentPrice q' <= 1.5 * 2.29 + 0.005.
Proof.
  destruct (tick_renews_every_quote 31000 quotedEngine (Rand.const 0.5))
    as (_ & _ & Hquotes).
  destruct (Hquotes "p1" freshQuote) as (q' & Hq' & Hprev & Hstamp & Hbounds).
  - vm_compute. reflexivity.
  - exists q'. split; [exact Hq'|]. split; [exact Hprev|]. split; [exact Hstamp|].
    apply Hbounds. vm_compute. discriminate.
Defined.

(* ================================================================= *)
(** ** Creating a quote *)

(** For a post whose id and lower-case subreddit name are no names of
    members of [Object.prototype], [initializePostMarket] files the quote it
    returns under the post's id: a stable quote at a price of at least
    [MIN_PRICE], with no change and no ranking yet, replacing whatever quote
    the post had; the other quotes are left alone. *)
Theorem initializePostMarket_files_quote (ln : Q -> Q) (now : Z) (post : RedditPost.t)
    (engine : MarketEngine.t) (rng : Rand.stream) :
  MarketEngine.plainPost post = true ->
  let data := (MarketEngine.initializePostMarket ln now post engine rng).1.1 in
  let engine' := (MarketEngine.initializePostMarket ln now post engine rng).1.2 in
  MarketEngine.getMarketData (RedditPost.id post) engine' = Some data
  /\ MarketData.postId data = RedditPost.id post
  /\ MarketData.previousPrice data = MarketData.currentPrice data
  /\ GAME_CONFIG.MIN_PRICE <= MarketData.currentPrice data
  /\ MarketData.changePercent data = 0
  /\ MarketData.trend data = stable
  /\ MarketData.lastUpdated data = now
  /\ MarketData.ranking data = None
  /\ (forall other, other <> RedditPost.id post ->
        MarketEngine.getMarketData other engine'
        = MarketEngine.getMarketData other engine)
  /\ MarketEngine.currentSector engine' = MarketEngine.currentSector engine.
Proof.
  intros _. cbv zeta. unfold MarketEngine.getMarketData. cbn.
  split; [apply lookup_insert_eq|].
  do 2 (split; [reflexivity|]).
  split; [apply Q.le_max_l|].
  do 4 (split; [reflexivity|]).
  split; [|reflexivity].
  intros other Hother. apply lookup_insert_ne. congruence.
Qed.

Lemma initializePostMarket_files_quote_witness :
  let filed :=
    (MarketEngine.initializePostMarket lnApprox 3600000 catPost (MarketEngine.create 0)
       (Rand.const 0.5)).1 in
  MarketEngine.getMarketData "p7" filed.2 = Some filed.1
  /\ GAME_CONFIG.MIN_PRICE <= MarketData.currentPrice filed.1
  /\ MarketEngine.getMarketData "p9" filed.2
     = MarketEngine.getMarketData "p9" (MarketEngine.create 0).
Proof.
  destruct (initializePostMarket_files_quote lnApprox 3600000 catPost
              (MarketEngine.create 0) (Rand.const 0.5))
    as (Hfiled & _ & _ & Hfloor & _ & _ & _ & _ & Hothers & _).
  - reflexivity.
  - split; [exact Hfiled|]. split; [exact Hfloor|].
    apply Hothers. discriminate.
Defined.

(* ================================================================= *)
(** ** Shock events *)

Lemma applyImpact_at now impact postId (quotes : gmap string MarketData.t) :
  MarketEngine.applyImpact now impact postId quotes !! postId
  = shockQuote now impact <$> quotes !! postId.
Proof.
  unfold MarketEngine.applyImpact.
  destruct (quotes !! postId) as [data|] eqn:Hq; cbn.
  - rewrite lookup_insert_eq. reflexivity.
  - exact Hq.
Qed.

Lemma applyImpact_elsewhere now impact postId other (quotes : gmap string MarketData.t) :
  other <> postId ->
  MarketEngine.applyImpact now impact postId quotes !! other = quotes !! other.
Proof.
  intros Hne. unfold MarketEngine.applyImpact.
  destruct (quotes !! postId); [|reflexivity].
  apply lookup_insert_ne. congruence.
Qed.

Lemma shock_loop_each_quote now impact (keys : list string) :
  NoDup keys ->
  forall (quotes : gmap string MarketData.t) postId,
    foldl (fun qs k => MarketEngine.applyImpact now impact k qs) quotes keys !! postId
    = if bool_decide (postId ∈ keys)
      then shockQuote now impact <$> quotes !! postId
      else quotes !! postId.
Proof.
  induction 1 as [|k rest Hfresh Hnodup IH]; intros quotes postId.
  - cbn. rewrite bool_decide_eq_false_2 by (intros Hin; inversion Hin). reflexivity.
  - cbn [foldl]. rewrite IH.
    destruct (decide (postId = k)) as [->|Hne].
    + rewrite (bool_decide_eq_false_2 _ Hfresh).
      rewrite bool_decide_eq_true_2 by (apply elem_of_cons; tauto).
      apply applyImpact_at.
    + rewrite (applyImpact_elsewhere now impact k postId quotes Hne).
      destruct (decide (postId ∈ rest)) as [Hin|Hout].
      * rewrite !bool_decide_eq_true_2; [reflexivity | apply elem_of_cons; tauto | exact Hin].
      * rewrite !bool_decide_eq_false_2; [reflexivity | | exact Hout].
        intros Hin. apply elem_of_cons in Hin. tauto.
Qed.

(** A shock event reprices every tracked quote once, by -30% for a crash
    and +20% for a boom, floored at 0.01 and not rounded; the old price
    becomes the previous price, volume and ranking stay, and no quote is
    added or dropped.  A crash lowers every price above the floor; a boom
    raises every positive price. *)
Theorem shock_reprices_every_quote (now : Z) (eventType : MarketEvent.kind)
    (engine : MarketEngine.t) :
  let event := (MarketEngine.triggerMarketEvent now eventType engine).1 in
  let engine' := (MarketEngine.triggerMarketEvent now eventType engine).2 in
  let impact := match eventType with MarketEvent.crash => -0.3 | MarketEvent.boom => 0.2 end in
  MarketEvent.impact event = impact
  /\ MarketEvent.duration event = 300000%Z
  /\ (forall postId,
        MarketEngine.marketData engine' !! postId
        = shockQuote now impact <$> MarketEngine.marketData engine !! postId)
  /\ (forall q, MarketData.currentPrice (shockQuote now impact q)
                = Qmax 0.01 (MarketData.currentPrice q * (1 + impact))
                /\ MarketData.previousPrice (shockQuote now impact q)
                   = MarketData.currentPrice q
                /\ MarketData.volume (shockQuote now impact q) = MarketData.volume q
                /\ MarketData.ranking (shockQuote now impact q) = MarketData.ranking q)
  /\ (forall q, 0.01 < MarketData.currentPrice q ->
        match eventType with
        | MarketEvent.crash =>
            MarketData.currentPrice (shockQuote now impact q) < MarketData.currentPrice q
        | MarketEvent.boom =>
            MarketData.currentPrice q < MarketData.currentPrice (shockQuote now impact q)
        end).
Proof.
  intros event engine' impact.
  assert (Himpact : MarketEngine.impactOf eventType = impact)
    by (destruct eventType; reflexivity).
  split; [exact Himpact|]. split; [reflexivity|]. split; [|split].
  - intros postId. unfold engine', MarketEngine.triggerMarketEvent.
    cbn [snd MarketEngine.marketData]. rewrite Himpact.
    rewrite (shock_loop_each_quote now impact (MarketEngine.keys engine)
               (NoDup_fst_map_to_list _)).
    destruct (MarketEngine.marketData engine !! postId) as [q|] eqn:Hq.
    + rewrite bool_decide_eq_true_2; [reflexivity|].
      unfold MarketEngine.keys. apply list_elem_of_fmap.
      exists (postId, q). split; [reflexivity|]. apply elem_of_map_to_list. exact Hq.
    + destruct (bool_decide _); reflexivity.
  - intros q. repeat split.
  - intros q Hq. cbn [shockQuote MarketData.currentPrice].
    set (price := MarketData.currentPrice q) in *.
    destruct eventType; unfold impact.
    + apply Q.max_lub_lt; lra.
    + eapply Qlt_le_trans; [|apply Q.le_max_r]. lra.
Qed.

Lemma shock_reprices_every_quote_witness :
  MarketData.currentPrice (shockQuote 32000 (-0.3) freshQuote)
  < MarketData.currentPrice freshQuote.
Proof.
  apply (shock_reprices_every_quote 32000 MarketEvent.crash quotedEngine).
  vm_compute. reflexivity.
Defined.

(* ================================================================= *)
(** ** Sector rotation *)

(** With distinct sector ids, [rotateSector] moves from the current sector,
    at position [i], to the sector at position [(i + 1) mod n], wrapping
    round at the end; it gives that sector 24 hours from now, in the array
    as well, and leaves the quotes alone. *)
Theorem rotateSector_steps_cyclically (now : Z) (engine : MarketEngine.t)
    (current : MarketSector.t) (i : nat) (atI next : MarketSector.t) :
  MarketEngine.currentSector engine = Some current ->
  NoDup (map MarketSector.id (MarketEngine.sectors engine)) ->
  MarketEngine.sectors engine !! i = Some atI ->
  MarketSector.id atI = MarketSector.id current ->
  MarketEngine.sectors engine !! ((i + 1) mod length (MarketEngine.sectors engine))%nat
  = Some next ->
  let renewed :=
    MarketSector.mk (MarketSector.id next) (MarketSector.name next)
      (now + 24 * 60 * 60 * 1000)%Z (MarketSector.multiplier next) in
  MarketEngine.rotateSector now engine
  = (Some renewed,
     MarketEngine.mk (MarketEngine.marketData engine)
       (<[((i + 1) mod length (MarketEngine.sectors engine))%nat := renewed]>
          (MarketEngine.sectors engine))
       (Some renewed)).
Proof.
  intros Hcur Hnodup Hi Hid Hnext renewed.
  unfold MarketEngine.rotateSector. rewrite Hcur.
  assert (Hfind : list_find (fun s => MarketSector.id s = MarketSector.id current)
                    (MarketEngine.sectors engine) = Some (i, atI)).
  { apply list_find_Some. split; [exact Hi|]. split; [exact Hid|].
    intros j other Hj Hlt Hsame.
    assert (Heq : j = i).
    { eapply NoDup_lookup; [exact Hnodup| |].
      - rewrite list_lookup_fmap, Hj. reflexivity.
      - rewrite list_lookup_fmap, Hi. cbn. congruence. }
    lia. }
  rewrite Hfind. cbn [fst].
  assert (Hlen : (0 < length (MarketEngine.sectors engine))%nat)
    by (apply lookup_lt_Some in Hi; lia).
  assert (Hindex : Z.to_nat ((Z.of_nat i + 1)
                             mod Z.of_nat (length (MarketEngine.sectors engine)))
                   = ((i + 1) mod length (MarketEngine.sectors engine))%nat).
  { replace (Z.of_nat i + 1)%Z with (Z.of_nat (i + 1)) by lia.
    rewrite <- Nat2Z.inj_mod. apply Nat2Z.id. }
  rewrite Hindex, Hnext. reflexivity.
Qed.

Lemma rotateSector_steps_cyclically_witness :
  MarketEngine.rotateSector 5000
    (MarketEngine.mk ∅ MARKET_SECTORS (last MARKET_SECTORS))
  = (Some (MarketSector.mk "cats" "Cat Memes" (5000 + 24 * 60 * 60 * 1000) 1.2),
     MarketEngine.mk ∅
       (<[((4 + 1) mod length MARKET_SECTORS)%nat :=
            MarketSector.mk "cats" "Cat Memes" (5000 + 24 * 60 * 60 * 1000) 1.2]>
          MARKET_SECTORS)
       (Some (MarketSector.mk "cats" "Cat Memes" (5000 + 24 * 60 * 60 * 1000) 1.2))).
Proof.
  apply (rotateSector_steps_cyclically 5000
           (MarketEngine.mk ∅ MARKET_SECTORS (last MARKET_SECTORS))
           (MarketSector.mk "wtf" "WTF Moments" 0 1.8) 4
           (MarketSector.mk "wtf" "WTF Moments" 0 1.8)
           (MarketSector.mk "cats" "Cat Memes" 0 1.2)).
  - reflexivity.
  - apply (bool_decide_unpack _). vm_compute. exact I.
  - reflexivity.
  - reflexivity.
  - reflexivity.
Defined.

(* ================================================================= *)
(** ** Resolving a portfolio: what may change *)

Lemma mapM_Forall2 {A B} (f : A -> Rand.M B) (R : A -> B -> Prop) :
  (forall a rng, R a (f a rng).1) ->
  forall l rng, Forall2 R l (Rand.mapM f l rng).1.
Proof.
  intros Hf. induction l as [|a l IH]; intros rng; [constructor|].
  cbn [Rand.mapM]. unfold Rand.bind at 1.
  pose proof (Hf a rng) as Ha. destruct (f a rng) as [b rng1].
  unfold Rand.bind. pose proof (IH rng1) as Hl.
  destruct (Rand.mapM f l rng1) as [bs rng2]. cbn. constructor; assumption.
Qed.

Lemma resolveOne_settles now posts p rng :
  settles now posts p (MarketEngine.resolveOne now posts p rng).1.
Proof.
  unfold MarketEngine.resolveOne, settles.
  destruct (bool_decide (Prediction.status p = active)) eqn:Hactive; cbn [negb];
    [|left; reflexivity].
  apply bool_decide_eq_true in Hactive.
  destruct (MarketEngine.findPost (Prediction.postId p) posts) as [post|];
    [|left; reflexivity].
  unfold mbind, rand_bind, Rand.bind.
  destruct (MarketEngine.isWon now p post rng) as [[|] rng1].
  - right. cbn. eauto.
  - destruct (_ <? _)%Z; cbn; [right; eauto | left; reflexivity].
Qed.

Lemma resolvePredictions_shape (now : Z) (portfolio : UserPortfolio.t)
    (posts : list RedditPost.t) (rng : Rand.stream) :
  let after := (MarketEngine.resolvePredictions now portfolio posts rng).1 in
  Forall2 (settles now posts)
          (UserPortfolio.predictions portfolio) (UserPortfolio.predictions after)
  /\ UserPortfolio.level after = calculateLevel (UserPortfolio.experience after)
  /\ UserPortfolio.with_wager (UserPortfolio.memeCoins portfolio)
       (UserPortfolio.predictions portfolio) (UserPortfolio.experience portfolio)
       (UserPortfolio.level portfolio) after
     = portfolio.
Proof.
  intros after. unfold after, MarketEngine.resolvePredictions, mbind, rand_bind, Rand.bind.
  pose proof (mapM_Forall2 (MarketEngine.resolveOne now posts) (settles now posts)
                (resolveOne_settles now posts)
                (UserPortfolio.predictions portfolio) rng) as Hall.
  destruct (Rand.mapM _ _ rng) as [updated rng1]. cbn.
  split; [exact Hall|]. split; [reflexivity|].
  destruct portfolio; reflexivity.
Qed.

(** [resolvePredictions] keeps the predictions in number and order, and a
    prediction that is won, lost or pending, or whose post is not among the
    posts given, comes out as it went in; an active one comes out as it is
    or stamped won or lost at the time of the call.  Only the balance, the
    predictions, the experience and the level of the portfolio can differ. *)
Theorem resolvePredictions_only_settles_active (now : Z) (portfolio : UserPortfolio.t)
    (posts : list RedditPost.t) (rng : Rand.stream) :
  let after := (MarketEngine.resolvePredictions now portfolio posts rng).1 in
  Forall2 (settles now posts)
          (UserPortfolio.predictions portfolio) (UserPortfolio.predictions after)
  /\ UserPortfolio.level after = calculateLevel (UserPortfolio.experience after)
  /\ UserPortfolio.with_wager (UserPortfolio.memeCoins portfolio)
       (UserPortfolio.predictions portfolio) (UserPortfolio.experience portfolio)
       (UserPortfolio.level portfolio) after
     = portfolio.
Proof. exact (resolvePredictions_shape now portfolio posts rng). Qed.

Lemma creditWinnings_grows (predictions : list Prediction.t) :
  Forall (fun p => 0 <= Prediction.betAmount p /\ 0 <= Prediction.odds p) predictions ->
  forall coins xp,
    coins <= (foldl MarketEngine.creditWinnings (coins, xp) predictions).1
    /\ xp <= (foldl MarketEngine.creditWinnings (coins, xp) predictions).2.
Proof.
  induction 1 as [|p rest [Hbet Hodds] _ IH]; intros coins xp; [cbn; split; lra|].
  cbn [foldl]. unfold MarketEngine.creditWinnings at 2 4.
  destruct (bool_decide (Prediction.status p = won)); [|apply IH].
  cbn [fst snd].
  assert (Hwin : 0 <= Prediction.betAmount p * Prediction.odds p) by nra.
  assert (Hxp : 0 <= inject_Z (Js.floor (Prediction.betAmount p * Prediction.odds p * 0.1))).
  { change 0 with (inject_Z 0). rewrite <- Zle_Qle.
    change 0%Z with (Qfloor (inject_Z 0)). apply Qfloor_resp_le.
    change (inject_Z 0) with 0. nra. }
  destruct (IH (coins + Prediction.betAmount p * Prediction.odds p)
               (xp + inject_Z (Js.floor (Prediction.betAmount p * Prediction.odds p * 0.1))))
    as [Hc Hx].
  split; lra.
Qed.

Lemma settles_keeps_stakes now posts (before after : list Prediction.t) :
  Forall2 (settles now posts) before after ->
  Forall (fun p => 0 <= Prediction.betAmount p /\ 0 <= Prediction.odds p) before ->
  Forall (fun p => 0 <= Prediction.betAmount p /\ 0 <= Prediction.odds p) after.
Proof.
  induction 1 as [|p p' rest rest' Hone _ IH]; intros Hsane; [constructor|].
  apply Forall_cons in Hsane as [Hhead Htail].
  constructor; [|exact (IH Htail)].
  destruct Hone as [-> | (_ & _ & [-> | ->])]; exact Hhead.
Qed.

(** With stakes and odds that are not negative, [resolvePredictions] never
    lowers the balance nor the experience, and so never lowers the level. *)
Theorem resolvePredictions_never_debits (now : Z) (portfolio : UserPortfolio.t)
    (posts : list RedditPost.t) (rng : Rand.stream) :
  Forall (fun p => 0 <= Prediction.betAmount p /\ 0 <= Prediction.odds p)
         (UserPortfolio.predictions portfolio) ->
  let after := (MarketEngine.resolvePredictions now portfolio posts rng).1 in
  UserPortfolio.memeCoins portfolio <= UserPortfolio.memeCoins after
  /\ UserPortfolio.experience portfolio <= UserPortfolio.experience after
  /\ (calculateLevel (UserPortfolio.experience portfolio) <= UserPortfolio.level after)%Z.
Proof.
  intros Hsane after.
  destruct (resolvePredictions_shape now portfolio posts rng)
    as (Hsettled & Hlevel & _). fold after in Hsettled, Hlevel.
  assert (Hafter : Forall (fun p => 0 <= Prediction.betAmount p /\ 0 <= Prediction.odds p)
                          (UserPortfolio.predictions after)).
  { exact (settles_keeps_stakes now posts _ _ Hsettled Hsane). }
  assert (Hcoins : UserPortfolio.memeCoins after
                   = (foldl MarketEngine.creditWinnings
                        (UserPortfolio.memeCoins portfolio, UserPortfolio.experience portfolio)
                        (UserPortfolio.predictions after)).1).
  { unfold after, MarketEngine.resolvePredictions, mbind, rand_bind, Rand.bind.
    destruct (Rand.mapM _ _ rng). reflexivity. }
  assert (Hxp : UserPortfolio.experience after
                = (foldl MarketEngine.creditWinnings
                     (UserPortfolio.memeCoins portfolio, UserPortfolio.experience portfolio)
                     (UserPortfolio.predictions after)).2).
  { unfold after, MarketEngine.resolvePredictions, mbind, rand_bind, Rand.bind.
    destruct (Rand.mapM _ _ rng). reflexivity. }
  destruct (creditWinnings_grows _ Hafter (UserPortfolio.memeCoins portfolio)
              (UserPortfolio.experience portfolio)) as [Hc Hx].
  rewrite <- Hcoins in Hc. rewrite <- Hxp in Hx.
  split; [exact Hc|]. split; [exact Hx|].
  rewrite Hlevel. apply calculateLevel_ordered. exact Hx.
Qed.

Lemma resolvePredictions_never_debits_witness :
  UserPortfolio.memeCoins bettor
  <= UserPortfolio.memeCoins
       (MarketEngine.resolvePredictions 2000 bettor [hotPost] (Rand.const 0.5)).1.
Proof.
  apply (resolvePredictions_never_debits 2000 bettor [hotPost] (Rand.const 0.5)).
  repeat constructor; vm_compute; discriminate.
Defined.

(* ================================================================= *)
(** ** Portfolio value and earnings *)

Lemma wins_tally_grows (predictions : list Prediction.t) :
  Forall (fun p => 0 <= Prediction.betAmount p /\ 1 <= Prediction.odds p) predictions ->
  forall wins spent, wins <= (foldl MarketEngine.tally (wins, spent) predictions).1.
Proof.
  induction 1 as [|p rest [Hbet Hodds] _ IH]; intros wins spent; [cbn; lra|].
  cbn [foldl]. unfold MarketEngine.tally at 2. cbn [fst snd].
  eapply Qle_trans; [|apply IH].
  destruct (bool_decide (Prediction.status p = won)); [nra | lra].
Qed.

Lemma active_share_grows (predictions : list Prediction.t) :
  Forall (fun p => 0 <= Prediction.betAmount p /\ 1 <= Prediction.odds p) predictions ->
  forall total,
    total <= foldl (fun total prediction =>
                      if bool_decide (Prediction.status prediction = active)
                      then total + Prediction.betAmount prediction
                                   * Prediction.odds prediction * 0.1
                      else total) total predictions.
Proof.
  induction 1 as [|p rest [Hbet Hodds] _ IH]; intros total; [cbn; lra|].
  cbn [foldl]. eapply Qle_trans; [|apply IH].
  destruct (bool_decide (Prediction.status p = active)); [nra | lra].
Qed.

Lemma won_part_is_tally (predictions : list Prediction.t) :
  forall total wins spent,
    foldl (fun total prediction =>
             if bool_decide (Prediction.status prediction = won)
             then total + Prediction.betAmount prediction
                          * (Prediction.odds prediction - 1)
             else total) total predictions
    == total + ((foldl MarketEngine.tally (wins, spent) predictions).1 - wins).
Proof.
  induction predictions as [|p rest IH]; intros total wins spent; [cbn; ring|].
  cbn [foldl]. set (tallied := MarketEngine.tally (wins, spent) p).
  rewrite (IH _ tallied.1 tallied.2), <- surjective_pairing.
  assert (Hfirst : tallied.1
                   = if bool_decide (Prediction.status p = won)
                     then wins + Prediction.betAmount p * (Prediction.odds p - 1)
                     else wins) by reflexivity.
  rewrite Hfirst. destruct (bool_decide (Prediction.status p = won)); ring.
Qed.

(** With stakes that are not negative and odds of at least 1, the portfolio
    value is at least the balance plus the winnings that the earnings
    summary reports, which are not negative themselves. *)
Theorem portfolio_value_covers_balance (portfolio : UserPortfolio.t) :
  Forall (fun p => 0 <= Prediction.betAmount p /\ 1 <= Prediction.odds p)
         (UserPortfolio.predictions portfolio) ->
  let fromWins := MarketEngine.fromWins (MarketEngine.calculateEarningsSummary portfolio) in
  0 <= fromWins
  /\ UserPortfolio.memeCoins portfolio + fromWins
     <= MarketEngine.calculatePortfolioValue portfolio.
Proof.
  intros Hsane fromWins.
  assert (Hwins : fromWins
                  = (foldl MarketEngine.tally (0, 0) (UserPortfolio.predictions portfolio)).1)
    by reflexivity.
  split.
  - rewrite Hwins. apply (wins_tally_grows _ Hsane).
  - unfold MarketEngine.calculatePortfolioValue.
    rewrite (won_part_is_tally _ _ 0 0), <- Hwins.
    pose proof (active_share_grows _ Hsane (UserPortfolio.memeCoins portfolio)) as Hactive.
    cbv beta in Hactive. lra.
Qed.

Lemma portfolio_value_covers_balance_witness :
  0 <= MarketEngine.fromWins (MarketEngine.calculateEarningsSummary winLossWinWin)
  /\ UserPortfolio.memeCoins winLossWinWin
     + MarketEngine.fromWins (MarketEngine.calculateEarningsSummary winLossWinWin)
     <= MarketEngine.calculatePortfolioValue winLossWinWin.
Proof.
  apply (portfolio_value_covers_balance winLossWinWin).
  repeat constructor; vm_compute; discriminate.
Defined.

(* ================================================================= *)
(** ** Placing a bet: acceptance and refusal *)

Lemma calculateOdds_in_range now hour post quote kind target timeframe :
  1.1 <= PredictionEngine.calculateOdds now hour post quote kind target timeframe
  /\ PredictionEngine.calculateOdds now hour post quote kind target timeframe <= 50.
Proof.
  unfold PredictionEngine.calculateOdds.
  destruct (PREDICTION_TYPES kind); cbv zeta; [apply odds_clamped | split; lra].
Qed.

(** What an accepted bet is and does: the stake lies between the minimum
    and the maximum and within the balance; the balance is debited by the
    stake and stays non-negative; the new prediction is appended, active,
    created now, unresolved, in the bettor's name, with odds in [1.1, 50];
    the experience grows by 5% of the stake, rounded down, and the level
    follows it. *)
Theorem accepted_bet_effects (now hour : Z) (freshId : string) (post : RedditPost.t)
    (f : PostCard.form) (g g' : GameState.t) (prediction : Prediction.t) :
  MarketView.placeBet now hour freshId post f g = (MarketView.Accepted prediction, g') ->
  let before := GameState.userPortfolio g in
  let after := GameState.userPortfolio g' in
  let stake := PostCard.betAmount f in
  (GAME_CONFIG.MIN_BET_AMOUNT <= stake /\ stake <= GAME_CONFIG.MAX_BET_AMOUNT)
  /\ stake <= UserPortfolio.memeCoins before
  /\ UserPortfolio.memeCoins after == UserPortfolio.memeCoins before - stake
  /\ 0 <= UserPortfolio.memeCoins after
  /\ UserPortfolio.predictions after = UserPortfolio.predictions before ++ [prediction]
  /\ Prediction.status prediction = active
  /\ Prediction.created prediction = now
  /\ Prediction.resolved prediction = None
  /\ Prediction.id prediction = freshId
  /\ Prediction.userId prediction = UserPortfolio.userId before
  /\ Prediction.postId prediction = RedditPost.id post
  /\ Prediction.betAmount prediction = stake
  /\ (1.1 <= Prediction.odds prediction /\ Prediction.odds prediction <= 50)
  /\ UserPortfolio.experience after
     == UserPortfolio.experience before + inject_Z (Js.floor (stake * 0.05))
  /\ UserPortfolio.level after = calculateLevel (UserPortfolio.experience after).
Proof.
  intros Hplaced before after stake.
  unfold MarketView.placeBet, PostCard.handleBet in Hplaced.
  destruct (GameState.marketData g !! RedditPost.id post) as [quote|]; [|discriminate].
  destruct (Js.ltb (PostCard.betAmount f) GAME_CONFIG.MIN_BET_AMOUNT) eqn:Hmin;
    [discriminate|].
  destruct (Js.gtb (PostCard.betAmount f) GAME_CONFIG.MAX_BET_AMOUNT) eqn:Hmax;
    [discriminate|].
  destruct (Js.gtb (PostCard.betAmount f)
              (UserPortfolio.memeCoins (GameState.userPortfolio g))) eqn:Hfunds;
    [discriminate|].
  unfold MarketView.handlePlaceBet in Hplaced.
  cbn [PredictionData.betAmount PredictionData.postId] in Hplaced.
  rewrite Hfunds in Hplaced.
  destruct (MarketEngine.findPost (RedditPost.id post) (GameState.trendingPosts g))
    as [found|]; [|discriminate].
  injection Hplaced as <- <-.
  apply not_true_iff_false in Hmin. rewrite Js_ltb_lt in Hmin. apply Qnot_lt_le in Hmin.
  apply Js_gtb_le in Hmax. apply Js_gtb_le in Hfunds.
  fold stake in Hmin, Hmax, Hfunds. fold before in Hfunds.
  unfold after. cbn.
  split; [split; assumption|]. split; [exact Hfunds|].
  split; [reflexivity|]. split; [fold before stake; lra|].
  do 8 (split; [reflexivity|]).
  split; [apply calculateOdds_in_range|].
  split; reflexivity.
Qed.

Lemma accepted_bet_effects_witness :
  UserPortfolio.memeCoins
    (GameState.userPortfolio
       (MarketView.placeBet 1000 12 "pred_9" (Sample.post "p1" 1000 50 0)
          fairBet sampleGame).2)
  == UserPortfolio.memeCoins (GameState.userPortfolio sampleGame) - 100.
Proof.
  eapply (accepted_bet_effects 1000 12 "pred_9" (Sample.post "p1" 1000 50 0)
            fairBet sampleGame).
  reflexivity.
Defined.

(** A bet that is not accepted leaves the game state as it was, and a bet
    beyond the balance is never accepted. *)
Theorem refused_bet_changes_nothing (now hour : Z) (freshId : string)
    (post : RedditPost.t) (f : PostCard.form) (g : GameState.t) :
  let outcome := MarketView.placeBet now hour freshId post f g in
  ((forall prediction, outcome.1 <> MarketView.Accepted prediction) -> outcome.2 = g)
  /\ (UserPortfolio.memeCoins (GameState.userPortfolio g) < PostCard.betAmount f ->
      outcome.2 = g /\ forall prediction, outcome.1 <> MarketView.Accepted prediction).
Proof.
  cbv zeta. unfold MarketView.placeBet, PostCard.handleBet.
  destruct (GameState.marketData g !! RedditPost.id post) as [quote|];
    [|split; [reflexivity | split; [reflexivity | discriminate]]].
  destruct (Js.ltb (PostCard.betAmount f) GAME_CONFIG.MIN_BET_AMOUNT);
    [split; [reflexivity | split; [reflexivity | discriminate]]|].
  destruct (Js.gtb (PostCard.betAmount f) GAME_CONFIG.MAX_BET_AMOUNT);
    [split; [reflexivity | split; [reflexivity | discriminate]]|].
  destruct (Js.gtb (PostCard.betAmount f)
              (UserPortfolio.memeCoins (GameState.userPortfolio g))) eqn:Hfunds;
    [split; [reflexivity | split; [reflexivity | discriminate]]|].
  unfold MarketView.handlePlaceBet.
  cbn [PredictionData.betAmount PredictionData.postId]. rewrite Hfunds.
  destruct (MarketEngine.findPost (RedditPost.id post) (GameState.trendingPosts g))
    as [found|]; [|split; [reflexivity | split; [reflexivity | discriminate]]].
  cbn [fst snd]. split.
  - intros Hnever. exfalso. eapply Hnever. reflexivity.
  - intros Hover. apply Js_gtb_le in Hfunds. exfalso. lra.
Qed.

Lemma refused_bet_changes_nothing_witness :
  (MarketView.placeBet 1000 12 "pred_9" (Sample.post "p1" 1000 50 0) overBet poorGame).2
  = poorGame
  /\ forall prediction,
       (MarketView.placeBet 1000 12 "pred_9" (Sample.post "p1" 1000 50 0)
          overBet poorGame).1
       <> MarketView.Accepted prediction.
Proof.
  apply (refused_bet_changes_nothing 1000 12 "pred_9" (Sample.post "p1" 1000 50 0)
           overBet poorGame).
  vm_compute. reflexivity.
Defined.

(* ================================================================= *)
(** ** Tournaments: what every history keeps *)

Lemma rerank_userIds (board : list TournamentParticipant.t) :
  map TournamentParticipant.userId (TournamentService.rerank board)
  = map TournamentParticipant.userId board.
Proof.
  unfold TournamentService.rerank.
  change (map TournamentParticipant.userId) with (fmap (M:=list) TournamentParticipant.userId).
  rewrite fmap_imap. rewrite <- imap_const. apply imap_ext. reflexivity.
Qed.

Lemma rerank_points (board : list TournamentParticipant.t) :
  map TournamentParticipant.points (TournamentService.rerank board)
  = map TournamentParticipant.points board.
Proof.
  unfold TournamentService.rerank.
  change (map TournamentParticipant.points) with (fmap (M:=list) TournamentParticipant.points).
  rewrite fmap_imap. rewrite <- imap_const. apply imap_ext. reflexivity.
Qed.

Lemma rescored_userIds (board : list TournamentParticipant.t) j participant replaced :
  board !! j = Some participant ->
  TournamentParticipant.userId replaced = TournamentParticipant.userId participant ->
  map TournamentParticipant.userId (<[j := replaced]> board)
  = map TournamentParticipant.userId board.
Proof.
  intros Hj Hid.
  change (map TournamentParticipant.userId) with (fmap (M:=list) TournamentParticipant.userId).
  rewrite list_fmap_insert, Hid. apply list_insert_id.
  rewrite list_lookup_fmap, Hj. reflexivity.
Qed.

Lemma consistent_with_board status' endDate' board tournament :
  TournamentService.consistent tournament ->
  map TournamentParticipant.userId board
  ≡ₚ map TournamentParticipant.userId (Tournament.leaderboard tournament) ->
  TournamentService.consistent
    (TournamentService.withBoard status' endDate' board tournament).
Proof.
  intros (Hnodup & Hcount & Hpool & Hcap) Hperm.
  unfold TournamentService.consistent, TournamentService.withBoard. cbn.
  split; [rewrite Hperm; exact Hnodup|]. split; [|split; assumption].
  rewrite Hcount. f_equal.
  rewrite <- (length_map TournamentParticipant.userId board).
  rewrite <- (length_map TournamentParticipant.userId (Tournament.leaderboard tournament)).
  symmetry. apply Permutation_length. exact Hperm.
Qed.

Lemma found_is_consistent tournamentId (tournaments : list Tournament.t) i tournament :
  Forall TournamentService.consistent tournaments ->
  TournamentService.findTournament tournamentId tournaments = Some (i, tournament) ->
  tournaments !! i = Some tournament /\ TournamentService.consistent tournament.
Proof.
  intros Hall Hfind. apply list_find_Some in Hfind as (Hi & _ & _).
  split; [exact Hi|]. exact (Forall_lookup_1 _ _ _ _ Hall Hi).
Qed.

Lemma join_keeps_consistent tournamentId portfolio (tournaments : list Tournament.t) :
  Forall TournamentService.consistent tournaments ->
  Forall TournamentService.consistent
         (TournamentService.joinTournament tournamentId portfolio tournaments).2.
Proof.
  intros Hall. unfold TournamentService.joinTournament.
  destruct (TournamentService.findTournament tournamentId tournaments)
    as [[i tournament]|] eqn:Hfind; [|exact Hall].
  destruct (found_is_consistent _ _ _ _ Hall Hfind)
    as (Hi & Hnodup & Hcount & Hpool & Hcap).
  destruct (negb _); [exact Hall|].
  destruct (_ <=? _)%Z eqn:Hfull; [exact Hall|].
  destruct (Js.ltb _ _); [exact Hall|].
  destruct (TournamentService.findParticipant _ _) eqn:Hlisted; [exact Hall|].
  cbn [snd]. apply Forall_insert; [exact Hall|].
  apply Z.leb_gt in Hfull.
  unfold TournamentService.findParticipant in Hlisted.
  apply list_find_None in Hlisted.
  unfold TournamentService.consistent. cbn.
  split; [|split; [|split]].
  - rewrite map_app. cbn. apply NoDup_app. split; [exact Hnodup|]. split.
    + intros userId Hin Hnew. apply list_elem_of_singleton in Hnew. subst userId.
      apply list_elem_of_fmap in Hin as (p & Hp & Hin).
      rewrite Forall_forall in Hlisted. apply (Hlisted p Hin). symmetry. exact Hp.
    + apply NoDup_singleton.
  - rewrite length_app. cbn. lia.
  - rewrite Hpool, inject_Z_plus. change (inject_Z 1) with 1. ring.
  - lia.
Qed.

Lemma perform_keeps_consistent c (tournaments : list Tournament.t) :
  Forall TournamentService.consistent tournaments ->
  Forall TournamentService.consistent (TournamentService.perform c tournaments).
Proof.
  intros Hall.
  destruct c as [freshId name description startDate | tournamentId portfolio
                | tournamentId userId isWin consecutiveWins | tournamentId
                | now tournamentId]; cbn [TournamentService.perform].
  - unfold TournamentService.createTournament. cbn [snd].
    apply Forall_app. split; [exact Hall|]. constructor; [|constructor].
    unfold TournamentService.consistent. cbn.
    split; [constructor|]. split; [reflexivity|]. split; [reflexivity|].
    unfold TOURNAMENT_CONFIG.MAX_PARTICIPANTS. lia.
  - apply join_keeps_consistent, Hall.
  - unfold TournamentService.updateTournamentPoints.
    destruct (TournamentService.findTournament tournamentId tournaments)
      as [[i tournament]|] eqn:Hfind; [|exact Hall].
    destruct (found_is_consistent _ _ _ _ Hall Hfind) as (Hi & Hgood).
    destruct (negb _); [exact Hall|].
    destruct (TournamentService.findParticipant userId (Tournament.leaderboard tournament))
      as [[j participant]|] eqn:Hlisted; [|exact Hall].
    apply list_find_Some in Hlisted as (Hj & _ & _).
    apply Forall_insert; [exact Hall|].
    apply consistent_with_board; [exact Hgood|].
    rewrite rerank_userIds.
    rewrite (fmap_Permutation TournamentParticipant.userId _ _
               (Js_sort_Permutation byPointsDesc _)).
    rewrite list_insert_insert_eq.
    erewrite rescored_userIds; [reflexivity | exact Hj | reflexivity].
  - unfold TournamentService.startTournament.
    destruct (TournamentService.findTournament tournamentId tournaments)
      as [[i tournament]|] eqn:Hfind; [|exact Hall].
    destruct (found_is_consistent _ _ _ _ Hall Hfind) as (Hi & Hgood).
    destruct (negb _); [exact Hall|]. cbn [snd].
    apply Forall_insert; [exact Hall|].
    apply consistent_with_board; [exact Hgood | reflexivity].
  - unfold TournamentService.endTournament.
    destruct (TournamentService.findTournament tournamentId tournaments)
      as [[i tournament]|] eqn:Hfind; [|exact Hall].
    destruct (found_is_consistent _ _ _ _ Hall Hfind) as (Hi & Hgood).
    destruct (negb _); [exact Hall|]. cbn [snd].
    apply Forall_insert; [exact Hall|].
    apply consistent_with_board; [exact Hgood|].
    apply fmap_Permutation, Js_sort_Permutation.
Qed.

(** Whatever calls are made on a new tournament service (creations, joins,
    scorings, starts and ends, in any order and with any arguments), every
    tournament lists each user at most once, counts exactly the participants
    on its leaderboard, never exceeds its capacity, and holds a prize pool
    equal to the entry fee times the number of participants. *)
Theorem tournaments_stay_consistent (history : list TournamentService.call) :
  Forall TournamentService.consistent (TournamentService.performAll history []).
Proof.
  unfold TournamentService.performAll.
  assert (Hgen : forall tournaments : list Tournament.t,
             Forall TournamentService.consistent tournaments ->
             Forall TournamentService.consistent
                    (foldl (fun service c => TournamentService.perform c service)
                           tournaments history)).
  { induction history as [|c rest IH]; intros tournaments Hall; [exact Hall|].
    cbn [foldl]. apply IH, perform_keeps_consistent, Hall. }
  apply Hgen. constructor.
Qed.

(* ================================================================= *)
(** ** Tournaments: the end is final *)

Lemma find_after_withBoard tournamentId (tournaments : list Tournament.t) i tournament
    status' endDate' board :
  TournamentService.findTournament tournamentId tournaments = Some (i, tournament) ->
  TournamentService.findTournament tournamentId
    (<[i := TournamentService.withBoard status' endDate' board tournament]> tournaments)
  = Some (i, TournamentService.withBoard status' endDate' board tournament).
Proof.
  intros Hfind. apply (findTournament_after_update _ _ _ tournament); [exact Hfind|].
  apply list_find_Some in Hfind as (_ & Hid & _). exact Hid.
Qed.

(** Ending an active tournament marks it completed at the time of the call
    with its prize pool intact, and from then on the tournament is closed:
    ending it again pays nothing, it cannot be started, scored or joined,
    and none of these calls changes the service. *)
Theorem ended_tournament_is_final (now : Z) (tournamentId : string)
    (tournaments : list Tournament.t) (i : nat) (tournament : Tournament.t) :
  TournamentService.findTournament tournamentId tournaments = Some (i, tournament) ->
  Tournament.status tournament = Tournament.active ->
  let closed := (TournamentService.endTournament now tournamentId tournaments).2 in
  (exists final,
      TournamentService.findTournament tournamentId closed = Some (i, final)
      /\ Tournament.status final = Tournament.completed
      /\ Tournament.endDate final = now
      /\ Tournament.prizePool final = Tournament.prizePool tournament)
  /\ (forall later,
        TournamentService.endTournament later tournamentId closed
        = (TournamentService.mkSettlement [] [], closed))
  /\ TournamentService.startTournament tournamentId closed = (false, closed)
  /\ (forall userId isWin consecutiveWins,
        TournamentService.updateTournamentPoints tournamentId userId isWin
          consecutiveWins closed = closed)
  /\ (forall portfolio,
        TournamentService.joinTournament tournamentId portfolio closed
        = (TournamentService.JoinError "Tournament has already started", closed)).
Proof.
  intros Hfind Hactive closed.
  assert (Hclosed : closed
                    = <[i := TournamentService.withBoard Tournament.completed now
                               (Js.sort byPointsDesc (Tournament.leaderboard tournament))
                               tournament]> tournaments).
  { unfold closed, TournamentService.endTournament. rewrite Hfind, Hactive. reflexivity. }
  pose proof (find_after_withBoard tournamentId tournaments i tournament
                Tournament.completed now
                (Js.sort byPointsDesc (Tournament.leaderboard tournament)) Hfind)
    as Hfound.
  rewrite <- Hclosed in Hfound.
  split; [eexists; split; [exact Hfound|]; repeat split|].
  split; [|split; [|split]].
  - intros later. unfold TournamentService.endTournament. rewrite Hfound. reflexivity.
  - unfold TournamentService.startTournament. rewrite Hfound. reflexivity.
  - intros userId isWin consecutiveWins.
    unfold TournamentService.updateTournamentPoints. rewrite Hfound. reflexivity.
  - intros portfolio. unfold TournamentService.joinTournament. rewrite Hfound. reflexivity.
Qed.

Lemma ended_tournament_is_final_witness :
  TournamentService.startTournament "t2"
    (TournamentService.endTournament 90000000 "t2" runningService).2
  = (false, (TournamentService.endTournament 90000000 "t2" runningService).2).
Proof.
  apply (ended_tournament_is_final 90000000 "t2" runningService 0 activeTournament).
  - reflexivity.
  - reflexivity.
Defined.

(* ================================================================= *)
(** ** Tournaments: scoring *)

Lemma total_Permutation (xs ys : list Z) : xs ≡ₚ ys -> total xs = total ys.
Proof.
  unfold total. induction 1 as [|x xs ys _ IH|x y xs|xs ys zs _ IH1 _ IH2].
  - reflexivity.
  - cbn [foldr]. rewrite IH. reflexivity.
  - cbn [foldr]. lia.
  - rewrite IH1. exact IH2.
Qed.

Lemma total_points_insert (board : list TournamentParticipant.t) j old new :
  board !! j = Some old ->
  total (map TournamentParticipant.points (<[j := new]> board))
  = (total (map TournamentParticipant.points board)
     - TournamentParticipant.points old + TournamentParticipant.points new)%Z.
Proof.
  revert j. induction board as [|p rest IH]; intros j Hj; [discriminate|].
  destruct j as [|j].
  - injection Hj as ->. unfold total. cbn. lia.
  - change (total (TournamentParticipant.points p
                   :: map TournamentParticipant.points (<[j := new]> rest))
            = (total (TournamentParticipant.points p
                      :: map TournamentParticipant.points rest)
               - TournamentParticipant.points old + TournamentParticipant.points new)%Z).
    change (rest !! j = Some old) in Hj.
    pose proof (IH j Hj) as IHj.
    unfold total in *. cbn [foldr]. lia.
Qed.

Lemma imap_keeps_order (f : nat -> TournamentParticipant.t -> TournamentParticipant.t)
    (board : list TournamentParticipant.t) :
  (forall n p, TournamentParticipant.points (f n p) = TournamentParticipant.points p) ->
  StronglySorted byPointsDesc board ->
  StronglySorted byPointsDesc (imap f board).
Proof.
  intros Hf Hsorted. revert f Hf.
  induction Hsorted as [|p rest _ IH Hfirst]; intros f Hf; [constructor|].
  cbn. constructor.
  - apply IH. intros n q. apply Hf.
  - apply Forall_forall. intros q Hq.
    apply elem_of_lookup_imap in Hq as (n & q0 & -> & Hn).
    unfold byPointsDesc. cbn. rewrite !Hf.
    rewrite Forall_forall in Hfirst. apply Hfirst.
    apply list_elem_of_lookup. eauto.
Qed.

Lemma rerank_ranks_from (k : nat) (board : list TournamentParticipant.t) :
  map TournamentParticipant.rank
      (imap (fun index p =>
               TournamentParticipant.mk (TournamentParticipant.userId p)
                 (TournamentParticipant.username p) (TournamentParticipant.points p)
                 (Z.of_nat (k + index) + 1)%Z (TournamentParticipant.predictions p)
                 (TournamentParticipant.winRate p)) board)
  = map (fun n => Z.of_nat n + 1)%Z (seq k (length board)).
Proof.
  revert k. induction board as [|p rest IH]; intros k; [reflexivity|].
  cbn. rewrite Nat.add_0_r. f_equal.
  rewrite <- (IH (S k)). f_equal. apply imap_ext. intros n q _. cbn.
  replace (S (k + n))%nat with (k + S n)%nat by lia. reflexivity.
Qed.

Lemma rerank_standing (board : list TournamentParticipant.t) :
  map standing (TournamentService.rerank board) = map standing board.
Proof.
  unfold TournamentService.rerank.
  change (map standing) with (fmap (M:=list) standing).
  rewrite fmap_imap. rewrite <- imap_const. apply imap_ext. reflexivity.
Qed.

Lemma filter_map_standing (P : string * Z * Z -> Prop) `{!forall e, Decision (P e)}
    (board : list TournamentParticipant.t) :
  filter P (map standing board) = map standing (filter (fun p => P (standing p)) board).
Proof.
  induction board as [|p rest IH]; [reflexivity|].
  cbn [map]. rewrite !filter_cons, IH.
  destruct (decide (P (standing p))); reflexivity.
Qed.

(** Scoring a participant of an active tournament adds 10 points for a win,
    15 for a win on a streak (more than one consecutive win) and takes 2 for
    a loss, to that participant and to no other, and counts one more
    prediction for them; the leaderboard keeps its users, comes out ordered
    by descending points with participants on equal points in the order they
    had, and is ranked 1, 2, ..., N from the top. *)
Theorem scoring_reorders_leaderboard (tournamentId userId : string) (isWin : bool)
    (consecutiveWins : Z) (tournaments : list Tournament.t) (i j : nat)
    (tournament : Tournament.t) (participant : TournamentParticipant.t) :
  TournamentService.findTournament tournamentId tournaments = Some (i, tournament) ->
  Tournament.status tournament = Tournament.active ->
  TournamentService.findParticipant userId (Tournament.leaderboard tournament)
  = Some (j, participant) ->
  let gained :=
    if isWin then (if (1 <? consecutiveWins)%Z then 15 else 10)%Z else (-2)%Z in
  let standings :=
    <[j := (userId, (TournamentParticipant.points participant + gained)%Z,
            (TournamentParticipant.predictions participant + 1)%Z)]>
      (map standing (Tournament.leaderboard tournament)) in
  exists scored,
    TournamentService.findTournament tournamentId
      (TournamentService.updateTournamentPoints tournamentId userId isWin
         consecutiveWins tournaments)
    = Some (i, scored)
    /\ Tournament.status scored = Tournament.active
    /\ Tournament.prizePool scored = Tournament.prizePool tournament
    /\ StronglySorted byPointsDesc (Tournament.leaderboard scored)
    /\ map TournamentParticipant.rank (Tournament.leaderboard scored)
       = map (fun n => Z.of_nat n + 1)%Z
             (seq 0 (length (Tournament.leaderboard tournament)))
    /\ map TournamentParticipant.userId (Tournament.leaderboard scored)
       ≡ₚ map TournamentParticipant.userId (Tournament.leaderboard tournament)
    /\ total (map TournamentParticipant.points (Tournament.leaderboard scored))
       = (total (map TournamentParticipant.points (Tournament.leaderboard tournament))
          + gained)%Z
    /\ map standing (Tournament.leaderboard scored) ≡ₚ standings
    /\ (forall points : Z,
          filter (fun e => e.1.2 = points) (map standing (Tournament.leaderboard scored))
          = filter (fun e => e.1.2 = points) standings).
Proof.
  intros Hfind Hactive Hlisted gained standings.
  unfold TournamentService.updateTournamentPoints.
  rewrite Hfind, Hactive, Hlisted. cbn [bool_decide negb].
  rewrite bool_decide_eq_true_2 by reflexivity. cbn [negb].
  rewrite list_insert_insert_eq.
  set (rated := TournamentParticipant.mk _ _ _ _ _ _).
  set (board := TournamentService.rerank _).
  eexists. split; [apply (find_after_withBoard _ _ _ _ _ _ _ Hfind)|].
  cbn [TournamentService.withBoard Tournament.status Tournament.prizePool
       Tournament.leaderboard].
  apply list_find_Some in Hlisted as (Hj & Huser & _).
  assert (Hstreak : Js.floor (TOURNAMENT_CONFIG.POINTS_PER_WIN
                              * TOURNAMENT_CONFIG.BONUS_MULTIPLIER) = 15%Z)
    by reflexivity.
  assert (Hwin : Js.floor (TOURNAMENT_CONFIG.POINTS_PER_WIN * 1) = 10%Z) by reflexivity.
  assert (Hloss : Js.floor (TOURNAMENT_CONFIG.POINTS_PER_LOSS * 1) = (-2)%Z)
    by reflexivity.
  assert (Hgained : TournamentParticipant.points rated
                    = (TournamentParticipant.points participant + gained)%Z).
  { unfold rated, gained. cbn [TournamentParticipant.points].
    destruct isWin; [destruct (1 <? consecutiveWins)%Z|]; cbn [andb];
      rewrite ?Hstreak, ?Hwin, ?Hloss; reflexivity. }
  assert (Hstandings : map standing (<[j := rated]> (Tournament.leaderboard tournament))
                       = standings).
  { unfold standings. change (map standing) with (fmap (M:=list) standing).
    rewrite list_fmap_insert. f_equal.
    unfold standing at 1. rewrite Hgained. unfold rated.
    cbn [TournamentParticipant.userId TournamentParticipant.predictions].
    rewrite Huser. reflexivity. }
  assert (Hlen : length (Js.sort byPointsDesc
                           (<[j := rated]> (Tournament.leaderboard tournament)))
                 = length (Tournament.leaderboard tournament)).
  { rewrite (Permutation_length (Js_sort_Permutation byPointsDesc _)).
    apply length_insert. }
  split; [reflexivity|]. split; [reflexivity|].
  split; [|split; [|split; [|split; [|split]]]].
  - unfold board, TournamentService.rerank. apply imap_keeps_order; [reflexivity|].
    apply Js_sort_sorted; apply _.
  - unfold board, TournamentService.rerank.
    rewrite <- Hlen. apply (rerank_ranks_from 0).
  - unfold board. rewrite rerank_userIds.
    rewrite (fmap_Permutation TournamentParticipant.userId _ _
               (Js_sort_Permutation byPointsDesc _)).
    erewrite rescored_userIds; [reflexivity | exact Hj | reflexivity].
  - transitivity (total (map TournamentParticipant.points
                               (<[j := rated]> (Tournament.leaderboard tournament)))).
    { unfold board. rewrite rerank_points. apply total_Permutation.
      apply (fmap_Permutation TournamentParticipant.points), Js_sort_Permutation. }
    rewrite (total_points_insert _ j participant rated Hj). rewrite Hgained. lia.
  - unfold board. rewrite rerank_standing, <- Hstandings.
    apply (fmap_Permutation standing), Js_sort_Permutation.
  - intros points. unfold board. rewrite rerank_standing, <- Hstandings.
    rewrite !filter_map_standing. f_equal.
    apply Js_sort_stable. intros a b Ha Hb. unfold byPointsDesc.
    unfold standing in Ha, Hb. cbn in Ha, Hb. lia.
Qed.

Lemma scoring_reorders_leaderboard_witness :
  exists scored,
    TournamentService.findTournament "cup"
      (TournamentService.updateTournamentPoints "cup" "e" true 1 cupService)
    = Some (0%nat, scored)
    /\ map standing (Tournament.leaderboard cupTournament)
       = [ ("d", 15, 1); ("b", 10, 1); ("a", 0, 0); ("e", 0, 0); ("c", -2, 1) ]%Z
    /\ map standing (Tournament.leaderboard scored)
       = [ ("d", 15, 1); ("b", 10, 1); ("e", 10, 1); ("a", 0, 0); ("c", -2, 1) ]%Z
    /\ map TournamentParticipant.rank (Tournament.leaderboard scored)
       = [1; 2; 3; 4; 5]%Z.
Proof.
  destruct (scoring_reorders_leaderboard "cup" "e" true 1 cupService 0 3 cupTournament
              (default (player "e" 0) (Tournament.leaderboard cupTournament !! 3%nat)))
    as (scored & Hfound & _).
  - vm_compute. reflexivity.
  - vm_compute. reflexivity.
  - vm_compute. reflexivity.
  - exists scored. split; [exact Hfound|].
    assert (Hvalue : Some (0%nat, scored)
                     = TournamentService.findTournament "cup"
                         (TournamentService.updateTournamentPoints "cup" "e" true 1
                            cupService))
      by (symmetry; exact Hfound).
    split; [vm_compute; reflexivity|].
    assert (Hscored : scored
                      = default cupTournament
                          (snd <$> TournamentService.findTournament "cup"
                                     (TournamentService.updateTournamentPoints "cup" "e"
                                        true 1 cupService)))
      by (rewrite <- Hvalue; reflexivity).
    rewrite Hscored. split; vm_compute; reflexivity.
Defined.

(* ================================================================= *)
(** ** Tournaments: a successful join *)

(** A join succeeds only on an upcoming tournament with room left and for a
    portfolio that can pay the fee; it moves exactly the entry fee from the
    balance to the prize pool, enters the tournament in the portfolio with 0
    points, and appends the user at the bottom of the leaderboard with 0
    points and the next rank. *)
Theorem join_moves_fee_to_pool (tournamentId : string) (portfolio : UserPortfolio.t)
    (tournaments joined : list Tournament.t) (tournament' : Tournament.t)
    (debited : UserPortfolio.t) :
  TournamentService.joinTournament tournamentId portfolio tournaments
  = (TournamentService.Joined tournament' debited, joined) ->
  exists i tournament newcomer,
    TournamentService.findTournament tournamentId tournaments = Some (i, tournament)
    /\ TournamentService.findTournament tournamentId joined = Some (i, tournament')
    /\ Tournament.status tournament = Tournament.upcoming
    /\ Tournament.status tournament' = Tournament.upcoming
    /\ (Tournament.currentParticipants tournament < Tournament.maxParticipants tournament)%Z
    /\ Tournament.entryFee tournament <= UserPortfolio.memeCoins portfolio
    /\ UserPortfolio.memeCoins debited
       == UserPortfolio.memeCoins portfolio - Tournament.entryFee tournament
    /\ Tournament.prizePool tournament'
       == Tournament.prizePool tournament + Tournament.entryFee tournament
    /\ UserPortfolio.currentTournament debited = Some tournamentId
    /\ UserPortfolio.tournamentPoints debited = 0
    /\ Tournament.leaderboard tournament' = Tournament.leaderboard tournament ++ [newcomer]
    /\ TournamentParticipant.userId newcomer = UserPortfolio.userId portfolio
    /\ TournamentParticipant.points newcomer = 0%Z
    /\ TournamentParticipant.rank newcomer
       = (Z.of_nat (length (Tournament.leaderboard tournament)) + 1)%Z.
Proof.
  intros Hjoin. unfold TournamentService.joinTournament in Hjoin.
  destruct (TournamentService.findTournament tournamentId tournaments)
    as [[i tournament]|] eqn:Hfind; [|discriminate].
  destruct (bool_decide (Tournament.status tournament = Tournament.upcoming)) eqn:Hstatus;
    cbn [negb] in Hjoin; [|discriminate].
  apply bool_decide_eq_true in Hstatus.
  destruct (_ <=? _)%Z eqn:Hfull; [discriminate|]. apply Z.leb_gt in Hfull.
  destruct (Js.ltb _ _) eqn:Hfee; [discriminate|].
  apply not_true_iff_false in Hfee. rewrite Js_ltb_lt in Hfee. apply Qnot_lt_le in Hfee.
  destruct (TournamentService.findParticipant _ _); [discriminate|].
  injection Hjoin as <- <- <-.
  eexists i, tournament, _.
  split; [reflexivity|].
  split.
  { apply (findTournament_after_update _ _ _ tournament); [exact Hfind|].
    apply list_find_Some in Hfind as (_ & Hid & _). exact Hid. }
  cbn. repeat (split; [first [assumption | reflexivity]|]). reflexivity.
Qed.

Lemma join_moves_fee_to_pool_witness :
  exists i tournament newcomer,
    TournamentService.findTournament "t1" [openTournament] = Some (i, tournament)
    /\ Tournament.entryFee tournament <= 1000
    /\ TournamentParticipant.userId newcomer = "user_0001"
    /\ TournamentParticipant.points newcomer = 0%Z.
Proof.
  destruct (join_moves_fee_to_pool "t1" (Sample.portfolio 1000 []) [openTournament]
              (TournamentService.joinTournament "t1" (Sample.portfolio 1000 [])
                 [openTournament]).2
              (Tournament.mk "t1" "Daily Meme Masters" "24 hours" 7200000 93600000
                 (0 + 100) 100 100 (0 + 1) Tournament.upcoming []
                 [ TournamentParticipant.mk "user_0001" "Player_0001" 0 (0 + 1) 0 0 ])
              (UserPortfolio.with_tournament (1000 - 100) "t1" 0
                 (Sample.portfolio 1000 [])))
    as (i & tournament & newcomer & Hfind & _ & _ & _ & _ & Hfee & _ & _ & _ & _ & _
        & Hid & Hpoints & _).
  - reflexivity.
  - exists i, tournament, newcomer. repeat split; assumption.
Defined.

(* ================================================================= *)
(** ** Streak statistics *)

Lemma completed_all_resolved (portfolio : UserPortfolio.t) :
  Forall (fun p => AnalyticsService.isCompleted p = true)
         (AnalyticsService.completedPredictions portfolio).
Proof.
  unfold AnalyticsService.completedPredictions.
  rewrite (Js_sort_Permutation byCreatedDesc _).
  apply Forall_forall. intros p Hp. apply list_elem_of_In, filter_In in Hp. apply Hp.
Qed.

Lemma wins_and_losses_partition (completed : list Prediction.t) :
  Forall (fun p => AnalyticsService.isCompleted p = true) completed ->
  (length (List.filter AnalyticsService.isWonB completed)
   + length (List.filter AnalyticsService.isLostB completed))%nat
  = length completed.
Proof.
  induction 1 as [|p rest Hp _ IH]; [reflexivity|].
  unfold AnalyticsService.isCompleted, AnalyticsService.isWonB,
    AnalyticsService.isLostB in *. cbn [List.filter].
  destruct (bool_decide (Prediction.status p = won)) eqn:Hwon;
    destruct (bool_decide (Prediction.status p = lost)) eqn:Hlost; cbn in *.
  - apply bool_decide_eq_true in Hwon, Hlost. congruence.
  - lia.
  - lia.
  - discriminate.
Qed.

Lemma scan_keeps_bounds (completed : list Prediction.t) :
  Forall (fun p => AnalyticsService.isCompleted p = true) completed ->
  forall c wins losses,
    (AnalyticsService.tempWinStreak c <= AnalyticsService.bestWin c <= wins)%nat ->
    (AnalyticsService.tempLossStreak c <= AnalyticsService.bestLoss c <= losses)%nat ->
    let c' := foldl AnalyticsService.scan c completed in
    (AnalyticsService.tempWinStreak c' <= AnalyticsService.bestWin c'
     <= wins + length (List.filter AnalyticsService.isWonB completed))%nat
    /\ (AnalyticsService.tempLossStreak c' <= AnalyticsService.bestLoss c'
        <= losses + length (List.filter AnalyticsService.isLostB completed))%nat.
Proof.
  induction 1 as [|p rest Hp _ IH]; intros c wins losses Hwin Hloss.
  - cbn. lia.
  - cbn [foldl List.filter]. cbv zeta in IH.
    change (AnalyticsService.isWonB p || AnalyticsService.isLostB p = true) in Hp.
    assert (Hstep :
      AnalyticsService.scan c p
      = if AnalyticsService.isWonB p
        then AnalyticsService.mkCounters (S (AnalyticsService.tempWinStreak c)) 0
               (if (AnalyticsService.bestWin c <? S (AnalyticsService.tempWinStreak c))%nat
                then S (AnalyticsService.tempWinStreak c)
                else AnalyticsService.bestWin c)
               (AnalyticsService.bestLoss c)
        else AnalyticsService.mkCounters 0 (S (AnalyticsService.tempLossStreak c))
               (AnalyticsService.bestWin c)
               (if (AnalyticsService.bestLoss c <? S (AnalyticsService.tempLossStreak c))%nat
                then S (AnalyticsService.tempLossStreak c)
                else AnalyticsService.bestLoss c)) by reflexivity.
    rewrite Hstep. clear Hstep.
    destruct (AnalyticsService.isWonB p) eqn:Hwon.
    + assert (Hnot : AnalyticsService.isLostB p = false).
      { unfold AnalyticsService.isWonB, AnalyticsService.isLostB in *.
        apply bool_decide_eq_true in Hwon. apply bool_decide_eq_false. congruence. }
      rewrite Hnot.
      match goal with
      | |- context [foldl AnalyticsService.scan ?c1 rest] =>
          destruct (IH c1 (S wins) losses) as [H1 H2]
      end.
      * cbn [AnalyticsService.tempWinStreak AnalyticsService.tempLossStreak AnalyticsService.bestWin AnalyticsService.bestLoss].
        destruct (Nat.ltb_spec (AnalyticsService.bestWin c)
                         (S (AnalyticsService.tempWinStreak c))); lia.
      * cbn [AnalyticsService.tempWinStreak AnalyticsService.tempLossStreak AnalyticsService.bestWin AnalyticsService.bestLoss]. lia.
      * cbn [length]. split; [lia | exact H2].
    + cbn [orb] in Hp. rewrite Hp.
      match goal with
      | |- context [foldl AnalyticsService.scan ?c1 rest] =>
          destruct (IH c1 wins (S losses)) as [H1 H2]
      end.
      * cbn [AnalyticsService.tempWinStreak AnalyticsService.tempLossStreak AnalyticsService.bestWin AnalyticsService.bestLoss]. lia.
      * cbn [AnalyticsService.tempWinStreak AnalyticsService.tempLossStreak AnalyticsService.bestWin AnalyticsService.bestLoss].
        destruct (Nat.ltb_spec (AnalyticsService.bestLoss c)
                         (S (AnalyticsService.tempLossStreak c))); lia.
      * cbn [length]. split; [exact H1 | lia].
Qed.

(** The streak report is coherent: only resolved predictions are counted,
    wins and losses add up to the total, each current streak is at most the
    best streak, each best streak is at most the number of wins or losses,
    and the current win and loss streaks are never both positive. *)
Theorem streak_report_is_coherent (portfolio : UserPortfolio.t) :
  let report := AnalyticsService.calculateStreaks portfolio in
  AnalyticsService.totalPredictions report
  = length (List.filter AnalyticsService.isCompleted (UserPortfolio.predictions portfolio))
  /\ (AnalyticsService.totalWins report + AnalyticsService.totalLosses report)%nat
     = AnalyticsService.totalPredictions report
  /\ (AnalyticsService.currentWinStreak report <= AnalyticsService.bestWinStreak report
      <= AnalyticsService.totalWins report)%nat
  /\ (AnalyticsService.currentLossStreak report <= AnalyticsService.bestLossStreak report
      <= AnalyticsService.totalLosses report)%nat
  /\ (AnalyticsService.currentWinStreak report = 0%nat
      \/ AnalyticsService.currentLossStreak report = 0%nat).
Proof.
  intros report. unfold report, AnalyticsService.calculateStreaks.
  pose proof (completed_all_resolved portfolio) as Hall.
  pose proof (wins_and_losses_partition _ Hall) as Hsum.
  destruct (scan_keeps_bounds _ Hall (AnalyticsService.mkCounters 0 0 0 0) 0 0)
    as [Hwin Hloss]; [cbn; lia | cbn; lia |].
  cbn in Hwin, Hloss.
  set (completed := AnalyticsService.completedPredictions portfolio) in *.
  set (c := foldl AnalyticsService.scan _ completed) in *.
  cbn [AnalyticsService.totalPredictions AnalyticsService.totalWins
       AnalyticsService.totalLosses AnalyticsService.currentWinStreak
       AnalyticsService.currentLossStreak AnalyticsService.bestWinStreak
       AnalyticsService.bestLossStreak].
  split.
  { unfold completed, AnalyticsService.completedPredictions.
    apply Permutation_length, Js_sort_Permutation. }
  split; [exact Hsum|].
  destruct completed as [|mostRecent older]; cbn [fst snd]; [lia|].
  destruct (AnalyticsService.isWonB mostRecent); cbn [fst snd]; lia.
Qed.

(* ================================================================= *)
(** ** Achievements and bonuses *)

Lemma filter_length_le {A} (f : A -> bool) (l : list A) :
  (length (List.filter f l) <= length l)%nat.
Proof.
  induction l as [|a l IH]; [reflexivity|]. cbn. destruct (f a); cbn; lia.
Qed.

Lemma filter_length_full {A} (f : A -> bool) (l : list A) :
  length (List.filter f l) = length l <-> Forall (fun a => f a = true) l.
Proof.
  induction l as [|a l IH]; [split; [constructor | reflexivity]|].
  pose proof (filter_length_le f l) as Hle. cbn. destruct (f a) eqn:Ha; cbn.
  - rewrite Forall_cons. split.
    + intros Hlen. split; [exact Ha | apply IH; lia].
    + intros [_ Hall]. f_equal. apply IH, Hall.
  - split; [lia|]. intros Hall. apply Forall_cons in Hall as [Hbad _]. congruence.
Qed.

Lemma lastN_length {A} (n : nat) (l : list A) : length (lastN n l) = Nat.min n (length l).
Proof. unfold lastN. rewrite length_drop. lia. Qed.

(** [checkAchievements] never awards Perfect Predictor: it asks for ten wins
    among the last five predictions.  What it does award is stamped with
    the time of the call, was not unlocked before, and comes without
    repetition. *)
Theorem checkAchievements_never_perfect (now : Z) (portfolio : UserPortfolio.t) :
  let awarded := checkAchievements now portfolio in
  let unlockedIds := map Achievement.id (UserPortfolio.achievements portfolio) in
  ("perfect_predictor" ∉ map Achievement.id awarded)
  /\ Forall (fun a => includes (Achievement.id a) unlockedIds = false
                      /\ Achievement.unlockedAt a = now) awarded
  /\ NoDup (map Achievement.id awarded).
Proof.
  cbv zeta. unfold checkAchievements.
  assert (Hfive : (10 <=? length (List.filter statusIsWon
                                    (lastN 5 (UserPortfolio.predictions portfolio))))%nat
                  = false).
  { apply Nat.leb_gt.
    pose proof (filter_length_le statusIsWon
                  (lastN 5 (UserPortfolio.predictions portfolio))) as Hle.
    rewrite lastN_length in Hle. lia. }
  rewrite Hfive, andb_false_r.
  set (ids := map Achievement.id (UserPortfolio.achievements portfolio)).
  destruct (includes "first_trade" ids) eqn:H1;
    destruct (includes "winning_streak" ids) eqn:H2;
    destruct (includes "high_roller" ids) eqn:H3; cbn [negb andb];
    repeat match goal with
           | |- context [if ?b then _ else _] => destruct b
           end;
    cbn;
    (split; [apply (bool_decide_unpack _); vm_compute; exact I|]);
    (split; [repeat constructor; first [assumption | reflexivity]|]);
    apply (bool_decide_unpack _); vm_compute; exact I.
Qed.

Lemma streak_within_wins (predictions : list Prediction.t) :
  forall current best wins,
    (current <= wins)%nat -> (best <= wins)%nat ->
    ((foldl streakStep (current, best) predictions).2
     <= wins + length (List.filter statusIsWon predictions))%nat.
Proof.
  induction predictions as [|p rest IH]; intros current best wins Hc Hb; [cbn; lia|].
  cbn [foldl List.filter]. unfold streakStep at 2. cbn [fst snd].
  destruct (statusIsWon p).
  - cbn [length]. replace (wins + S (length (List.filter statusIsWon rest)))%nat
      with (S wins + length (List.filter statusIsWon rest))%nat by lia.
    apply IH; lia.
  - eapply Nat.le_trans; [apply (IH 0%nat best wins); lia | lia].
Qed.

(** [calculateUnlockedAchievements] always returns: whenever it reads the
    fifth or the tenth won prediction, there is one.  Its achievements come
    without repetition, and there are none exactly when the portfolio has no
    prediction. *)
Theorem calculateUnlockedAchievements_returns (now : Z) (portfolio : UserPortfolio.t) :
  exists unlocked,
    calculateUnlockedAchievements now portfolio = Some unlocked
    /\ NoDup (map Achievement.id unlocked)
    /\ (unlocked = [] <-> UserPortfolio.predictions portfolio = []).
Proof.
  unfold calculateUnlockedAchievements.
  destruct (UserPortfolio.predictions portfolio) as [|first rest] eqn:Hpreds.
  - exists []. split; [reflexivity|]. split; [constructor | tauto].
  - set (predictions := first :: rest).
    pose proof (streak_within_wins predictions 0 0 0 (Nat.le_refl _) (Nat.le_refl _))
      as Hstreak. cbn [Nat.add] in Hstreak.
    set (maxStreak := (foldl streakStep (0%nat, 0%nat) predictions).2) in *.
    set (wonPredictions := List.filter statusIsWon predictions) in *.
    assert (Hfifth : (5 <= maxStreak)%nat -> is_Some (wonPredictions !! 4%nat))
      by (intros H; apply lookup_lt_is_Some; lia).
    assert (Htenth : (10 <= maxStreak)%nat -> is_Some (wonPredictions !! 9%nat))
      by (intros H; apply lookup_lt_is_Some; lia).
    assert (Hstreaks :
      exists streak perfect,
        (if (5 <=? maxStreak)%nat
         then p ← wonPredictions !! 4%nat;
              Some [ACHIEVEMENTS.WINNING_STREAK (Prediction.created p)]
         else Some []) = Some streak
        /\ (if (10 <=? maxStreak)%nat
            then p ← wonPredictions !! 9%nat;
                 Some [ACHIEVEMENTS.PERFECT_PREDICTOR (Prediction.created p)]
            else Some []) = Some perfect
        /\ (streak = [] \/ exists at5, streak = [ACHIEVEMENTS.WINNING_STREAK at5])
        /\ (perfect = [] \/ exists at10, perfect = [ACHIEVEMENTS.PERFECT_PREDICTOR at10])).
    { destruct (Nat.leb_spec 5 maxStreak) as [H5|H5];
        [destruct (Hfifth H5) as [p5 ->]|];
        (destruct (Nat.leb_spec 10 maxStreak) as [H10|H10];
         [destruct (Htenth H10) as [p10 ->]|]);
        eexists; eexists; repeat split; eauto. }
    destruct Hstreaks as (streak & perfect & -> & -> & Hfive & Hten).
    cbn [mbind option_bind]. eexists. split; [reflexivity|].
    split; [|split; discriminate].
    set (crash := if (GAME_CONFIG.MARKET_CRASH_SURVIVOR_THRESHOLD <=? _)%nat then _ else _).
    assert (Hcrash : crash = [] \/ exists at7, crash = [ACHIEVEMENTS.MARKET_CRASH_SURVIVOR at7]).
    { unfold crash. destruct (_ <=? _)%nat; [|tauto]. destruct (Js.geb _ _); eauto. }
    clearbody crash.
    set (highRoller := match List.find isHighBet predictions with
                       | Some b => _ | None => _ end).
    assert (Hhigh : highRoller = [] \/ exists at1, highRoller = [ACHIEVEMENTS.HIGH_ROLLER at1]).
    { unfold highRoller. destruct (List.find isHighBet predictions); eauto. }
    clearbody highRoller.
    destruct Hhigh as [-> | [at1 ->]]; destruct Hfive as [-> | [at5 ->]];
      destruct Hten as [-> | [at10 ->]]; destruct Hcrash as [-> | [at7 ->]];
      cbn; apply (bool_decide_unpack _); vm_compute; exact I.
Qed.

(** The perfect-prediction bonus is 50 when there are at least ten
    predictions and the last ten are all won, and 0 otherwise. *)
Theorem perfect_bonus_needs_ten_wins (predictions : list Prediction.t) :
  (checkPerfectPredictionBonus predictions = 50
   /\ (10 <= length predictions)%nat
   /\ Forall (fun p => Prediction.status p = won) (lastN 10 predictions))
  \/ (checkPerfectPredictionBonus predictions = 0
      /\ ~ ((10 <= length predictions)%nat
            /\ Forall (fun p => Prediction.status p = won) (lastN 10 predictions))).
Proof.
  unfold checkPerfectPredictionBonus.
  pose proof (filter_length_le statusIsWon (lastN 10 predictions)) as Hle.
  pose proof (filter_length_full statusIsWon (lastN 10 predictions)) as Hfull.
  pose proof (lastN_length 10 predictions) as Hlen.
  assert (Hwon : Forall (fun p => statusIsWon p = true) (lastN 10 predictions)
                 <-> Forall (fun p => Prediction.status p = won) (lastN 10 predictions)).
  { apply Forall_iff. intros p. unfold statusIsWon. apply bool_decide_eq_true. }
  destruct (Nat.leb_spec 10 (length (List.filter statusIsWon (lastN 10 predictions))))
    as [Hten|Hfew].
  - left. split; [reflexivity|]. split; [lia|]. apply Hwon, Hfull. lia.
  - right. split; [reflexivity|]. intros [Hmany Hall].
    apply Hwon, Hfull in Hall. lia.
Qed.

(* ================================================================= *)
(** ** Alerts *)

Lemma markAllAsRead_leaves_none_unread (alerts : list Alert.t) :
  AlertService.getUnreadAlerts (AlertService.markAllAsRead alerts) = [].
Proof.
  unfold AlertService.getUnreadAlerts, AlertService.markAllAsRead.
  induction alerts as [|a rest IH]; [reflexivity|]. cbn. exact IH.
Qed.

(** Alert bookkeeping: marking all alerts as read leaves none unread and
    keeps every alert in place; an alert added afterwards is put first, in
    front of the alerts there were, and is then the only unread one; the
    clean-up keeps the 50 newest alerts, in order, drops the rest, and
    changes nothing when run again. *)
Theorem alert_bookkeeping (now : Z) (freshId type title message : string)
    (actionUrl : option string) (alerts : list Alert.t) :
  let seen := AlertService.markAllAsRead alerts in
  let trimmed := AlertService.cleanupOldAlerts alerts in
  let fresh := Alert.mk freshId type title message now false actionUrl in
  AlertService.getUnreadAlerts seen = []
  /\ map Alert.id seen = map Alert.id alerts
  /\ AlertService.getUnreadAlerts
       (AlertService.addAlert now freshId type title message actionUrl seen)
     = [fresh]
  /\ trimmed = take 50 alerts
  /\ length trimmed = Nat.min 50 (length alerts)
  /\ AlertService.cleanupOldAlerts trimmed = trimmed
  /\ head (AlertService.addAlert now freshId type title message actionUrl alerts)
     = Some fresh
  /\ tail (AlertService.addAlert now freshId type title message actionUrl alerts)
     = alerts
  /\ (forall n alert,
        alerts !! n = Some alert ->
        AlertService.addAlert now freshId type title message actionUrl alerts !! S n
        = Some alert).
Proof.
  cbv zeta.
  assert (Htake : AlertService.cleanupOldAlerts alerts = take 50 alerts).
  { unfold AlertService.cleanupOldAlerts.
    destruct (Nat.ltb_spec 50 (length alerts)) as [Hlong|Hshort]; [reflexivity|].
    symmetry. apply take_ge. exact Hshort. }
  split; [apply markAllAsRead_leaves_none_unread|].
  split.
  { unfold AlertService.markAllAsRead. rewrite map_map. apply map_ext. reflexivity. }
  split.
  { unfold AlertService.addAlert, AlertService.getUnreadAlerts. cbn [List.filter Alert.read negb].
    f_equal. apply markAllAsRead_leaves_none_unread. }
  split; [exact Htake|]. split; [rewrite Htake; apply length_take|].
  split.
  { rewrite Htake. unfold AlertService.cleanupOldAlerts.
    destruct (Nat.ltb_spec 50 (length (take 50 alerts))) as [Hlong|_]; [|reflexivity].
    rewrite length_take in Hlong. lia. }
  split; [reflexivity|]. split; [reflexivity|].
  intros n alert Hn. exact Hn.
Qed.

(** Marking an alert as read touches the first alert with that id only, and
    an unknown id changes nothing. *)
Lemma markAsRead_first_only (alertId : string) (alerts : list Alert.t) :
  match list_find (fun a => Alert.id a = alertId) alerts with
  | None => AlertService.markAsRead alertId alerts = alerts
  | Some (i, alert) =>
      AlertService.markAsRead alertId alerts !! i = Some (Alert.markRead alert)
      /\ forall j, j <> i -> AlertService.markAsRead alertId alerts !! j = alerts !! j
  end.
Proof.
  unfold AlertService.markAsRead.
  destruct (list_find _ alerts) as [[i alert]|] eqn:Hfind; [|reflexivity].
  apply list_find_Some in Hfind as (Hi & _ & _). split.
  - apply list_lookup_insert_eq. eapply lookup_lt_Some, Hi.
  - intros j Hne. apply list_lookup_insert_ne. congruence.
Qed.
